(** * cellmaps_coembedding: the co-embedding generators and the runner

    A shallow embedding of [cellmaps_coembedding/runner.py] and of the
    command-line entry point [cellmaps_coembedding/cellmaps_coembeddingcmd.py].

    Python values are modelled as follows.
    - [str] is [string] (a sequence of bytes; the byte-wise lexicographic
      order of UTF-8 text is Python's code-point order).
    - A parameter that may be [None] is an [option]; truthiness is written
      out ([truthy_str], [truthy_list]).
    - [set()] of identifiers is [gset string], a file system is a
      [gmap string node].
    - A raised exception is the [Raise] case of [result]; code that also
      touches the file system runs in the state-and-error monad [M].
    - Floats are kept abstract (class [Env]): the code only parses them,
      prints them, compares one with [0] and truncates one product. *)

From Stdlib Require Import ZArith String Ascii List.
From stdpp Require Import base option list gmap sets strings sorting pretty.

Local Open Scope string_scope.
Local Open Scope Z_scope.

(** ** Python exceptions and results *)

Module Py.

Inductive exn :=
| CellmapsCoEmbeddingError (msg : string)
| TypeError (msg : string)
| NameError (name : string)
| AttributeError (attr : string)
| IndexError
| ValueError (msg : string)
| OSError (path : string)
| KeyError (key : string)
| NotImplementedError (msg : string)
| ExternalError (msg : string).

Inductive result (A : Type) :=
| Ok (a : A)
| Raise (e : exn).
Arguments Ok {A} a.
Arguments Raise {A} e.

#[export] Instance result_ret : MRet result := fun A a => Ok a.
#[export] Instance result_bind : MBind result := fun A B f r =>
  match r with
  | Ok a => f a
  | Raise e => Raise e
  end.
#[export] Instance result_fmap : FMap result := fun A B f r =>
  match r with
  | Ok a => Ok (f a)
  | Raise e => Raise e
  end.

Definition is_ok {A} (r : result A) : bool :=
  match r with Ok _ => true | Raise _ => false end.

(** [if s:] for a [str] that may be [None], and [if l:] for a list that
    may be [None]. *)
Definition truthy_str (o : option string) : bool :=
  match o with
  | Some s => negb (String.eqb s "")
  | None => false
  end.

Definition truthy_list {A} (o : option (list A)) : bool :=
  match o with
  | Some (_ :: _) => true
  | _ => false
  end.

(** [len(x)]: a [TypeError] on [None]. *)
Definition py_len {A} (o : option (list A)) : result nat :=
  match o with
  | Some l => Ok (length l)
  | None => Raise (TypeError "object of type 'NoneType' has no len()")
  end.

(** [l[i]] *)
Definition py_index {A} (l : list A) (i : nat) : result A :=
  match l !! i with
  | Some a => Ok a
  | None => Raise IndexError
  end.

(** [str(n)] for an integer. *)
Definition str_of_Z (z : Z) : string := pretty z.
Definition str_of_nat (n : nat) : string := pretty n.

(** [posixpath.join(a, b)] *)
Fixpoint ends_with_sep (s : string) : bool :=
  match s with
  | EmptyString => false
  | String c EmptyString => Ascii.eqb c "/"
  | String _ s' => ends_with_sep s'
  end.

Definition starts_with_sep (s : string) : bool :=
  match s with
  | String c _ => Ascii.eqb c "/"
  | EmptyString => false
  end.

Definition os_path_join (a b : string) : string :=
  if starts_with_sep b then b
  else if String.eqb a "" || ends_with_sep a then a +:+ b
  else a +:+ "/" +:+ b.

(** [os.path.join] with a first argument that may be [None]. *)
Definition os_path_join_opt (a : option string) (b : string) : result string :=
  match a with
  | Some d => Ok (os_path_join d b)
  | None =>
      Raise (TypeError "expected str, bytes or os.PathLike object, not NoneType")
  end.

(** [posixpath.dirname(p)] *)
Fixpoint rfind_sep_go (s : string) (pos : nat) (last : option nat) : option nat :=
  match s with
  | EmptyString => last
  | String c s' =>
      rfind_sep_go s' (S pos) (if Ascii.eqb c "/" then Some pos else last)
  end.

Fixpoint all_sep (s : string) : bool :=
  match s with
  | EmptyString => true
  | String c s' => Ascii.eqb c "/" && all_sep s'
  end.

Fixpoint rstrip_sep (s : string) : string :=
  match s with
  | EmptyString => EmptyString
  | String c s' =>
      let t := rstrip_sep s' in
      if Ascii.eqb c "/" && String.eqb t "" then EmptyString else String c t
  end.

Definition os_path_dirname (p : string) : string :=
  match rfind_sep_go p 0 None with
  | None => ""
  | Some i =>
      let head := String.substring 0 (S i) p in
      if all_sep head then head else rstrip_sep head
  end.

(** ** The file system

    A regular file is seen either as the rows [csv] reads from it or
    writes to it, or as plain text. *)
Inductive node :=
| Tsv (rows : list (list string))
| Text (s : string)
| Dir.

Abbreviation fs := (gmap string node).

Definition os_path_exists (files : fs) (p : string) : bool :=
  bool_decide (is_Some (files !! p)).

Definition os_path_isfile (files : fs) (p : string) : bool :=
  match files !! p with
  | Some (Tsv _) | Some (Text _) => true
  | _ => false
  end.

Definition os_path_isdir (files : fs) (p : string) : bool :=
  match files !! p with
  | Some Dir => true
  | _ => false
  end.

End Py.
Export Py.

(** ** What the code takes from outside

    [cellmaps_utils.constants], the float operations the code applies,
    [repr] of a string, [csv.reader] on a text file, [os.path.abspath] and
    whether the operating system lets a file be opened for writing. *)
Class Env := {
  PPI_EMBEDDING_FILE : string;
  IMAGE_EMBEDDING_FILE : string;
  CO_EMBEDDING_FILE : string;
  RO_CRATE_METADATA_FILE : string;
  float : Type;
  (** the float a literal of the source denotes *)
  float_literal : string → float;
  (** [float(v)], [None] for a [ValueError] *)
  float_of_str : string → option float;
  (** [str(x)], as [csv.writer] prints a float cell *)
  float_str : float → string;
  (** [p > 0] *)
  float_gt0 : float → bool;
  (** [int(p * n)] for a length [n]; [None] when the product is a NaN or
      an infinity, which [int] refuses *)
  float_mul_int : float → nat → option Z;
  (** the float [random.random()] makes of one draw *)
  float_of_draw : nat → float;
  (** [repr(s)] of a [str]; it is what [str(KeyError(s))] gives *)
  str_repr : string → string;
  csv_reader : string → list (list string);
  os_path_abspath : string → string;
  can_open_w : string → bool
}.

(** ** State and exceptions together

    [M S A] is a computation that reads and updates a state [S] and either
    returns an [A] or raises. The state reached is kept in both cases: a
    file written before the exception stays written. *)
Module StateExn.

Definition M (S A : Type) : Type := S → result A * S.

#[export] Instance M_ret {S} : MRet (M S) := fun A a s => (Ok a, s).
#[export] Instance M_bind {S} : MBind (M S) := fun A B f c s =>
  match c s with
  | (Ok a, s') => f a s'
  | (Raise e, s') => (Raise e, s')
  end.

Definition lift {S A} (r : result A) : M S A := fun s => (r, s).
Definition raise {S A} (e : exn) : M S A := fun s => (Raise e, s).
Definition gets {S A} (f : S → A) : M S A := fun s => (Ok (f s), s).
Definition modify {S} (f : S → S) : M S unit := fun s => (Ok tt, f s).

(** [try: c finally: f]. An exception of [f] replaces the outcome of [c]. *)
Definition try_finally {S A} (c : M S A) (f : M S unit) : M S A := fun s =>
  let '(r, s1) := c s in
  match f s1 with
  | (Ok _, s2) => (r, s2)
  | (Raise e, s2) => (Raise e, s2)
  end.

(** [try: c except Exception as e: h e] *)
Definition try_except {S A} (c : M S A) (h : exn → M S A) : M S A := fun s =>
  match c s with
  | (Ok a, s1) => (Ok a, s1)
  | (Raise e, s1) => h e s1
  end.

(** [if b: raise e] and [if b: c] *)
Definition raise_if {S} (b : bool) (e : exn) : M S unit :=
  if b then raise e else mret tt.
Definition when {S} (b : bool) (c : M S unit) : M S unit :=
  if b then c else mret tt.

(** Run [c] on a component of the state. *)
Definition zoom {S T A} (get : S → T) (set : T → S → S) (c : M T A) : M S A :=
  fun s => let '(r, t) := c (get s) in (r, set t s).

End StateExn.
Export StateExn.

(** ** runner.py *)
Module Runner.
Section Runner.
Context `{Env}.

(** The process-wide state the generators touch: the files on disk and
    the [random] module's generator, seen as the sequence of its draws
    and the number of draws taken. *)
Record world := World {
  files : fs;
  draws : nat → nat;
  drawn : nat
}.

Definition set_files (f : fs → fs) (w : world) : world :=
  World (f (files w)) (draws w) (drawn w).

(** *** [EmbeddingGenerator] *)

Record EmbeddingGenerator := {
  _dimensions : Z;
  _embedding_files : list string;
  _embedding_names : list string
}.

Definition not_found_msg (embedding_dir : string) : string :=
  "Embedding file not found in " +:+ embedding_dir.

Definition use_either_msg : string :=
  "Use either ppi_embeddingdir and image_embeddingdir or embeddings, not both".

Definition names_mismatch_msg : string :=
  "Input list of embedding names does not match number of embeddings.".

Definition _get_embedding_file_from_dirs (fsys : fs)
    (embedding_dir : option string) : result string :=
  path_ppi ← os_path_join_opt embedding_dir PPI_EMBEDDING_FILE;
  if os_path_exists fsys path_ppi then Ok path_ppi
  else
    path_image ← os_path_join_opt embedding_dir IMAGE_EMBEDDING_FILE;
    if os_path_exists fsys path_image then Ok path_image
    else Raise (CellmapsCoEmbeddingError
                  (not_found_msg (default "None" embedding_dir))).

(** ['emd_{}'.format(x) for x in np.arange(n)] *)
Definition default_names (n : nat) : list string :=
  (fun x => "emd_" +:+ str_of_nat x) <$> seq 0 n.

Definition _get_embedding_files_and_names (fsys : fs)
    (embedding_files : option (list string))
    (ppi_embeddingdir image_embeddingdir : option string)
    (embedding_names : option (list string))
    : result (list string * list string) :=
  '(embeddings, names) ←
    (if truthy_str ppi_embeddingdir || truthy_str image_embeddingdir then
       if truthy_list embedding_files
       then Raise (CellmapsCoEmbeddingError use_either_msg)
       else
         ppi_embedding_file ← _get_embedding_file_from_dirs fsys ppi_embeddingdir;
         image_embedding_file ← _get_embedding_file_from_dirs fsys image_embeddingdir;
         Ok (Some [ppi_embedding_file; image_embedding_file],
             match embedding_names with
             | None => Some ["PPI"; "image"]
             | Some _ => Some []
             end)
     else Ok (embedding_files, embedding_names));
  names ← match names with
          | None => n ← py_len embedding_files; Ok (default_names n)
          | Some ns => Ok ns
          end;
  n_embeddings ← py_len embeddings;
  if bool_decide (length names ≠ n_embeddings)
  then Raise (CellmapsCoEmbeddingError names_mismatch_msg)
  else Ok (default [] embeddings, names).

(** [EmbeddingGenerator.__init__] *)
Definition EmbeddingGenerator_init (fsys : fs) (dimensions : Z)
    (ppi_embeddingdir image_embeddingdir : option string)
    (embedding_files embedding_names : option (list string))
    : result EmbeddingGenerator :=
  '(efiles, enames) ← _get_embedding_files_and_names fsys embedding_files
                        ppi_embeddingdir image_embeddingdir embedding_names;
  Ok {| _dimensions := dimensions;
        _embedding_files := efiles;
        _embedding_names := enames |}.

Definition get_embedding_files (self : EmbeddingGenerator) : list string :=
  _embedding_files self.

Definition get_dimensions (self : EmbeddingGenerator) : Z :=
  _dimensions self.

(** [entry[0]] of a row read by [csv] (a blank line is the row [[]]). *)
Definition row_id (entry : list string) : result string := py_index entry 0.

Fixpoint _get_set_of_gene_names (embedding : list (list string))
    : result (gset string) :=
  match embedding with
  | [] => Ok ∅
  | entry :: rest =>
      name ← row_id entry;
      name_set ← _get_set_of_gene_names rest;
      Ok ({[name]} ∪ name_set)
  end.

(** The rows [csv.reader(f, delimiter='\t')] gives for a file. *)
Definition read_rows (fsys : fs) (path : string) : result (list (list string)) :=
  match fsys !! path with
  | Some (Tsv rows) => Ok rows
  | Some (Text s) => Ok (csv_reader s)
  | Some Dir | None => Raise (OSError path)
  end.

(** [next(reader, None)] drops the header when there is one. *)
Definition _get_embeddings (fsys : fs) (embedding_file : string)
    : result (list (list string)) :=
  rows ← read_rows fsys embedding_file;
  Ok (tail rows).


(** *** Sorting, [random.sample] and [np.array] *)

(** [e.sort(key=lambda x: x[0])]. [list.sort] computes every key first (an
    empty row raises [IndexError]) and is stable: rows with equal keys keep
    their order. Insertion from the right, before the first row whose key
    is not smaller, gives that unique result. *)
Fixpoint insert_by_key (kx : string * list string)
    (l : list (string * list string)) : list (string * list string) :=
  match l with
  | [] => [kx]
  | ky :: l' =>
      if bool_decide (String.le kx.1 ky.1) then kx :: ky :: l'
      else ky :: insert_by_key kx l'
  end.

Definition sort_by_key (l : list (string * list string))
    : list (string * list string) :=
  foldr insert_by_key [] l.

Definition with_key (x : list string) : result (string * list string) :=
  k ← row_id x; Ok (k, x).

Definition sort_rows (e : list (list string)) : result (list (list string)) :=
  keyed ← mapM with_key e;
  Ok (snd <$> sort_by_key keyed).

(** The selection loop of [random.sample]: the [i]-th draw [j] is below
    the [m = n - i] entries still in the pool, [pool[j]] is taken and
    replaced by the last of them. *)
Fixpoint sample_loop {A} (pool : list A) (m k : nat) (draw : nat → nat)
    (pos : nat) : list A * nat :=
  match k with
  | O => ([], pos)
  | S k' =>
      let j := Nat.modulo (draw pos) m in
      match pool !! j, pool !! Nat.pred m with
      | Some x, Some y =>
          let '(rest, pos') :=
            sample_loop (<[j := y]> pool) (Nat.pred m) k' draw (S pos) in
          (x :: rest, pos')
      | _, _ => ([], pos)
      end
  end.

Definition sample_msg : string := "Sample larger than population or is negative".

Definition random_sample {A} (population : list A) (k : Z) : M world (list A) :=
  fun w =>
    if bool_decide (0 ≤ k ≤ Z.of_nat (length population)) then
      let '(res, pos') :=
        sample_loop population (length population) (Z.to_nat k)
                    (draws w) (drawn w) in
      (Ok res, World (files w) (draws w) pos')
    else (Raise (ValueError sample_msg), w).

(** [random.random()] *)
Definition random_random : M world float := fun w =>
  (Ok (float_of_draw (draws w (drawn w))),
   World (files w) (draws w) (S (drawn w))).

(** [np.array] of a list of rows (numpy 1.24 and later): rows of unequal
    lengths are refused. *)
Definition np_array_2d {A} (rows : list (list A)) : result (list (list A)) :=
  match rows with
  | [] => Ok []
  | r :: rest =>
      if forallb (fun r' => Nat.eqb (length r') (length r)) rest then Ok rows
      else Raise (ValueError "inhomogeneous shape")
  end.

Definition py_float (v : string) : result float :=
  match float_of_str v with
  | Some x => Ok x
  | None => Raise (ValueError ("could not convert string to float: " +:+ v))
  end.

(** ['\n'.join(lines)] *)
Fixpoint join_lines (lines : list string) : string :=
  match lines with
  | [] => ""
  | [l] => l
  | l :: rest => l +:+ String "010"%char (join_lines rest)
  end.

(** [open(path, 'w')] followed by one [write] and the close. *)
Definition write_text (path : string) (s : string) : M world unit := fun w =>
  if can_open_w path then (Ok tt, set_files (insert path (Text s)) w)
  else (Raise (OSError path), w).

(** *** [MuseCoEmbeddingGenerator] *)

Record MuseCoEmbeddingGenerator := {
  muse_base : EmbeddingGenerator;
  _outdir : option string;
  _k : Z;
  triplet_margin : float;
  _dropout : float;
  _n_epochs : Z;
  _n_epochs_init : Z;
  _jackknife_percent : float
}.

Definition MuseCoEmbeddingGenerator_init (fsys : fs) (dimensions k : Z)
    (margin dropout : float) (n_epochs n_epochs_init : Z)
    (outdir : option string) (embedding_files : option (list string))
    (ppi_embeddingdir image_embeddingdir : option string)
    (embedding_names : option (list string)) (jackknife_percent : float)
    : result MuseCoEmbeddingGenerator :=
  base ← EmbeddingGenerator_init fsys dimensions ppi_embeddingdir
           image_embeddingdir embedding_files embedding_names;
  Ok {| muse_base := base; _outdir := outdir; _k := k;
        triplet_margin := margin; _dropout := dropout;
        _n_epochs := n_epochs; _n_epochs_init := n_epochs_init;
        _jackknife_percent := jackknife_percent |}.

(** The arguments of [muse.muse_fit_predict]. *)
Record fit_args := {
  resultsdir : string;
  modality_data : list (list (list float));
  modality_names : list string;
  name_index : list string;
  test_subset : list nat;
  latent_dim : Z;
  n_epochs : Z;
  n_epochs_init : Z;
  fit_triplet_margin : float;
  fit_k : Z;
  fit_dropout : float
}.

(** [cellmaps_coembedding.muse_sc.muse_fit_predict]: the fitter, which
    returns the fused vectors (the model it also returns is not used). *)
Variable muse_fit_predict : fit_args → M world (list (list float)).

(** Lines 179-183: read every file, then sort each table and log its
    size under the name at the same position. *)
Definition load_tables (fsys : fs) (self : EmbeddingGenerator)
    : result (list (list (list string))) :=
  embeddings ← mapM (_get_embeddings fsys) (_embedding_files self);
  mapM (fun '(index, e) =>
          sorted ← sort_rows e;
          _ ← py_index (_embedding_names self) index;
          Ok sorted)
       (imap pair embeddings).

(** Lines 185-186. *)
Definition intersect_names (embeddings : list (list (list string)))
    : result (gset string) :=
  embedding_name_sets ← mapM _get_set_of_gene_names embeddings;
  s0 ← py_index embedding_name_sets 0%nat;
  s1 ← py_index embedding_name_sets 1%nat;
  Ok (s0 ∩ s1).

Definition in_set (s : gset string) (x : list string) : bool :=
  match x with
  | id :: _ => bool_decide (id ∈ s)
  | [] => false
  end.

(** Line 192; every row has passed [x[0]] in the sort. *)
Definition make_name_index (s : gset string) (e : list (list string))
    : list string :=
  omap head (filter (fun x => in_set s x) e).

(** Line 196, for one table. *)
Definition make_matrix (s : gset string) (e : list (list string))
    : result (list (list float)) :=
  rows ← mapM (fun xi => mapM py_float (tail xi))
              (filter (fun x => in_set s x) e);
  np_array_2d rows.

(** Lines 179-196: the aligned identifiers and one matrix per table. *)
Definition align (fsys : fs) (self : EmbeddingGenerator)
    : result (gset string * list string * list (list (list float))) :=
  embeddings ← load_tables fsys self;
  intersection_name_set ← intersect_names embeddings;
  e0 ← py_index embeddings 0%nat;
  let name_index := make_name_index intersection_name_set e0 in
  embedding_data ← mapM (make_matrix intersection_name_set) embeddings;
  Ok (intersection_name_set, name_index, embedding_data).

Definition test_genes_path (resultsdir : string) : string :=
  resultsdir +:+ "_test_genes.txt".

(** Lines 200-203: the held-out positions and their side file. *)
Definition hold_out (self : MuseCoEmbeddingGenerator) (resultsdir : string)
    (name_index : list string) : M world (list nat) :=
  let n := length name_index in
  k ← lift (match float_mul_int (_jackknife_percent self) n with
            | Some k => Ok k
            | None => Raise (ValueError "cannot convert float to integer")
            end);
  test_subset ← random_sample (seq 0 n) k;
  _ ← when (float_gt0 (_jackknife_percent self))
        (write_text (test_genes_path resultsdir)
           (join_lines (omap (fun i => name_index !! i) test_subset)));
  mret test_subset.

(** A table cell handed to [csv.writer]. *)
Inductive cell :=
| CStr (s : string)
| CInt (z : Z)
| CFloat (x : float).

Definition cell_str (c : cell) : string :=
  match c with
  | CStr s => s
  | CInt z => str_of_Z z
  | CFloat x => float_str x
  end.

(** What a generator does when it is iterated to its end: the rows it
    yields, in order, and the exception that ended it, if one did. *)
Definition Gen : Type := world → (list (list cell) * option exn) * world.

(** Lines 217-220. *)
Fixpoint emit_rows (name_index : list string) (index : nat)
    (res_embedings : list (list float)) : list (list cell) * option exn :=
  match res_embedings with
  | [] => ([], None)
  | embedding :: rest =>
      match name_index !! index with
      | None => ([], Some IndexError)
      | Some name =>
          let '(rows, e) := emit_rows name_index (S index) rest in
          ((CStr name :: (CFloat <$> embedding)) :: rows, e)
      end
  end.

(** Lines 179-216: everything before the first row is yielded. *)
Definition fit (self : MuseCoEmbeddingGenerator)
    : M world (list string * list (list float)) :=
  fsys ← gets files;
  '(_, name_index, embedding_data) ← lift (align fsys (muse_base self));
  resultsdir ← lift (os_path_join_opt (_outdir self) "muse");
  test_subset ← hold_out self resultsdir name_index;
  res_embedings ← muse_fit_predict
    {| resultsdir := resultsdir;
       modality_data := embedding_data;
       modality_names := _embedding_names (muse_base self);
       name_index := name_index;
       test_subset := test_subset;
       latent_dim := get_dimensions (muse_base self);
       n_epochs := _n_epochs self;
       n_epochs_init := _n_epochs_init self;
       fit_triplet_margin := triplet_margin self;
       fit_k := _k self;
       fit_dropout := _dropout self |};
  mret (name_index, res_embedings).

Definition Muse_get_next_embedding (self : MuseCoEmbeddingGenerator) : Gen :=
  fun w =>
    match fit self w with
    | (Ok (name_index, res_embedings), w') =>
        (emit_rows name_index 0 res_embedings, w')
    | (Raise e, w') => (([], Some e), w')
    end.


(** *** [FakeCoEmbeddingGenerator] *)

(** The names bound at module level in [runner.py]: its imports, its
    logger and its four classes. *)
Definition runner_globals : list string :=
  ["os"; "csv"; "random"; "logging"; "time"; "date"; "pd"; "np"; "dill";
   "sys"; "tqdm"; "constants"; "logutils"; "ProvenanceUtil";
   "cellmaps_coembedding"; "muse"; "CellmapsCoEmbeddingError"; "logger";
   "EmbeddingGenerator"; "MuseCoEmbeddingGenerator";
   "FakeCoEmbeddingGenerator"; "CellmapsCoEmbedder"].

(** Reading a variable in a function body: its locals, then the module's
    globals (no builtin is called [x]). *)
Definition load_name (locals : list string) (name : string) : result unit :=
  if bool_decide (name ∈ (locals ++ runner_globals)%list) then Ok tt
  else Raise (NameError name).

(** [[random.random() for x in range(0, n)]] *)
Fixpoint random_floats (n : nat) : M world (list float) :=
  match n with
  | O => mret []
  | S n' => x ← random_random; rest ← random_floats n'; mret (x :: rest)
  end.

(** Lines 259-262, the loop over the intersection. *)
Definition fake_rows (names : list string) (dimensions : Z)
    : M world (list (list cell)) :=
  mapM (fun embed_name =>
          v ← random_floats (Z.to_nat dimensions);
          mret (CStr embed_name :: (CFloat <$> v)))
       names.

(** Line 246 is [[self._get_embeddings(x) in self._embedding_files]]: a
    list display of one membership test, not a comprehension, so [x] is
    read as a variable; only [self] is local. Were [x] bound, line 249
    would ask the resulting [bool] for its [sort]. The body runs when the
    first row is asked for. *)
Definition Fake_get_next_embedding (self : EmbeddingGenerator) : Gen :=
  fun w =>
    match load_name ["self"] "x" with
    | Raise e => (([], Some e), w)
    | Ok _ => (([], Some (AttributeError "sort")), w)
    end.

(** *** Calls by keyword

    The parameters of the three constructors, [self] apart. A call that
    names a keyword the function does not have is a [TypeError]. *)
Definition FakeCoEmbeddingGenerator_params : list string :=
  ["dimensions"; "ppi_embeddingdir"; "image_embeddingdir"; "embedding_files";
   "embedding_names"].

Definition MuseCoEmbeddingGenerator_params : list string :=
  ["dimensions"; "k"; "triplet_margin"; "dropout"; "n_epochs";
   "n_epochs_init"; "outdir"; "embedding_files"; "ppi_embeddingdir";
   "image_embeddingdir"; "embedding_names"; "jackknife_percent"].

Definition CellmapsCoEmbedder_params : list string :=
  ["outdir"; "embedding_generator"; "name"; "organization_name";
   "project_name"; "provenance_utils"; "skip_logging"; "input_data_dict"].

Definition call_keywords {A} (params keywords : list string)
    (body : result A) : result A :=
  match filter (fun kw => bool_decide (kw ∉ params)) keywords with
  | [] => body
  | kw :: _ =>
      Raise (TypeError ("__init__() got an unexpected keyword argument '"
                        +:+ kw +:+ "'"))
  end.

(** *** The generators behind one interface *)

Inductive generator :=
| BaseGenerator (g : EmbeddingGenerator)
| FakeGenerator (g : EmbeddingGenerator)
| MuseGenerator (g : MuseCoEmbeddingGenerator).

Definition base_of (g : generator) : EmbeddingGenerator :=
  match g with
  | BaseGenerator b | FakeGenerator b => b
  | MuseGenerator m => muse_base m
  end.

Definition get_next_embedding (g : generator) : Gen :=
  match g with
  | BaseGenerator _ =>
      fun w => (([], Some (NotImplementedError "Subclasses should implement")), w)
  | FakeGenerator b => Fake_get_next_embedding b
  | MuseGenerator m => Muse_get_next_embedding m
  end.

(** *** [CellmapsCoEmbedder] *)

Record CellmapsCoEmbedder := {
  co_outdir : option string;
  co_skip_logging : bool;
  co_embedding_generator : generator;
  co_inputdirs : option (list string)
}.

Definition _get_embedding_dirs (fsys : fs) (embeddings : list string)
    : list string :=
  (fun embed => if os_path_isfile fsys embed then os_path_dirname embed
                else embed) <$> embeddings.

(** [CellmapsCoEmbedder.__init__]; [skip_logging] may be [None]. *)
Definition CellmapsCoEmbedder_init (fsys : fs) (outdir : option string)
    (embedding_generator : option generator) (skip_logging : option bool)
    : result CellmapsCoEmbedder :=
  match outdir with
  | None => Raise (CellmapsCoEmbeddingError "outdir is None")
  | Some o =>
      match embedding_generator with
      | None => Raise (AttributeError "get_embedding_files")
      | Some g =>
          Ok {| co_outdir := Some (os_path_abspath o);
                co_skip_logging := default false skip_logging;
                co_embedding_generator := g;
                co_inputdirs :=
                  Some (_get_embedding_dirs fsys
                          (get_embedding_files (base_of g))) |}
      end
  end.

(** The calls [run] and [main] make to [os.makedirs], to
    [cellmaps_utils.logutils], to the provenance utility and to the
    attributes object it returns, and to [logger.exception] and
    [logging.shutdown]. What they do is not part of this program; each
    may raise. [ProvenanceAttr] carries the name of the getter called.
    Questions to the file system and the writing of the table act on the
    files of the world; the messages of [logger.debug] and [logger.info],
    [time.time], [date.today] and [tqdm] are not recorded. *)
Inductive call :=
| Makedirs (path : option string)
| SetupFileLogger
| WriteTaskStart
| GetMergedProvenance
| ProvenanceAttr (getter : string)
| RegisterRocrate
| RegisterSoftware
| GetDefaultDateFormatStr
| RegisterDataset
| GetIdOfRocrate (entry : string)
| GetLogin
| RegisterComputation
| WriteTaskFinish (status : Z)
| SetupCmdLogging
| LogException (e : exn)
| LoggingShutdown.

Variable collaborator : call → M world unit.

(** The state of one [run]: the world, the calls made so far and the
    local variable [exitcode]. *)
Record frame := Frame {
  fworld : world;
  trace : list call;
  exitcode : Z
}.

Definition in_world {A} (c : M world A) : M frame A :=
  zoom fworld (fun w fr => Frame w (trace fr) (exitcode fr)) c.

Definition external (c : call) : M frame unit := fun fr =>
  in_world (collaborator c) (Frame (fworld fr) (trace fr ++ [c]) (exitcode fr)).

Definition set_exitcode (z : Z) : M frame unit :=
  modify (fun fr => Frame (fworld fr) (trace fr) z).

Definition has_rocrate (fsys : fs) (d : string) : bool :=
  os_path_exists fsys (os_path_join d RO_CRATE_METADATA_FILE).

(** The getters lines 352-356 call on the merged attributes, in order. *)
Definition provenance_getters : list string :=
  ["get_name"; "get_organization_name"; "get_project_name"; "get_keywords";
   "get_description"].

Definition _update_provenance_fields (self : CellmapsCoEmbedder) : M frame unit :=
  fsys ← gets (fun fr => files (fworld fr));
  let rocrate_dirs := filter (fun d => has_rocrate fsys d)
                             (default [] (co_inputdirs self)) in
  when (bool_decide (0 < length rocrate_dirs)%nat)
    (_ ← external GetMergedProvenance;
     _ ← mapM (fun getter => external (ProvenanceAttr getter))
              provenance_getters;
     mret tt).

Definition _create_rocrate : M frame unit :=
  try_except (external RegisterRocrate)
    (fun e =>
       match e with
       | TypeError te =>
           raise (CellmapsCoEmbeddingError ("Invalid provenance: " +:+ te))
       | KeyError ke =>
           raise (CellmapsCoEmbeddingError
                    ("Key missing in provenance: " +:+ str_repr ke))
       | _ => raise e
       end).

(** Lines 442-461: the date format is asked for while the arguments of
    [register_dataset] are built. *)
Definition _register_image_coembedding_file : M frame unit :=
  _ ← external GetDefaultDateFormatStr;
  external RegisterDataset.

(** Lines 417-440: the ids of the input crates, then [get_login] while
    the arguments of [register_computation] are built. *)
Definition _register_computation (self : CellmapsCoEmbedder) : M frame unit :=
  fsys ← gets (fun fr => files (fworld fr));
  _ ← mapM (fun entry => external (GetIdOfRocrate entry))
           (filter (fun d => has_rocrate fsys d)
                   (default [] (co_inputdirs self)));
  _ ← external GetLogin;
  external RegisterComputation.

(** [[''] + [x for x in range(1, dimensions)]] *)
Definition header_line (dimensions : Z) : list cell :=
  CStr "" :: (CInt <$> seqZ 1 (dimensions - 1)).

Definition tsv_of (rows : list (list cell)) : node :=
  Tsv ((fun row : list cell => cell_str <$> row) <$> rows).

(** Lines 498-504. The file exists, empty, from the [open]; what
    [writerow] was given is on disk when the [with] block is left, also
    when the generator raised. *)
Definition write_table (self : CellmapsCoEmbedder) : M frame unit :=
  path ← lift (os_path_join_opt (co_outdir self) CO_EMBEDDING_FILE);
  if can_open_w path then
    _ ← in_world (modify (set_files (insert path (Tsv []))));
    let header := header_line
                    (get_dimensions (base_of (co_embedding_generator self))) in
    in_world (fun w =>
      let '(rows, failure, w') :=
        get_next_embedding (co_embedding_generator self) w in
      (match failure with
       | None => Ok tt
       | Some e => Raise e
       end,
       set_files (insert path (tsv_of (header :: rows))) w'))
  else raise (OSError path).

(** Lines 480-495 of [run]: what the body of the [try] does before the
    table is opened. *)
Definition before_table (self : CellmapsCoEmbedder) : M frame unit :=
  _ ← raise_if (bool_decide (co_outdir self = None))
        (CellmapsCoEmbeddingError "outdir must be set");
  fsys ← gets (fun fr => files (fworld fr));
  _ ← when (negb (os_path_isdir fsys (default "" (co_outdir self))))
        (external (Makedirs (co_outdir self)));
  _ ← when (negb (co_skip_logging self)) (external SetupFileLogger);
  _ ← external WriteTaskStart;
  _ ← raise_if (bool_decide (co_inputdirs self = None))
        (CellmapsCoEmbeddingError "No embeddings provided");
  _ ← _update_provenance_fields self;
  _ ← _create_rocrate;
  external RegisterSoftware.

(** The body of the [try] in [run], lines 480-510. *)
Definition run_body (self : CellmapsCoEmbedder) : M frame unit :=
  _ ← before_table self;
  _ ← write_table self;
  _ ← _register_image_coembedding_file;
  _ ← _register_computation self;
  set_exitcode 0.

(** [CellmapsCoEmbedder.run] *)
Definition run (self : CellmapsCoEmbedder) : M frame Z :=
  _ ← set_exitcode 99;
  _ ← try_finally (run_body self)
        (status ← gets exitcode; external (WriteTaskFinish status));
  gets exitcode.

End Runner.
End Runner.

(** ** cellmaps_coembeddingcmd.py *)
Module Cmd.
Section Cmd.
Context `{Env}.
Variable muse_fit_predict : Runner.fit_args → M Runner.world (list (list float)).
Variable collaborator : Runner.call → M Runner.world unit.

Inductive algorithm_choice := auto | muse.

(** The parsed arguments [main] reads. [--embeddings] and
    [--embedding_names] take one or more values or are [None]. *)
Record arguments := {
  outdir : string;
  embeddings : option (list string);
  embedding_names : option (list string);
  algorithm : algorithm_choice;
  ppi_embeddingdir : option string;
  image_embeddingdir : option string;
  latent_dimension : Z;
  n_epochs_init : Z;
  n_epochs : Z;
  jackknife_percent : float;
  fake_embedding : bool;
  skip_logging : bool
}.

(** [AutoCoEmbeddingGenerator] and the method [get_embedding_inputdirs]
    are used by [main] and defined nowhere in [runner.py]: what building
    the one and calling the other on it does is left open. The three
    generator classes of [runner.py] have no such method. *)
Variable AutoCoEmbeddingGenerator_new : arguments → M Runner.world Runner.generator.
Variable Auto_get_embedding_inputdirs : Runner.generator → result (list string).

Definition either_msg : string :=
  "Use either --ppi_embeddingdir and --image_embeddingdir or --embeddings, not both".
Definition only_two_msg : string :=
  "Only two embeddings are supported with --embeddings for MUSE algorithm".
Definition required_msg : string :=
  "Either --ppi_embeddingdir and --image_embeddingdir, or --embeddings are required".

(** Lines 130-139, outside the [try]. *)
Definition check_arguments (a : arguments) : result unit :=
  let dirs_any := truthy_str (ppi_embeddingdir a) || truthy_str (image_embeddingdir a) in
  let dirs_both := truthy_str (ppi_embeddingdir a) && truthy_str (image_embeddingdir a) in
  if dirs_any && truthy_list (embeddings a)
  then Raise (CellmapsCoEmbeddingError either_msg)
  else if truthy_list (embeddings a)
          && bool_decide (2 < length (default [] (embeddings a)))%nat
          && match algorithm a with muse => true | auto => false end
  then Raise (CellmapsCoEmbeddingError only_two_msg)
  else if negb dirs_both && negb (truthy_list (embeddings a))
  then Raise (CellmapsCoEmbeddingError required_msg)
  else Ok tt.

(** Lines 143-168. The generators are called with the keyword
    [embeddings]; [embedding_files] is left to its default [None]. *)
Definition make_generator (a : arguments) : M Runner.world Runner.generator :=
  fun w =>
    if fake_embedding a then
      (Runner.call_keywords Runner.FakeCoEmbeddingGenerator_params
         ["dimensions"; "ppi_embeddingdir"; "image_embeddingdir";
          "embeddings"; "embedding_names"]
         (Runner.FakeGenerator <$>
            Runner.EmbeddingGenerator_init (Runner.files w)
              (latent_dimension a) (ppi_embeddingdir a)
              (image_embeddingdir a) None (embedding_names a)), w)
    else
      match algorithm a with
      | muse =>
          (Runner.call_keywords Runner.MuseCoEmbeddingGenerator_params
             ["dimensions"; "ppi_embeddingdir"; "image_embeddingdir";
              "n_epochs"; "n_epochs_init"; "jackknife_percent"; "outdir";
              "embeddings"; "embedding_names"]
             (Runner.MuseGenerator <$>
                Runner.MuseCoEmbeddingGenerator_init (Runner.files w)
                  (latent_dimension a) 10 (float_literal "0.1") (float_literal "0.25")
                  (n_epochs a) (n_epochs_init a)
                  (Some (os_path_abspath (outdir a))) None
                  (ppi_embeddingdir a) (image_embeddingdir a)
                  (embedding_names a) (jackknife_percent a)), w)
      | auto => AutoCoEmbeddingGenerator_new a w
      end.

Definition get_embedding_inputdirs (a : arguments) (gen : Runner.generator)
    : result (list string) :=
  if fake_embedding a then Raise (AttributeError "get_embedding_inputdirs")
  else match algorithm a with
       | muse => Raise (AttributeError "get_embedding_inputdirs")
       | auto => Auto_get_embedding_inputdirs gen
       end.

(** Lines 142-178, the body of the [try]. *)
Definition main_body (a : arguments) : M Runner.frame Z :=
  _ ← Runner.external collaborator Runner.SetupCmdLogging;
  gen ← Runner.in_world (make_generator a);
  inputdirs ← lift (get_embedding_inputdirs a gen);
  fsys ← gets (fun fr => Runner.files (Runner.fworld fr));
  embedder ← lift
    (Runner.call_keywords Runner.CellmapsCoEmbedder_params
       ["outdir"; "inputdirs"; "embedding_generator"; "name";
        "organization_name"; "project_name"; "skip_logging";
        "input_data_dict"]
       (Runner.CellmapsCoEmbedder_init fsys (Some (outdir a)) (Some gen)
          (Some (skip_logging a))));
  Runner.run muse_fit_predict collaborator embedder.

(** Lines 141-183: [except Exception] logs and returns 2, [finally]
    shuts logging down. *)
Definition guarded (body : M Runner.frame Z) : M Runner.frame Z :=
  try_finally
    (try_except body
       (fun e => _ ← Runner.external collaborator (Runner.LogException e);
                 mret 2))
    (Runner.external collaborator Runner.LoggingShutdown).

Definition main (a : arguments) : M Runner.frame Z :=
  _ ← lift (check_arguments a);
  guarded (main_body a).

(** [sys.exit(main(sys.argv))]: an exception that leaves [main] ends the
    process with status 1. *)
Definition exit_status (r : result Z) : Z :=
  match r with
  | Ok status => status
  | Raise _ => 1
  end.

End Cmd.
End Cmd.

(** ** The specification's vocabulary *)
Module Spec.
Section Spec.
Context `{Env}.

Inductive error_kind :=
| ConfigurationError
| ModalityFileError
| TrainingDataError
| ProvenanceError.

Definition configuration_messages : list string :=
  [Runner.use_either_msg; Runner.names_mismatch_msg; Cmd.either_msg;
   Cmd.only_two_msg; Cmd.required_msg; "outdir is None"; "outdir must be set";
   "No embeddings provided"].

(** Modelled from the spec: its error taxonomy (section 7). The code
    raises one class, [CellmapsCoEmbeddingError], whose module
    [cellmaps_coembedding.exceptions] is not among the sources; the kinds
    are told apart by what the message says: contradictory or mismatched
    parameters, a missing embedding file, rejected provenance. *)
Definition kind_of (e : exn) : option error_kind :=
  match e with
  | CellmapsCoEmbeddingError msg =>
      if bool_decide (msg ∈ configuration_messages)
      then Some ConfigurationError
      else if String.prefix "Embedding file not found in " msg
      then Some ModalityFileError
      else if String.prefix "Invalid provenance: " msg
              || String.prefix "Key missing in provenance: " msg
      then Some ProvenanceError
      else None
  | _ => None
  end.

(** A modality's own identifier set, and the intersection over all the
    modalities of a run. *)
Definition ids_of (t : list (list string)) : gset string :=
  list_to_set (omap head t).

Definition intersection_of_all (tables : list (list (list string)))
    : gset string :=
  match ids_of <$> tables with
  | [] => ∅
  | s :: rest => foldr (∩) s rest
  end.

(** The cells a modality's table gives for an identifier. *)
Definition vector_of (t : list (list string)) (id : string)
    : option (list string) :=
  tail <$> List.find (fun row => bool_decide (head row = Some id)) t.

(** Identifiers unique within a table (every row has one). *)
Definition unique_ids (t : list (list string)) : Prop :=
  Forall (fun row => row ≠ []) t ∧ NoDup (omap head t).

(** Every component is a number, and the rows are equally long. *)
Definition numeric (t : list (list string)) : Prop :=
  Forall (fun row => Forall (fun v => is_Some (float_of_str v)) (tail row)) t.

Definition rectangular (t : list (list string)) : Prop :=
  ∀ r1 r2, r1 ∈ t → r2 ∈ t → length r1 = length r2.

(** Modelled from the spec: the fitter [muse_fit_predict] of the module
    [cellmaps_coembedding.muse_sc], which is not among the sources.
    Section 4.2: its output is, for each entity in the canonical order, a
    fused latent vector of dimension D. *)
Definition fit_contract
    (fit : Runner.fit_args → M Runner.world (list (list float))) : Prop :=
  ∀ a w res w', fit a w = (Ok res, w') →
    length res = length (Runner.name_index a) ∧
    Forall (fun v => Z.of_nat (length v) = Runner.latent_dim a) res.

(** The statuses [run] hands to [write_task_finish_json]. *)
Definition finish_records (t : list Runner.call) : list Z :=
  omap (fun c => match c with
                 | Runner.WriteTaskFinish status => Some status
                 | _ => None
                 end) t.

(** The key of a row that has one, and a table sorted as [sort_rows]
    sorts it. *)
Definition key_of (x : list string) : string := default "" (head x).

Definition keyed (t : list (list string)) : list (string * list string) :=
  (fun x => (key_of x, x)) <$> t.

Definition sorted_table (t : list (list string)) : list (list string) :=
  snd <$> Runner.sort_by_key (keyed t).

(** The rows of a table whose identifier is in [s], and their parsed
    components. *)
Definition kept_rows (s : gset string) (t : list (list string))
    : list (list string) :=
  filter (fun x => Runner.in_set s x) (sorted_table t).

(** A step of [run] that writes no finish record and leaves the local
    variable [exitcode] alone. *)
Definition keeps {A} (c : M Runner.frame A) : Prop :=
  ∀ fr, finish_records (Runner.trace (c fr).2)
        = finish_records (Runner.trace fr)
      ∧ Runner.exitcode (c fr).2 = Runner.exitcode fr.

(** A computation that writes no finish record and sets [exitcode] to 0
    exactly when it returns. *)
Definition zero_on_return (c : M Runner.frame unit) : Prop :=
  ∀ fr, finish_records (Runner.trace (c fr).2)
        = finish_records (Runner.trace fr)
      ∧ match (c fr).1 with
        | Ok _ => Runner.exitcode (c fr).2 = 0
        | Raise _ => Runner.exitcode (c fr).2 = Runner.exitcode fr
        end.

(** A computation that leaves the file at [path] as it is. *)
Definition leaves_file {A} (path : string) (c : M Runner.frame A) : Prop :=
  ∀ fr, Runner.files (Runner.fworld (c fr).2) !! path
        = Runner.files (Runner.fworld fr) !! path.

Definition is_finish (c : Runner.call) : bool :=
  match c with
  | Runner.WriteTaskFinish _ => true
  | _ => false
  end.

Definition is_logging (c : Runner.call) : bool :=
  match c with
  | Runner.SetupCmdLogging | Runner.LogException _ | Runner.LoggingShutdown =>
      true
  | _ => false
  end.

End Spec.
End Spec.

(** ** A concrete environment and sample runs

    Floats are exact decimals here, which is all the sample values need. *)
Module Sample.

Record decimal := Decimal { mantissa : Z; places : nat }.

Fixpoint parse_digits (s : string) (acc : Z) (after_point : option nat)
    : option decimal :=
  match s with
  | EmptyString => Some (Decimal acc (default 0%nat after_point))
  | String c s' =>
      if Ascii.eqb c "." then
        match after_point with
        | None => parse_digits s' acc (Some 0%nat)
        | Some _ => None
        end
      else
        match Ascii.is_nat c with
        | Some d => parse_digits s' (10 * acc + Z.of_nat d) (S <$> after_point)
        | None => None
        end
  end.

Definition parse_decimal (s : string) : option decimal :=
  match s with
  | EmptyString => None
  | String "-" s' =>
      (fun d => Decimal (- mantissa d) (places d)) <$> parse_digits s' 0 None
  | _ => parse_digits s 0 None
  end.

Fixpoint pad_zeros (n : nat) (s : string) : string :=
  match n with
  | O => s
  | S n' => if bool_decide (String.length s < n)%nat
            then pad_zeros n' ("0" +:+ s) else s
  end.

Definition decimal_str (d : decimal) : string :=
  let scale := 10 ^ Z.of_nat (places d) in
  let m := Z.abs (mantissa d) in
  (if bool_decide (mantissa d < 0) then "-" else "")
  +:+ pretty (m `div` scale) +:+ "."
  +:+ (if bool_decide (places d = 0%nat) then "0"
       else pad_zeros (places d) (pretty (m `mod` scale))).

Fixpoint split_on (sep : ascii) (s : string) (cur : string) : list string :=
  match s with
  | EmptyString => [String.rev cur]
  | String c s' =>
      if Ascii.eqb c sep then String.rev cur :: split_on sep s' ""
      else split_on sep s' (String c cur)
  end.

Definition tab_rows (s : string) : list (list string) :=
  if String.eqb s "" then []
  else (fun line => split_on "009" line "") <$> split_on "010" s "".

(** [repr] of a string of ASCII characters: the quote is the double one
    when the string holds a single quote and no double one; the quote in
    use and the backslash are escaped, and so are the control
    characters. *)
Definition hex_digit (n : nat) : ascii :=
  ascii_of_nat (if (n <? 10)%nat then 48 + n else 87 + n).

Definition repr_char (quote c : ascii) : string :=
  let n := nat_of_ascii c in
  if Ascii.eqb c quote || Ascii.eqb c "092" then String "092" (String c "")
  else if Ascii.eqb c "009" then String "092" "t"
  else if Ascii.eqb c "010" then String "092" "n"
  else if Ascii.eqb c "013" then String "092" "r"
  else if (n <? 32)%nat || (n =? 127)%nat
       then String "092" (String "x" (String (hex_digit (n / 16))
                                        (String (hex_digit (n mod 16)) "")))
       else String c "".

Fixpoint repr_chars (quote : ascii) (s : string) : string :=
  match s with
  | EmptyString => ""
  | String c s' => repr_char quote c +:+ repr_chars quote s'
  end.

Fixpoint holds (c : ascii) (s : string) : bool :=
  match s with
  | EmptyString => false
  | String c' s' => Ascii.eqb c c' || holds c s'
  end.

Definition repr (s : string) : string :=
  let quote : ascii := if holds "039" s && negb (holds "034" s)
                       then "034"%char else "039"%char in
  String quote (repr_chars quote s) +:+ String quote "".

#[export] Instance env : Env := {|
  PPI_EMBEDDING_FILE := "ppi_emd.tsv";
  IMAGE_EMBEDDING_FILE := "image_emd.tsv";
  CO_EMBEDDING_FILE := "coembedding_emd.tsv";
  RO_CRATE_METADATA_FILE := "ro-crate-metadata.json";
  float := decimal;
  float_literal s := default (Decimal 0 0) (parse_decimal s);
  float_of_str := parse_decimal;
  float_str := decimal_str;
  float_gt0 d := bool_decide (0 < mantissa d);
  float_mul_int d n :=
    Some (Z.quot (mantissa d * Z.of_nat n) (10 ^ Z.of_nat (places d)));
  float_of_draw n := Decimal (Z.of_nat n `mod` 1000) 3;
  str_repr := repr;
  csv_reader := tab_rows;
  os_path_abspath p := if starts_with_sep p then p else os_path_join "/work" p;
  can_open_w _ := true
|}.

Definition header : list string := [""; "1"; "2"].

Definition table_A : list (list string) :=
  [["gene1"; "0.1"; "0.2"]; ["gene2"; "0.3"; "0.4"]].
Definition table_B : list (list string) :=
  [["gene2"; "0.5"; "0.6"]; ["gene3"; "0.7"; "0.8"]].
(** A third modality that lacks [gene2], and one whose rows are not in
    identifier order. *)
Definition table_C : list (list string) :=
  [["gene1"; "0.9"; "1.0"]; ["gene3"; "1.1"; "1.2"]].
Definition table_D : list (list string) :=
  [["gene3"; "3.5"]; ["gene2"; "2.5"]; ["gene1"; "1.5"]].

Definition disk : fs :=
  list_to_map
    [("/data/A.tsv", Tsv (header :: table_A));
     ("/data/B.tsv", Tsv (header :: table_B));
     ("/data/C.tsv", Tsv (header :: table_C));
     ("/data/D.tsv", Tsv (header :: table_D));
     ("/data/ppi/ppi_emd.tsv", Tsv (header :: table_A));
     ("/data/image/image_emd.tsv", Tsv (header :: table_B));
     ("/data/ppi", Dir); ("/data/image", Dir); ("/data/empty", Dir);
     ("/out", Dir)].

Definition world0 : Runner.world := Runner.World disk (fun i => i) 0.
Definition frame0 : Runner.frame := Runner.Frame world0 [] 0.

(** A stand-in fitter: one zero vector of the asked dimension per
    identifier. *)
Definition zero_fit (a : Runner.fit_args)
    : M Runner.world (list (list decimal)) :=
  if bool_decide (Runner.latent_dim a < 0)
  then raise (ValueError "negative dimensions are not allowed")
  else mret (replicate (length (Runner.name_index a))
               (replicate (Z.to_nat (Runner.latent_dim a)) (Decimal 0 0))).

(** Collaborators that succeed and touch nothing. *)
Definition quiet (c : Runner.call) : M Runner.world unit := mret tt.

Definition base_AB : Runner.EmbeddingGenerator :=
  {| Runner._dimensions := 128;
     Runner._embedding_files := ["/data/A.tsv"; "/data/B.tsv"];
     Runner._embedding_names := ["emd_0"; "emd_1"] |}.

Definition base_AD : Runner.EmbeddingGenerator :=
  {| Runner._dimensions := 4;
     Runner._embedding_files := ["/data/A.tsv"; "/data/D.tsv"];
     Runner._embedding_names := ["emd_0"; "emd_1"] |}.

Definition base_ABC : Runner.EmbeddingGenerator :=
  {| Runner._dimensions := 4;
     Runner._embedding_files := ["/data/A.tsv"; "/data/B.tsv"; "/data/C.tsv"];
     Runner._embedding_names := ["emd_0"; "emd_1"; "emd_2"] |}.

Definition muse_of (base : Runner.EmbeddingGenerator) (jackknife : decimal)
    : Runner.MuseCoEmbeddingGenerator :=
  {| Runner.muse_base := base;
     Runner._outdir := Some "/out";
     Runner._k := 10;
     Runner.triplet_margin := Decimal 1 1;
     Runner._dropout := Decimal 25 2;
     Runner._n_epochs := 500;
     Runner._n_epochs_init := 200;
     Runner._jackknife_percent := jackknife |}.

Definition embedder_of (g : Runner.generator) : Runner.CellmapsCoEmbedder :=
  {| Runner.co_outdir := Some "/out";
     Runner.co_skip_logging := true;
     Runner.co_embedding_generator := g;
     Runner.co_inputdirs := Some ["/data"; "/data"] |}.

(** [main] on three embedding files and two names. The class
    [AutoCoEmbeddingGenerator] is missing from [runner.py]: naming it
    raises. *)
Definition no_auto (a : Cmd.arguments) : M Runner.world Runner.generator :=
  raise (NameError "AutoCoEmbeddingGenerator").

Definition no_inputdirs (g : Runner.generator) : result (list string) :=
  Raise (AttributeError "get_embedding_inputdirs").

Definition three_files_two_names : Cmd.arguments :=
  {| Cmd.outdir := "/out";
     Cmd.embeddings := Some ["/data/A.tsv"; "/data/B.tsv"; "/data/C.tsv"];
     Cmd.embedding_names := Some ["ppi"; "image"];
     Cmd.algorithm := Cmd.auto;
     Cmd.ppi_embeddingdir := None;
     Cmd.image_embeddingdir := None;
     Cmd.latent_dimension := 128;
     Cmd.n_epochs_init := 200;
     Cmd.n_epochs := 500;
     Cmd.jackknife_percent := Decimal 0 0;
     Cmd.fake_embedding := false;
     Cmd.skip_logging := true |}.

End Sample.

(** ** The calls of a run that succeeds

    In the order of [run]: the output directory is made when it is not
    there, the file logger is set up unless logging is skipped, the start
    record is written, the provenance of the inputs is merged and its
    five attributes are read when some input directory is an RO-Crate
    ([merged]), the crate and the software are registered, then (the
    table being written) the date format is asked for and the dataset
    registered, the crates among the input directories ([crates]) are
    looked up, the login is asked for, the computation is registered and
    the finish record is written with 0. *)
Module Calls.

Definition successful_calls (outdir : option string)
    (skip_logging isdir merged : bool) (crates : list string)
    : list Runner.call :=
  ((if isdir then [] else [Runner.Makedirs outdir])
   ++ (if skip_logging then [] else [Runner.SetupFileLogger])
   ++ [Runner.WriteTaskStart]
   ++ (if merged
       then Runner.GetMergedProvenance
            :: (Runner.ProvenanceAttr <$> Runner.provenance_getters)
       else [])
   ++ [Runner.RegisterRocrate; Runner.RegisterSoftware;
       Runner.GetDefaultDateFormatStr; Runner.RegisterDataset]
   ++ (Runner.GetIdOfRocrate <$> crates)
   ++ [Runner.GetLogin; Runner.RegisterComputation;
       Runner.WriteTaskFinish 0])%list.

End Calls.

(** Paths as [posixpath] takes them apart. *)
Module Paths.

(** A name without a separator in it. *)
Fixpoint no_sep (s : string) : bool :=
  match s with
  | EmptyString => true
  | String c s' => negb (Ascii.eqb c "/") && no_sep s'
  end.

(** A directory path less its trailing separators; a path of separators
    only stays as it is. *)
Definition without_trailing_sep (d : string) : string :=
  if all_sep d then d else rstrip_sep d.

End Paths.

(** Further inputs over the files of [Sample]. *)
Module Scenario.
Import Sample.

Definition named_AB : Runner.EmbeddingGenerator :=
  {| Runner._dimensions := 128;
     Runner._embedding_files := ["/data/A.tsv"; "/data/B.tsv"];
     Runner._embedding_names := ["ppi"; "image"] |}.

Definition from_directories : Runner.EmbeddingGenerator :=
  {| Runner._dimensions := 128;
     Runner._embedding_files :=
       ["/data/ppi/ppi_emd.tsv"; "/data/image/image_emd.tsv"];
     Runner._embedding_names := ["PPI"; "image"] |}.

Definition base_A : Runner.EmbeddingGenerator :=
  {| Runner._dimensions := 4;
     Runner._embedding_files := ["/data/A.tsv"];
     Runner._embedding_names := ["emd_0"] |}.

Definition base_DA : Runner.EmbeddingGenerator :=
  {| Runner._dimensions := 4;
     Runner._embedding_files := ["/data/D.tsv"; "/data/A.tsv"];
     Runner._embedding_names := ["emd_0"; "emd_1"] |}.

(** A file list whose second entry is not on the disk. *)
Definition base_A_missing_B : Runner.EmbeddingGenerator :=
  {| Runner._dimensions := 4;
     Runner._embedding_files :=
       ["/data/A.tsv"; "/data/missing.tsv"; "/data/B.tsv"];
     Runner._embedding_names := ["emd_0"; "emd_1"; "emd_2"] |}.

(** The MUSE generator as the constructor leaves it when [outdir] is not
    given. *)
Definition muse_without_outdir_of (base : Runner.EmbeddingGenerator)
    : Runner.MuseCoEmbeddingGenerator :=
  {| Runner.muse_base := base;
     Runner._outdir := None;
     Runner._k := 10;
     Runner.triplet_margin := Decimal 1 1;
     Runner._dropout := Decimal 25 2;
     Runner._n_epochs := 500;
     Runner._n_epochs_init := 200;
     Runner._jackknife_percent := Decimal 0 0 |}.

(** A fitter that returns one vector more than there are identifiers:
    the generator yields a row per identifier and then raises. *)
Definition long_fit (a : Runner.fit_args)
    : M Runner.world (list (list decimal)) :=
  mret (replicate (S (length (Runner.name_index a)))
          (replicate (Z.to_nat (Runner.latent_dim a)) (Decimal 0 0))).

(** A provenance utility that refuses the crate for a missing key. *)
Definition missing_key (c : Runner.call) : M Runner.world unit :=
  match c with
  | Runner.RegisterRocrate => raise (KeyError "name")
  | _ => mret tt
  end.

(** The files A and D with their rows in the opposite order. *)
Definition disk_reversed : fs :=
  <["/data/A.tsv" := Tsv (header :: rev table_A)]>
    (<["/data/D.tsv" := Tsv (header :: rev table_D)]> disk).

(** The input directory [/data] holding a crate. *)
Definition frame_with_crate : Runner.frame :=
  Runner.Frame
    (Runner.World (<["/data/ro-crate-metadata.json" := Text ""]> disk)
       (fun i => i) 0)
    [] 0.

End Scenario.

(** * Properties *)

Ltac unfold_result :=
  unfold mbind, mret, fmap, result_bind, result_ret, result_fmap in *.

(** ** The monad's equations *)
Section MonadFacts.
Context {S A B : Type}.

Lemma M_bind_eq (c : M S A) (f : A → M S B) (s : S) :
  (c ≫= f) s = match c s with
               | (Ok a, s') => f a s'
               | (Raise e, s') => (Raise e, s')
               end.
Proof. reflexivity. Qed.

Lemma M_bind_ok (c : M S A) (f : A → M S B) (s s' : S) (a : A) :
  c s = (Ok a, s') → (c ≫= f) s = f a s'.
Proof. intros Hc. rewrite M_bind_eq, Hc. reflexivity. Qed.

Lemma M_bind_raise (c : M S A) (f : A → M S B) (s s' : S) (e : exn) :
  c s = (Raise e, s') → (c ≫= f) s = (Raise e, s').
Proof. intros Hc. rewrite M_bind_eq, Hc. reflexivity. Qed.

Lemma result_bind_ok (r : result A) (f : A → result B) (a : A) :
  r = Ok a → r ≫= f = f a.
Proof. intros ->. reflexivity. Qed.

Lemma bind_Ok (a : A) (f : A → result B) : Ok a ≫= f = f a.
Proof. reflexivity. Qed.

End MonadFacts.

(** ** Resolving the embedding files and their names *)
Section Construction.
Context `{Env}.

Lemma not_found_is_modality_error (d : string) :
  Spec.kind_of (CellmapsCoEmbeddingError (Runner.not_found_msg d))
  = Some Spec.ModalityFileError.
Proof.
  unfold Spec.kind_of. rewrite bool_decide_eq_false_2.
  - unfold Runner.not_found_msg. cbv [String.app append].
    destruct d; reflexivity.
  - unfold Spec.configuration_messages, Runner.not_found_msg.
    rewrite !elem_of_cons, elem_of_nil. cbv [String.app append].
    intros [?|[?|[?|[?|[?|[?|[?|[?|[]]]]]]]]]; discriminate.
Qed.

Lemma mismatch_is_configuration_error :
  Spec.kind_of (CellmapsCoEmbeddingError Runner.names_mismatch_msg)
  = Some Spec.ConfigurationError.
Proof. reflexivity. Qed.

Lemma use_either_is_configuration_error :
  Spec.kind_of (CellmapsCoEmbeddingError Runner.use_either_msg)
  = Some Spec.ConfigurationError.
Proof. reflexivity. Qed.

Lemma from_dirs_None (fsys : fs) :
  ∃ msg, Runner._get_embedding_file_from_dirs fsys None = Raise (TypeError msg).
Proof. eexists. reflexivity. Qed.

Lemma from_dirs_cases (fsys : fs) (d : string) :
  (∃ path, Runner._get_embedding_file_from_dirs fsys (Some d) = Ok path)
  ∨ Runner._get_embedding_file_from_dirs fsys (Some d)
    = Raise (CellmapsCoEmbeddingError (Runner.not_found_msg d)).
Proof.
  unfold Runner._get_embedding_file_from_dirs. unfold_result. simpl.
  destruct (os_path_exists fsys _); [left; eauto|].
  destruct (os_path_exists fsys _); [left; eauto|].
  right. reflexivity.
Qed.

(** C4. A directory that holds neither [PPI_EMBEDDING_FILE] nor
    [IMAGE_EMBEDDING_FILE] makes [_get_embedding_file_from_dirs] raise the
    error "Embedding file not found in <directory>", the specification's
    [ModalityFileError]. *)
Theorem missing_modality_file_raises (fsys : fs) (embedding_dir : string) :
  os_path_exists fsys (os_path_join embedding_dir PPI_EMBEDDING_FILE) = false →
  os_path_exists fsys (os_path_join embedding_dir IMAGE_EMBEDDING_FILE) = false →
  Runner._get_embedding_file_from_dirs fsys (Some embedding_dir)
  = Raise (CellmapsCoEmbeddingError (Runner.not_found_msg embedding_dir))
  ∧ Spec.kind_of (CellmapsCoEmbeddingError (Runner.not_found_msg embedding_dir))
    = Some Spec.ModalityFileError.
Proof.
  intros Hppi Himage. split; [|apply not_found_is_modality_error].
  unfold Runner._get_embedding_file_from_dirs. unfold_result. simpl.
  rewrite Hppi, Himage. reflexivity.
Qed.

(** C9. With exactly one of [ppi_embeddingdir] and [image_embeddingdir]
    given and no embedding files, construction fails, but not with a
    configuration error about the two directories: it is the [TypeError]
    of a [None] reaching [os.path.join] or [len], or the file-not-found
    error of the one directory given. *)
Theorem single_directory_falls_through (fsys : fs) (dimensions : Z)
    (ppi_embeddingdir image_embeddingdir : option string)
    (embedding_names : option (list string)) :
  (is_Some ppi_embeddingdir ∧ image_embeddingdir = None)
  ∨ (ppi_embeddingdir = None ∧ is_Some image_embeddingdir) →
  ∃ e,
    Runner.EmbeddingGenerator_init fsys dimensions ppi_embeddingdir
      image_embeddingdir None embedding_names = Raise e
    ∧ ((∃ msg, e = TypeError msg)
       ∨ (∃ d, ppi_embeddingdir = Some d
               ∧ e = CellmapsCoEmbeddingError (Runner.not_found_msg d)))
    ∧ Spec.kind_of e ≠ Some Spec.ConfigurationError.
Proof.
  unfold Runner.EmbeddingGenerator_init, Runner._get_embedding_files_and_names.
  intros [[[d ->] ->]|[-> [d ->]]]; unfold_result; simpl.
  - destruct (negb (String.eqb d "")) eqn:Hd; simpl.
    + destruct (from_dirs_cases fsys d) as [[path Hp]|Hp]; rewrite Hp; simpl.
      * eexists. split; [reflexivity|]. split; [left; eauto|discriminate].
      * eexists. split; [reflexivity|]. split; [right; eauto|].
        rewrite not_found_is_modality_error. discriminate.
    + destruct embedding_names; simpl;
        (eexists; split; [reflexivity|]; split; [left; eauto|discriminate]).
  - destruct (negb (String.eqb d "")) eqn:Hd; simpl.
    + eexists. split; [reflexivity|]. split; [left; eauto|discriminate].
    + destruct embedding_names; simpl;
        (eexists; split; [reflexivity|]; split; [left; eauto|discriminate]).
Qed.

(** C10. With both directories given and a list of names that is not
    [None], construction always raises: the names are left empty on the
    directory path, so when both files are found the count check fails,
    also for exactly two names. *)
Theorem directories_with_names_always_raise (fsys : fs) (dimensions : Z)
    (embedding_files : option (list string))
    (ppi_embeddingdir image_embeddingdir : option string)
    (embedding_names : list string) :
  truthy_str ppi_embeddingdir = true →
  truthy_str image_embeddingdir = true →
  (∃ e, Runner.EmbeddingGenerator_init fsys dimensions ppi_embeddingdir
          image_embeddingdir embedding_files (Some embedding_names) = Raise e)
  ∧ (∀ ppi_file image_file,
       truthy_list embedding_files = false →
       Runner._get_embedding_file_from_dirs fsys ppi_embeddingdir = Ok ppi_file →
       Runner._get_embedding_file_from_dirs fsys image_embeddingdir = Ok image_file →
       Runner.EmbeddingGenerator_init fsys dimensions ppi_embeddingdir
         image_embeddingdir embedding_files (Some embedding_names)
       = Raise (CellmapsCoEmbeddingError Runner.names_mismatch_msg)).
Proof.
  intros Hppi Himage.
  unfold Runner.EmbeddingGenerator_init, Runner._get_embedding_files_and_names.
  rewrite Hppi. simpl. split.
  - destruct (truthy_list embedding_files); [eexists; reflexivity|].
    unfold_result.
    destruct (Runner._get_embedding_file_from_dirs fsys ppi_embeddingdir);
      [|eexists; reflexivity].
    destruct (Runner._get_embedding_file_from_dirs fsys image_embeddingdir);
      [|eexists; reflexivity].
    simpl. eexists. reflexivity.
  - intros ppi_file image_file -> -> ->. reflexivity.
Qed.

(** The count check itself: explicit files and names of different
    lengths. With a directory given as well, the files must be non-empty
    (then the call is refused as contradictory). *)
Lemma names_count_mismatch_init (fsys : fs) (dimensions : Z)
    (ppi_embeddingdir image_embeddingdir : option string)
    (embedding_files embedding_names : list string) :
  length embedding_names ≠ length embedding_files →
  truthy_str ppi_embeddingdir || truthy_str image_embeddingdir = false
  ∨ embedding_files ≠ [] →
  ∃ e, Runner.EmbeddingGenerator_init fsys dimensions ppi_embeddingdir
         image_embeddingdir (Some embedding_files) (Some embedding_names)
       = Raise e
     ∧ Spec.kind_of e = Some Spec.ConfigurationError
     ∧ (truthy_str ppi_embeddingdir || truthy_str image_embeddingdir = false →
        e = CellmapsCoEmbeddingError Runner.names_mismatch_msg).
Proof.
  intros Hlen Hmode.
  unfold Runner.EmbeddingGenerator_init, Runner._get_embedding_files_and_names.
  destruct (truthy_str ppi_embeddingdir || truthy_str image_embeddingdir) eqn:Hd.
  - destruct Hmode as [|Hne]; [discriminate|].
    destruct embedding_files; [done|]. simpl.
    eexists. split; [reflexivity|]. split; [reflexivity|discriminate].
  - unfold_result. simpl. rewrite bool_decide_eq_true_2 by done.
    eexists. split; [reflexivity|]. split; reflexivity.
Qed.

End Construction.

(** ** The fake generator *)
Section Fake.
Context `{Env}.

(** C2 (what the code does). Iterating the fake generator yields no row:
    the first line of its body reads the unbound variable [x], so the
    first [next] raises [NameError], whatever the two modalities hold. *)
Theorem fake_generator_raises (self : Runner.EmbeddingGenerator)
    (w : Runner.world) :
  Runner.Fake_get_next_embedding self w = (([], Some (NameError "x")), w).
Proof. reflexivity. Qed.

Lemma random_floats_length (n : nat) (w : Runner.world) :
  ∃ v w', Runner.random_floats n w = (Ok v, w') ∧ length v = n.
Proof.
  revert w. induction n as [|n IH]; intros w; simpl.
  - eexists _, _. split; reflexivity.
  - unfold mbind, M_bind, Runner.random_random. simpl.
    destruct (IH (Runner.World (Runner.files w) (Runner.draws w)
                    (S (Runner.drawn w)))) as (v & w' & Hv & Hlen).
    rewrite Hv. simpl. eexists _, _. split; [reflexivity|]. simpl. lia.
Qed.

(** The loop of lines 259-262, which the exception above keeps from
    running: one row per name, the name and [dimensions] floats. *)
Lemma fake_rows_shape (names : list string) (dimensions : Z) (w : Runner.world) :
  ∃ rows w', Runner.fake_rows names dimensions w = (Ok rows, w')
    ∧ length rows = length names
    ∧ Forall (fun row => length row = S (Z.to_nat dimensions)) rows.
Proof.
  revert w. induction names as [|name names IH]; intros w.
  - eexists _, _. split; [reflexivity|]. split; [reflexivity|constructor].
  - unfold Runner.fake_rows in *. cbn [mapM].
    destruct (random_floats_length (Z.to_nat dimensions) w)
      as (v & w1 & Hv & Hlen).
    destruct (IH w1) as (rows & w2 & Hrows & Hl & Hall).
    eexists _, _. split; [|split].
    + erewrite M_bind_ok; [|erewrite M_bind_ok; [reflexivity|exact Hv]].
      erewrite M_bind_ok; [reflexivity|exact Hrows].
    + simpl. lia.
    + constructor; [|exact Hall]. simpl. rewrite length_fmap. lia.
Qed.

End Fake.

(** ** The run and its finish record *)
Section Run.
Context `{Env}.
Variable muse_fit_predict : Runner.fit_args → M Runner.world (list (list float)).
Variable collaborator : Runner.call → M Runner.world unit.

Local Abbreviation external := (Runner.external collaborator).
Local Abbreviation run := (Runner.run muse_fit_predict collaborator).
Local Abbreviation run_body := (Runner.run_body muse_fit_predict collaborator).
Local Abbreviation before_table := (Runner.before_table collaborator).
Local Abbreviation write_table := (Runner.write_table muse_fit_predict).
Local Abbreviation get_next_embedding :=
  (Runner.get_next_embedding muse_fit_predict).
Local Abbreviation guarded := (Cmd.guarded collaborator).

Lemma M_bind_inv_ok {S A B} (c : M S A) (f : A → M S B) s b s2 :
  (c ≫= f) s = (Ok b, s2) → ∃ a s1, c s = (Ok a, s1) ∧ f a s1 = (Ok b, s2).
Proof.
  rewrite M_bind_eq. destruct (c s) as [[a|e] s1]; [eauto|discriminate].
Qed.

Lemma keeps_bind {A B} (c : M Runner.frame A) (f : A → M Runner.frame B) :
  Spec.keeps c → (∀ a, Spec.keeps (f a)) → Spec.keeps (c ≫= f).
Proof.
  intros Hc Hf fr. rewrite M_bind_eq. specialize (Hc fr).
  destruct (c fr) as [[a|e] fr1]; simpl in *; [|exact Hc].
  destruct (Hf a fr1) as [Ht He]. destruct Hc as [Ht1 He1].
  split; congruence.
Qed.

Lemma keeps_ret {A} (a : A) : Spec.keeps (mret a).
Proof. intros fr. split; reflexivity. Qed.

Lemma keeps_lift {A} (r : result A) : Spec.keeps (lift r).
Proof. intros fr. split; reflexivity. Qed.

Lemma keeps_raise {A} (e : exn) : Spec.keeps (raise e : M Runner.frame A).
Proof. intros fr. split; reflexivity. Qed.

Lemma keeps_gets {A} (f : Runner.frame → A) : Spec.keeps (gets f).
Proof. intros fr. split; reflexivity. Qed.

Lemma keeps_raise_if (b : bool) (e : exn) : Spec.keeps (raise_if b e).
Proof. destruct b; [apply keeps_raise|apply keeps_ret]. Qed.

Lemma keeps_when (b : bool) (c : M Runner.frame unit) :
  Spec.keeps c → Spec.keeps (when b c).
Proof. destruct b; [done|intros _; apply keeps_ret]. Qed.

Lemma keeps_in_world {A} (c : M Runner.world A) : Spec.keeps (Runner.in_world c).
Proof.
  intros fr. unfold Runner.in_world, zoom.
  destruct (c (Runner.fworld fr)) as [r w]. split; reflexivity.
Qed.

Lemma external_frame (c : Runner.call) (fr : Runner.frame) :
  external c fr
  = ((collaborator c (Runner.fworld fr)).1,
     Runner.Frame (collaborator c (Runner.fworld fr)).2
       (Runner.trace fr ++ [c]) (Runner.exitcode fr)).
Proof.
  unfold Runner.external, Runner.in_world, zoom. simpl.
  destruct (collaborator c (Runner.fworld fr)); reflexivity.
Qed.

Lemma keeps_external (c : Runner.call) :
  Spec.is_finish c = false → Spec.keeps (external c).
Proof.
  intros Hc fr. rewrite external_frame. simpl. split; [|reflexivity].
  unfold Spec.finish_records. rewrite omap_app. simpl.
  destruct c; try discriminate; simpl; apply app_nil_r.
Qed.

Lemma keeps_try_except {A} (c : M Runner.frame A) (h : exn → M Runner.frame A) :
  Spec.keeps c → (∀ e, Spec.keeps (h e)) → Spec.keeps (try_except c h).
Proof.
  intros Hc Hh fr. unfold try_except. specialize (Hc fr).
  destruct (c fr) as [[a|e] fr1]; simpl in *; [exact Hc|].
  destruct (Hh e fr1) as [Ht He]. destruct Hc as [Ht1 He1]. split; congruence.
Qed.

Lemma keeps_mapM {A B} (f : A → M Runner.frame B) (l : list A) :
  (∀ a, Spec.keeps (f a)) → Spec.keeps (mapM f l).
Proof.
  intros Hf. induction l as [|a l IH]; simpl.
  - apply keeps_ret.
  - apply keeps_bind; [apply Hf|]. intros b.
    apply keeps_bind; [apply IH|]. intros k. apply keeps_ret.
Qed.

Lemma zero_on_return_bind {A} (c : M Runner.frame A)
    (f : A → M Runner.frame unit) :
  Spec.keeps c → (∀ a, Spec.zero_on_return (f a)) →
  Spec.zero_on_return (c ≫= f).
Proof.
  intros Hc Hf fr. rewrite M_bind_eq. specialize (Hc fr).
  destruct (c fr) as [[a|e] fr1]; simpl in *; [|exact Hc].
  destruct (Hf a fr1) as [Ht He]. destruct Hc as [Ht1 He1].
  split; [congruence|]. destruct (f a fr1).1; congruence.
Qed.

Lemma keeps_write_table (self : Runner.CellmapsCoEmbedder) :
  Spec.keeps (write_table self).
Proof.
  unfold Runner.write_table. apply keeps_bind; [apply keeps_lift|].
  intros path. destruct (can_open_w path); [|apply keeps_raise].
  apply keeps_bind; [apply keeps_in_world|]. intros _. apply keeps_in_world.
Qed.

Lemma keeps_before_table (self : Runner.CellmapsCoEmbedder) :
  Spec.keeps (before_table self).
Proof.
  unfold Runner.before_table.
  apply keeps_bind; [apply keeps_raise_if|intros ?].
  apply keeps_bind; [apply keeps_gets|intros ?].
  apply keeps_bind; [apply keeps_when, keeps_external; reflexivity|intros ?].
  apply keeps_bind; [apply keeps_when, keeps_external; reflexivity|intros ?].
  apply keeps_bind; [apply keeps_external; reflexivity|intros ?].
  apply keeps_bind; [apply keeps_raise_if|intros ?].
  apply keeps_bind; [|intros ?].
  { unfold Runner._update_provenance_fields.
    apply keeps_bind; [apply keeps_gets|]. intros ?.
    apply keeps_when.
    apply keeps_bind; [apply keeps_external; reflexivity|]. intros ?.
    apply keeps_bind; [|intros ?; apply keeps_ret].
    apply keeps_mapM. intros ?. apply keeps_external. reflexivity. }
  apply keeps_bind; [|intros ?].
  { unfold Runner._create_rocrate. apply keeps_try_except.
    - apply keeps_external. reflexivity.
    - intros []; apply keeps_raise. }
  apply keeps_external. reflexivity.
Qed.

Lemma run_body_zero_on_return (self : Runner.CellmapsCoEmbedder) :
  Spec.zero_on_return (run_body self).
Proof.
  unfold Runner.run_body.
  apply zero_on_return_bind; [apply keeps_before_table|intros ?].
  apply zero_on_return_bind; [apply keeps_write_table|intros ?].
  apply zero_on_return_bind; [|intros ?].
  { unfold Runner._register_image_coembedding_file.
    apply keeps_bind; [|intros ?]; apply keeps_external; reflexivity. }
  apply zero_on_return_bind; [|intros ?].
  { unfold Runner._register_computation.
    apply keeps_bind; [apply keeps_gets|]. intros ?.
    apply keeps_bind; [|intros ?].
    - apply keeps_mapM. intros ?. apply keeps_external. reflexivity.
    - apply keeps_bind; [|intros ?]; apply keeps_external; reflexivity. }
  intros fr. split; reflexivity.
Qed.

(** [run], step by step: the body from [exitcode = 99], then the finish
    record with the [exitcode] the body left. *)
Lemma run_unfold (self : Runner.CellmapsCoEmbedder) (fr : Runner.frame) :
  let b := run_body self (Runner.Frame (Runner.fworld fr) (Runner.trace fr) 99) in
  let status := Runner.exitcode b.2 in
  let f := collaborator (Runner.WriteTaskFinish status) (Runner.fworld b.2) in
  run self fr
  = (match f.1 with
     | Ok _ => match b.1 with
               | Ok _ => Ok status
               | Raise e => Raise e
               end
     | Raise e => Raise e
     end,
     Runner.Frame f.2 (Runner.trace b.2 ++ [Runner.WriteTaskFinish status])
       status).
Proof.
  unfold Runner.run. rewrite M_bind_eq.
  unfold Runner.set_exitcode, modify. cbn beta iota. rewrite M_bind_eq.
  unfold try_finally.
  destruct (run_body self _) as [rb fr1] eqn:Hb. cbn [fst snd].
  rewrite M_bind_eq. unfold gets at 1. cbn beta iota.
  rewrite external_frame.
  destruct (collaborator _ (Runner.fworld fr1)) as [[[]|e] w2]; simpl.
  - destruct rb as [[]|e]; reflexivity.
  - reflexivity.
Qed.

Lemma write_table_unfold (self : Runner.CellmapsCoEmbedder)
    (fr : Runner.frame) (path : string) :
  os_path_join_opt (Runner.co_outdir self) CO_EMBEDDING_FILE = Ok path →
  write_table self fr
  = if can_open_w path then
      let g := get_next_embedding (Runner.co_embedding_generator self)
                 (Runner.set_files (insert path (Tsv [])) (Runner.fworld fr)) in
      (match g.1.2 with
       | None => Ok tt
       | Some e => Raise e
       end,
       Runner.Frame
         (Runner.set_files
            (insert path
               (Runner.tsv_of
                  (Runner.header_line
                     (Runner.get_dimensions
                        (Runner.base_of (Runner.co_embedding_generator self)))
                   :: g.1.1))) g.2)
         (Runner.trace fr) (Runner.exitcode fr))
    else (Raise (OSError path), fr).
Proof.
  intros Hpath. unfold Runner.write_table.
  rewrite M_bind_eq. unfold lift at 1. rewrite Hpath. cbn beta iota.
  destruct (can_open_w path); [|reflexivity].
  cbv zeta. rewrite M_bind_eq.
  unfold Runner.in_world, zoom, modify. cbn beta iota.
  cbn [Runner.fworld Runner.trace Runner.exitcode].
  destruct (get_next_embedding _ _) as [[rows failure] w']. reflexivity.
Qed.

Lemma write_table_ok_generator (self : Runner.CellmapsCoEmbedder)
    (fr fr' : Runner.frame) (u : unit) :
  write_table self fr = (Ok u, fr') →
  ∃ w, (get_next_embedding (Runner.co_embedding_generator self) w).1.2 = None.
Proof.
  unfold Runner.write_table. intros Hw.
  apply M_bind_inv_ok in Hw as (path & fr1 & _ & Hw).
  destruct (can_open_w path); [|discriminate].
  apply M_bind_inv_ok in Hw as (? & fr2 & _ & Hw).
  unfold Runner.in_world, zoom in Hw.
  exists (Runner.fworld fr2).
  destruct (get_next_embedding _ (Runner.fworld fr2)) as [[rows [e|]] w'];
    [discriminate|reflexivity].
Qed.

Lemma run_body_ok_generator (self : Runner.CellmapsCoEmbedder)
    (fr fr' : Runner.frame) (u : unit) :
  run_body self fr = (Ok u, fr') →
  ∃ w, (get_next_embedding (Runner.co_embedding_generator self) w).1.2 = None.
Proof.
  unfold Runner.run_body. intros Hb.
  apply M_bind_inv_ok in Hb as (? & ? & _ & Hb).
  apply M_bind_inv_ok in Hb as (? & ? & Hw & _).
  eapply write_table_ok_generator, Hw.
Qed.

(** What the top-level handler of [main] makes of a raised exception:
    2, or the exception of a logging call; never 0. *)
Lemma guarded_raise (body : M Runner.frame Z) (fr fr1 : Runner.frame) (e : exn) :
  body fr = (Raise e, fr1) →
  Cmd.exit_status (guarded body fr).1 = 2
  ∨ Cmd.exit_status (guarded body fr).1 = 1.
Proof.
  intros Hb. unfold Cmd.guarded, try_finally, try_except. rewrite Hb.
  rewrite M_bind_eq, external_frame. cbn [fst snd].
  destruct (collaborator (Runner.LogException e) _).1; cbn.
  - rewrite external_frame. cbn.
    destruct (collaborator Runner.LoggingShutdown _).1; cbn; auto.
  - rewrite external_frame. cbn.
    destruct (collaborator Runner.LoggingShutdown _).1; cbn; auto.
Qed.

(** [main]'s handler around a body, step by step: after a return,
    only the shut-down of logging; after an exception, that exception is
    logged, logging is shut down and the result is 2. An exception of a
    logging call is the only one that leaves the handler. *)
Lemma guarded_unfold (body : M Runner.frame Z) (fr : Runner.frame) :
  guarded body fr
  = match (body fr).1 with
    | Ok z =>
        let shut := collaborator Runner.LoggingShutdown
                      (Runner.fworld (body fr).2) in
        (match shut.1 with
         | Ok _ => Ok z
         | Raise e2 => Raise e2
         end,
         Runner.Frame shut.2
           (Runner.trace (body fr).2 ++ [Runner.LoggingShutdown])
           (Runner.exitcode (body fr).2))
    | Raise e =>
        let logged := collaborator (Runner.LogException e)
                        (Runner.fworld (body fr).2) in
        let shut := collaborator Runner.LoggingShutdown logged.2 in
        (match shut.1 with
         | Ok _ => match logged.1 with
                   | Ok _ => Ok 2
                   | Raise e1 => Raise e1
                   end
         | Raise e2 => Raise e2
         end,
         Runner.Frame shut.2
           (Runner.trace (body fr).2
            ++ [Runner.LogException e; Runner.LoggingShutdown])
           (Runner.exitcode (body fr).2))
    end.
Proof.
  unfold Cmd.guarded, try_finally, try_except.
  destruct (body fr) as [[z|e] fr1]; cbn [fst snd].
  - rewrite external_frame. cbv zeta.
    destruct (collaborator Runner.LoggingShutdown (Runner.fworld fr1))
      as [[[]|e2] w2]; reflexivity.
  - rewrite M_bind_eq, external_frame. cbv zeta.
    destruct (collaborator (Runner.LogException e) (Runner.fworld fr1))
      as [[[]|e1] w1]; cbn [fst snd].
    + unfold mret, M_ret. rewrite external_frame.
      cbn [Runner.fworld Runner.trace Runner.exitcode].
      destruct (collaborator Runner.LoggingShutdown w1) as [[[]|e2] w2];
        cbn [fst snd]; rewrite <- app_assoc; reflexivity.
    + rewrite external_frame.
      cbn [Runner.fworld Runner.trace Runner.exitcode].
      destruct (collaborator Runner.LoggingShutdown w1) as [[[]|e2] w2];
        cbn [fst snd]; rewrite <- app_assoc; reflexivity.
Qed.

(** The body of [run] when the generator raises while the table is
    written: the exception leaves the body there, with the calls and the
    [exitcode] the steps before the table left. *)
Lemma run_body_generator_raises (self : Runner.CellmapsCoEmbedder)
    (fr fr1 : Runner.frame) (u : unit) (path : string)
    (rows : list (list Runner.cell)) (e : exn) (w' : Runner.world) :
  before_table self fr = (Ok u, fr1) →
  os_path_join_opt (Runner.co_outdir self) CO_EMBEDDING_FILE = Ok path →
  can_open_w path = true →
  get_next_embedding (Runner.co_embedding_generator self)
    (Runner.set_files (insert path (Tsv [])) (Runner.fworld fr1))
  = ((rows, Some e), w') →
  (run_body self fr).1 = Raise e
  ∧ Runner.trace (run_body self fr).2 = Runner.trace fr1
  ∧ Runner.files (Runner.fworld (run_body self fr).2)
    = <[path := Runner.tsv_of
                  (Runner.header_line
                     (Runner.get_dimensions
                        (Runner.base_of (Runner.co_embedding_generator self)))
                   :: rows)]> (Runner.files w').
Proof.
  intros Hpre Hpath Hopen Hgen. unfold Runner.run_body.
  rewrite M_bind_eq, Hpre. rewrite M_bind_eq.
  rewrite (write_table_unfold self fr1 path Hpath), Hopen. cbv zeta.
  rewrite Hgen. cbn [fst snd]. repeat split; reflexivity.
Qed.

(** C5. Every execution of [run] hands exactly one status to the finish
    record, from the [finally] block: it is 0 exactly when the body of the
    [try] ran to its end and 99 otherwise. In particular, when the steps
    before the table have returned, the table is open and the generator
    raises after any number of rows, the finish record with 99 is the
    next call made and [run] raises. [run] returns only 0. When [run]
    raises, the handler of [main] logs that exception, shuts logging
    down and returns 2 (an exception of one of the two logging calls is
    the only one that can leave it, and gives status 1); the process
    status is 0 only if [run] returned 0. *)
Theorem run_finish_record (self : Runner.CellmapsCoEmbedder)
    (fr : Runner.frame) :
  ∃ status,
    Spec.finish_records (Runner.trace (run self fr).2)
    = (Spec.finish_records (Runner.trace fr) ++ [status])%list
    ∧ (status = 0 ↔
       ∃ u, (run_body self
               (Runner.Frame (Runner.fworld fr) (Runner.trace fr) 99)).1 = Ok u)
    ∧ (status = 0 ∨ status = 99)
    ∧ (∀ fr1 u path rows e w',
         before_table self (Runner.Frame (Runner.fworld fr) (Runner.trace fr) 99)
         = (Ok u, fr1) →
         os_path_join_opt (Runner.co_outdir self) CO_EMBEDDING_FILE = Ok path →
         can_open_w path = true →
         get_next_embedding (Runner.co_embedding_generator self)
           (Runner.set_files (insert path (Tsv [])) (Runner.fworld fr1))
         = ((rows, Some e), w') →
         status = 99
         ∧ Runner.trace (run self fr).2
           = (Runner.trace fr1 ++ [Runner.WriteTaskFinish 99])%list
         ∧ ∃ e', (run self fr).1 = Raise e')
    ∧ (∀ z, (run self fr).1 = Ok z → z = 0 ∧ status = 0)
    ∧ (∀ e, (run self fr).1 = Raise e →
         let logged := collaborator (Runner.LogException e)
                         (Runner.fworld (run self fr).2) in
         let shut := collaborator Runner.LoggingShutdown logged.2 in
         Runner.trace (guarded (run self) fr).2
         = (Runner.trace (run self fr).2
            ++ [Runner.LogException e; Runner.LoggingShutdown])%list
         ∧ (is_ok logged.1 = true → is_ok shut.1 = true →
            (guarded (run self) fr).1 = Ok 2)
         ∧ Cmd.exit_status (guarded (run self) fr).1 ≠ 0)
    ∧ (Cmd.exit_status (guarded (run self) fr).1 = 0 →
       (run self fr).1 = Ok 0 ∧ status = 0).
Proof.
  pose proof (run_unfold self fr) as Hrun. cbv zeta in Hrun.
  set (fr0 := Runner.Frame (Runner.fworld fr) (Runner.trace fr) 99) in *.
  destruct (run_body_zero_on_return self fr0) as [Htrace Hcode].
  assert (Hret : ∀ z, (run self fr).1 = Ok z →
                      z = 0 ∧ Runner.exitcode (run_body self fr0).2 = 0).
  { intros z Hz. rewrite Hrun in Hz. cbn [fst] in Hz.
    destruct (collaborator _ _).1; [|discriminate].
    destruct (run_body self fr0).1 as [u|e]; [|discriminate].
    injection Hz as <-. split; exact Hcode. }
  assert (Hraise : ∀ e, (run self fr).1 = Raise e →
                        Cmd.exit_status (guarded (run self) fr).1 ≠ 0).
  { intros e He. destruct (run self fr) as [r fr2] eqn:Hr. cbn [fst] in He.
    subst r.
    destruct (guarded_raise (run self) fr fr2 e Hr) as [-> | ->]; discriminate. }
  exists (Runner.exitcode (run_body self fr0).2).
  split; [|split; [|split; [|split; [|split; [|split]]]]].
  - rewrite Hrun. cbn [snd Runner.trace].
    unfold Spec.finish_records in *. rewrite omap_app, Htrace. reflexivity.
  - destruct (run_body self fr0).1 as [u|e]; [split; eauto|].
    rewrite Hcode. simpl. split; [discriminate|]. intros [u Hu]. discriminate.
  - destruct (run_body self fr0).1; [left|right]; exact Hcode.
  - intros fr1 u path rows e w' Hpre Hpath Hopen Hgen.
    destruct (run_body_generator_raises self fr0 fr1 u path rows e w'
                Hpre Hpath Hopen Hgen) as (Hres & Htr & _).
    rewrite Hres in Hcode. simpl in Hcode.
    split; [exact Hcode|]. rewrite Hrun. cbn [fst snd Runner.trace].
    rewrite Htr, Hcode, Hres. split; [reflexivity|].
    match goal with
    | |- context [match ?x with Ok _ => _ | Raise _ => _ end] => destruct x
    end; eauto.
  - exact Hret.
  - intros e He. cbv zeta. rewrite (guarded_unfold (run self) fr), He.
    cbv zeta. cbn [fst snd Runner.trace].
    split; [reflexivity|].
    destruct (collaborator (Runner.LogException e) _) as [[[]|e1] w1];
      cbn [fst snd];
      destruct (collaborator Runner.LoggingShutdown w1) as [[[]|e2] w2];
      cbn [fst snd]; split; try discriminate; reflexivity.
  - intros Hzero. destruct (run self fr).1 as [z|e] eqn:Hr.
    + destruct (Hret z eq_refl) as [-> Hs]. split; [reflexivity|exact Hs].
    + destruct (Hraise e eq_refl Hzero).
Qed.

(** ** The table that is written *)

Lemma emit_rows_shape (d : Z) (name_index : list string) (index : nat)
    (res : list (list float)) :
  Forall (fun v => Z.of_nat (length v) = d) res →
  Forall (fun row => Z.of_nat (length row) = d + 1)
    (Runner.emit_rows name_index index res).1.
Proof.
  intros Hres. revert index.
  induction Hres as [|v res Hv _ IH]; intros index; simpl; [constructor|].
  destruct (name_index !! index); [|constructor].
  specialize (IH (S index)).
  destruct (Runner.emit_rows name_index (S index) res) as [rows e].
  constructor; [|exact IH]. simpl. rewrite length_fmap. lia.
Qed.

(** When the part of the MUSE generator before the first row returns,
    the vectors are those of one call of the fitter, made with the
    [name_index] returned and the generator's dimensions. *)
Lemma fit_inv (self : Runner.MuseCoEmbeddingGenerator) (w w' : Runner.world)
    (name_index : list string) (res : list (list float)) :
  Runner.fit muse_fit_predict self w = (Ok (name_index, res), w') →
  ∃ a w1, muse_fit_predict a w1 = (Ok res, w')
    ∧ Runner.name_index a = name_index
    ∧ Runner.latent_dim a = Runner.get_dimensions (Runner.muse_base self)
    ∧ ∃ s data, Runner.align (Runner.files w) (Runner.muse_base self)
                = Ok (s, name_index, data).
Proof.
  unfold Runner.fit. intros Hf.
  apply M_bind_inv_ok in Hf as (fsys & w0 & Hg & Hf).
  injection Hg as <- <-.
  apply M_bind_inv_ok in Hf as ([[s ni] data] & w1 & Ha & Hf).
  unfold lift in Ha. injection Ha as Ha <-.
  apply M_bind_inv_ok in Hf as (dir & w2 & _ & Hf).
  apply M_bind_inv_ok in Hf as (subset & w3 & _ & Hf).
  apply M_bind_inv_ok in Hf as (res' & w4 & Hfit & Hf).
  injection Hf as <- <- <-.
  eexists _, _. split; [exact Hfit|]. simpl.
  split; [reflexivity|]. split; [reflexivity|]. eauto.
Qed.

Lemma generator_rows_shape (g : Runner.generator) (w : Runner.world) :
  Spec.fit_contract muse_fit_predict →
  Forall (fun row => Z.of_nat (length row)
                     = Runner.get_dimensions (Runner.base_of g) + 1)
    (get_next_embedding g w).1.1.
Proof.
  intros Hfit. destruct g as [b|b|m]; simpl; [constructor..|].
  unfold Runner.Muse_get_next_embedding.
  destruct (Runner.fit muse_fit_predict m w) as [[[ni res]|e] w'] eqn:Hf;
    [|constructor].
  apply fit_inv in Hf as (a & w1 & Ha & Hni & Hdim & _).
  apply Hfit in Ha as [_ Hall]. rewrite Hdim in Hall.
  apply emit_rows_shape, Hall.
Qed.

(** C7. Once the output file is open, what [run] leaves in it is a
    header row, an empty cell followed by the labels 1 to D-1, and data
    rows of D+1 cells each, D being the dimensions the generator was built
    with. The widths of the input tables play no part. For the MUSE
    generator the row width is that of the fitter's vectors; the fake and
    the base generator raise before any data row. *)
Theorem written_table_shape (self : Runner.CellmapsCoEmbedder)
    (fr : Runner.frame) (path : string) :
  Spec.fit_contract muse_fit_predict →
  os_path_join_opt (Runner.co_outdir self) CO_EMBEDDING_FILE = Ok path →
  can_open_w path = true →
  ∃ data,
    Runner.files (Runner.fworld (write_table self fr).2) !! path
    = Some (Tsv (("" :: (str_of_Z <$>
                           seqZ 1 (Runner.get_dimensions
                                     (Runner.base_of
                                        (Runner.co_embedding_generator self))
                                   - 1)))
                 :: data))
    ∧ Forall (fun row =>
                Z.of_nat (length row)
                = Runner.get_dimensions
                    (Runner.base_of (Runner.co_embedding_generator self)) + 1)
             data.
Proof.
  intros Hfit Hpath Hopen. unfold Runner.write_table.
  rewrite M_bind_eq. unfold lift at 1. rewrite Hpath. cbn beta iota.
  rewrite Hopen. rewrite M_bind_eq.
  unfold Runner.in_world, zoom, modify. cbn beta iota.
  cbn [Runner.fworld Runner.trace Runner.exitcode].
  pose proof (generator_rows_shape (Runner.co_embedding_generator self)
                (Runner.set_files (insert path (Tsv [])) (Runner.fworld fr))
                Hfit) as Hrows.
  destruct (get_next_embedding _ _) as [[rows failure] w'].
  cbn [fst snd Runner.fworld Runner.files Runner.set_files] in *.
  rewrite lookup_insert_eq.
  exists ((fun row : list Runner.cell => Runner.cell_str <$> row) <$> rows).
  split.
  - unfold Runner.tsv_of, Runner.header_line. cbn [fmap list_fmap].
    do 3 f_equal. rewrite <- list_fmap_compose. reflexivity.
  - apply Forall_fmap. eapply Forall_impl; [exact Hrows|].
    intros row Hrow. simpl. rewrite length_fmap. exact Hrow.
Qed.

End Run.

(** ** The command line *)
Section Main.
Context `{Env}.
Variable muse_fit_predict : Runner.fit_args → M Runner.world (list (list float)).
Variable collaborator : Runner.call → M Runner.world unit.
Variable AutoCoEmbeddingGenerator_new :
  Cmd.arguments → M Runner.world Runner.generator.
Variable Auto_get_embedding_inputdirs : Runner.generator → result (list string).

Local Abbreviation main :=
  (Cmd.main muse_fit_predict collaborator AutoCoEmbeddingGenerator_new
     Auto_get_embedding_inputdirs).
Local Abbreviation main_body :=
  (Cmd.main_body muse_fit_predict collaborator AutoCoEmbeddingGenerator_new
     Auto_get_embedding_inputdirs).
Local Abbreviation make_generator :=
  (Cmd.make_generator AutoCoEmbeddingGenerator_new).

(** The logging calls and the construction of the generator that
    [runner.py] does not define are taken not to write files. *)
Hypothesis logging_keeps_files : ∀ c w,
  Spec.is_logging c = true →
  Runner.files (collaborator c w).2 = Runner.files w.
Hypothesis auto_keeps_files : ∀ a w,
  Runner.files (AutoCoEmbeddingGenerator_new a w).2 = Runner.files w.

(** [main] calls the two generators of [runner.py] with the keyword
    [embeddings], which neither constructor has. *)
Lemma make_generator_fake_muse (a : Cmd.arguments) (w : Runner.world) :
  Cmd.fake_embedding a = true ∨ Cmd.algorithm a = Cmd.muse →
  ∃ msg, make_generator a w = (Raise (TypeError msg), w).
Proof.
  intros Hk. unfold Cmd.make_generator.
  destruct (Cmd.fake_embedding a); [eexists; reflexivity|].
  destruct Hk as [Hf | ->]; [discriminate Hf|]. eexists. reflexivity.
Qed.

Lemma make_generator_keeps_files (a : Cmd.arguments) (w : Runner.world) :
  Runner.files (make_generator a w).2 = Runner.files w.
Proof.
  unfold Cmd.make_generator.
  destruct (Cmd.fake_embedding a); [reflexivity|].
  destruct (Cmd.algorithm a); [apply auto_keeps_files|reflexivity].
Qed.

Lemma embedder_call_refused (body : result Runner.CellmapsCoEmbedder) :
  ∃ msg,
    Runner.call_keywords Runner.CellmapsCoEmbedder_params
      ["outdir"; "inputdirs"; "embedding_generator"; "name";
       "organization_name"; "project_name"; "skip_logging"; "input_data_dict"]
      body = Raise (TypeError msg).
Proof. eexists. reflexivity. Qed.

(** [CellmapsCoEmbedder] is called with the keyword [inputdirs], which its
    constructor does not have: the body of the [try] in [main] never
    gets to [run]. *)
Lemma main_body_raises (a : Cmd.arguments) (fr : Runner.frame) :
  (∃ e, (main_body a fr).1 = Raise e)
  ∧ Runner.files (Runner.fworld (main_body a fr).2)
    = Runner.files (Runner.fworld fr).
Proof.
  destruct (main_body a fr) as [r fr'] eqn:Hb. cbn [fst snd].
  unfold Cmd.main_body in Hb. rewrite M_bind_eq, external_frame in Hb.
  pose proof (logging_keeps_files Runner.SetupCmdLogging (Runner.fworld fr)
                eq_refl) as Hlog.
  destruct (collaborator Runner.SetupCmdLogging (Runner.fworld fr))
    as [[[]|e] w1]; cbn [fst snd] in *;
    [|injection Hb as <- <-; split; [eauto|exact Hlog]].
  rewrite M_bind_eq in Hb. unfold Runner.in_world, zoom in Hb.
  cbn [Runner.fworld Runner.trace Runner.exitcode] in Hb.
  pose proof (make_generator_keeps_files a w1) as Hgen.
  destruct (make_generator a w1) as [[gen|e] w2]; cbn [fst snd] in *;
    [|injection Hb as <- <-; split; [eauto|cbn; congruence]].
  rewrite M_bind_eq in Hb. unfold lift at 1 in Hb.
  destruct (Cmd.get_embedding_inputdirs _ a gen) as [dirs|e];
    [|injection Hb as <- <-; split; [eauto|cbn; congruence]].
  rewrite M_bind_eq in Hb. unfold gets at 1 in Hb.
  rewrite M_bind_eq in Hb. unfold lift at 1 in Hb.
  match type of Hb with
  | context [Runner.call_keywords _ _ ?body] =>
      destruct (embedder_call_refused body) as [msg Hmsg]
  end.
  rewrite Hmsg in Hb. injection Hb as <- <-.
  split; [eauto|cbn; congruence].
Qed.

Lemma main_checked (a : Cmd.arguments) (fr : Runner.frame) :
  main a fr
  = match Cmd.check_arguments a with
    | Ok _ => Cmd.guarded collaborator (main_body a) fr
    | Raise e => (Raise e, fr)
    end.
Proof.
  unfold Cmd.main. rewrite M_bind_eq. unfold lift at 1.
  destruct (Cmd.check_arguments a); reflexivity.
Qed.

Lemma main_keeps_files (a : Cmd.arguments) (fr : Runner.frame) :
  Runner.files (Runner.fworld (main a fr).2) = Runner.files (Runner.fworld fr)
  ∧ Cmd.exit_status (main a fr).1 ≠ 0.
Proof.
  rewrite main_checked.
  destruct (Cmd.check_arguments a) as [[]|e];
    [|split; [reflexivity|discriminate]].
  destruct (main_body_raises a fr) as [[e He] Hfiles].
  destruct (main_body a fr) as [r fr1] eqn:Hb. cbn [fst snd] in *. subst r.
  split.
  - unfold Cmd.guarded, try_finally, try_except. rewrite Hb.
    rewrite M_bind_eq, !external_frame. cbn [fst snd].
    pose proof (logging_keeps_files (Runner.LogException e)
                  (Runner.fworld fr1) eq_refl) as Hlog.
    destruct (collaborator (Runner.LogException e) (Runner.fworld fr1))
      as [[[]|e'] w2]; cbn [fst snd] in *.
    + cbn. rewrite external_frame. cbn.
      pose proof (logging_keeps_files Runner.LoggingShutdown w2 eq_refl).
      destruct (collaborator Runner.LoggingShutdown w2) as [[[]|?] w3];
        cbn in *; congruence.
    + rewrite external_frame. cbn.
      pose proof (logging_keeps_files Runner.LoggingShutdown w2 eq_refl).
      destruct (collaborator Runner.LoggingShutdown w2) as [[[]|?] w3];
        cbn in *; congruence.
  - destruct (guarded_raise collaborator (main_body a) fr fr1 e Hb)
      as [Hs | Hs]; rewrite Hs; discriminate.
Qed.

(** C3, as the code has it. When the embedding files are given as a
    list, names are given, the two lengths differ, and no directory is
    given beside an empty list, construction raises a configuration error
    (the count check, or the refusal of files given together with a
    directory), for the base class and its subclasses alike. A caller
    that constructs the generator and goes on with it (builds the
    embedder, runs it) is stopped at the construction: nothing that would
    follow is executed, so no file is created and no call is made. *)
Theorem mismatched_names_are_refused (fsys : fs) (dimensions : Z)
    (ppi_embeddingdir image_embeddingdir : option string)
    (embedding_files embedding_names : list string) :
  length embedding_names ≠ length embedding_files →
  truthy_str ppi_embeddingdir || truthy_str image_embeddingdir = false
  ∨ embedding_files ≠ [] →
  ∃ e,
    Runner.EmbeddingGenerator_init fsys dimensions ppi_embeddingdir
      image_embeddingdir (Some embedding_files) (Some embedding_names)
    = Raise e
    ∧ (∀ k margin dropout n_epochs n_epochs_init outdir jackknife_percent,
         Runner.MuseCoEmbeddingGenerator_init fsys dimensions k margin
           dropout n_epochs n_epochs_init outdir (Some embedding_files)
           ppi_embeddingdir image_embeddingdir (Some embedding_names)
           jackknife_percent = Raise e)
    ∧ Spec.kind_of e = Some Spec.ConfigurationError
    ∧ (truthy_str ppi_embeddingdir || truthy_str image_embeddingdir = false →
       e = CellmapsCoEmbeddingError Runner.names_mismatch_msg)
    ∧ ∀ (then_run : Runner.generator → M Runner.frame Z) (fr : Runner.frame),
        (∀ subclass : Runner.EmbeddingGenerator → Runner.generator,
           (g ← lift (subclass <$>
                        Runner.EmbeddingGenerator_init fsys dimensions
                          ppi_embeddingdir image_embeddingdir
                          (Some embedding_files) (Some embedding_names));
            then_run g) fr = (Raise e, fr))
        ∧ (∀ k margin dropout n_epochs n_epochs_init outdir jackknife_percent,
             (g ← lift (Runner.MuseGenerator <$>
                          Runner.MuseCoEmbeddingGenerator_init fsys dimensions
                            k margin dropout n_epochs n_epochs_init outdir
                            (Some embedding_files) ppi_embeddingdir
                            image_embeddingdir (Some embedding_names)
                            jackknife_percent);
              then_run g) fr = (Raise e, fr)).
Proof.
  intros Hlen Hmode.
  destruct (names_count_mismatch_init fsys dimensions ppi_embeddingdir
              image_embeddingdir embedding_files embedding_names Hlen Hmode)
    as (e & He & Hkind & Hmsg).
  assert (Hmuse : ∀ k margin dropout n_epochs n_epochs_init outdir
                    jackknife_percent,
             Runner.MuseCoEmbeddingGenerator_init fsys dimensions k margin
               dropout n_epochs n_epochs_init outdir (Some embedding_files)
               ppi_embeddingdir image_embeddingdir (Some embedding_names)
               jackknife_percent = Raise e).
  { intros. unfold Runner.MuseCoEmbeddingGenerator_init. rewrite He.
    reflexivity. }
  exists e. split; [exact He|]. split; [exact Hmuse|].
  split; [exact Hkind|]. split; [exact Hmsg|].
  intros then_run fr. split.
  - intros subclass. rewrite M_bind_eq, He. reflexivity.
  - intros. rewrite M_bind_eq, Hmuse. reflexivity.
Qed.

(** The check of lines 137-139 in [main]: one directory alone, without
    [--embeddings], is refused there, before any generator is built. *)
Lemma main_refuses_single_directory (a : Cmd.arguments) (fr : Runner.frame) :
  truthy_str (Cmd.ppi_embeddingdir a) && truthy_str (Cmd.image_embeddingdir a)
  = false →
  truthy_list (Cmd.embeddings a) = false →
  main a fr = (Raise (CellmapsCoEmbeddingError Cmd.required_msg), fr).
Proof.
  intros Hdirs Hemb. unfold Cmd.main, Cmd.check_arguments.
  rewrite Hdirs, Hemb, !andb_false_r. reflexivity.
Qed.

End Main.

(** ** The held-out identifiers *)
Section HoldOut.
Context `{Env}.

Lemma pool_step {A} (pool : list A) (m j : nat) (x y : A) :
  (j ≤ m)%nat → pool !! j = Some x → pool !! m = Some y →
  take (S m) pool ≡ₚ x :: take m (<[j:=y]> pool).
Proof.
  intros Hj Hx Hy. rewrite (take_S_r _ _ _ Hy).
  destruct (decide (j = m)) as [->|Hne].
  - rewrite take_insert_ge by lia. assert (x = y) as -> by congruence.
    rewrite Permutation_app_comm. reflexivity.
  - rewrite take_insert_lt by lia.
    assert (Hx' : take m pool !! j = Some x).
    { rewrite lookup_take_lt by lia. exact Hx. }
    rewrite insert_take_drop by (apply lookup_lt_Some in Hx'; exact Hx').
    rewrite <- (take_drop_middle _ _ _ Hx') at 1.
    rewrite <- !Permutation_middle. simpl.
    rewrite app_nil_r. apply perm_swap.
Qed.

(** The selection loop takes [k] entries of the pool, each once. *)
Lemma sample_loop_spec {A} (k : nat) :
  ∀ (pool : list A) (m : nat) (draw : nat → nat) (pos : nat),
    (k ≤ m)%nat → (m ≤ length pool)%nat → NoDup (take m pool) →
    let res := (Runner.sample_loop pool m k draw pos).1 in
    length res = k ∧ NoDup res ∧ ∀ x, x ∈ res → x ∈ take m pool.
Proof.
  induction k as [|k IH]; intros pool m draw pos Hk Hm Hnd; simpl.
  - split; [reflexivity|]. split; [constructor|]. intros x Hx. inv Hx.
  - destruct m as [|m]; [lia|]. cbn [Nat.pred].
    assert (Hj : (draw pos `mod` S m < S m)%nat) by (apply Nat.mod_upper_bound; lia).
    set (j := (draw pos `mod` S m)%nat) in *.
    destruct (lookup_lt_is_Some_2 pool j ltac:(lia)) as [x Hx].
    destruct (lookup_lt_is_Some_2 pool m ltac:(lia)) as [y Hy].
    rewrite Hx, Hy.
    pose proof (pool_step pool m j x y ltac:(lia) Hx Hy) as Hperm.
    assert (Hnd' : NoDup (x :: take m (<[j:=y]> pool))).
    { rewrite <- Hperm. exact Hnd. }
    apply NoDup_cons in Hnd' as [Hnotin Hnd'].
    specialize (IH (<[j:=y]> pool) m draw (S pos) ltac:(lia)
                  ltac:(rewrite length_insert; lia) Hnd').
    destruct (Runner.sample_loop (<[j:=y]> pool) m k draw (S pos))
      as [rest pos'].
    cbn [fst] in *. destruct IH as (Hlen & Hrest & Hsub).
    split; [simpl; lia|]. split.
    + apply NoDup_cons. split; [|exact Hrest]. intros Hin. auto.
    + intros z Hz. rewrite Hperm. apply elem_of_cons in Hz as [->|Hz].
      * left.
      * right. auto.
Qed.

Lemma random_sample_ok {A} (population : list A) (k : Z) (w : Runner.world) :
  NoDup population → 0 ≤ k ≤ Z.of_nat (length population) →
  ∃ res, (Runner.random_sample population k w).1 = Ok res
    ∧ Runner.files (Runner.random_sample population k w).2 = Runner.files w
    ∧ length res = Z.to_nat k ∧ NoDup res ∧ ∀ x, x ∈ res → x ∈ population.
Proof.
  intros Hnd Hk. unfold Runner.random_sample.
  rewrite bool_decide_eq_true_2 by exact Hk.
  pose proof (sample_loop_spec (Z.to_nat k) population (length population)
                (Runner.draws w) (Runner.drawn w) ltac:(lia) ltac:(lia)) as Hs.
  rewrite take_ge in Hs by lia. specialize (Hs Hnd).
  destruct (Runner.sample_loop _ _ _ _ _) as [res pos']. cbn [fst snd] in *.
  exists res. split; [reflexivity|]. split; [reflexivity|]. exact Hs.
Qed.

Lemma lookup_all_length {A} (l : list A) (positions : list nat) :
  (∀ i, i ∈ positions → (i < length l)%nat) →
  length (omap (fun i => l !! i) positions) = length positions.
Proof.
  induction positions as [|i positions IH]; intros Hall; [reflexivity|].
  simpl. destruct (lookup_lt_is_Some_2 l i) as [x Hx].
  { apply Hall. left. }
  rewrite Hx. simpl. f_equal. apply IH. intros i' Hi'. apply Hall. by right.
Qed.

Lemma hold_out_unfold (self : Runner.MuseCoEmbeddingGenerator)
    (resultsdir : string) (name_index : list string) (w : Runner.world) :
  Runner.hold_out self resultsdir name_index w
  = match float_mul_int (Runner._jackknife_percent self) (length name_index) with
    | None => (Raise (ValueError "cannot convert float to integer"), w)
    | Some k =>
        match Runner.random_sample (seq 0 (length name_index)) k w with
        | (Ok subset, w1) =>
            if float_gt0 (Runner._jackknife_percent self) then
              if can_open_w (Runner.test_genes_path resultsdir) then
                (Ok subset,
                 Runner.set_files
                   (insert (Runner.test_genes_path resultsdir)
                      (Text (Runner.join_lines
                               (omap (fun i => name_index !! i) subset)))) w1)
              else (Raise (OSError (Runner.test_genes_path resultsdir)), w1)
            else (Ok subset, w1)
        | (Raise e, w1) => (Raise e, w1)
        end
    end.
Proof.
  unfold Runner.hold_out. rewrite M_bind_eq. unfold lift at 1.
  destruct (float_mul_int _ _) as [k|]; [|reflexivity].
  rewrite M_bind_eq.
  destruct (Runner.random_sample _ k w) as [[subset|e] w1]; [|reflexivity].
  rewrite M_bind_eq. unfold when, Runner.write_text.
  destruct (float_gt0 _); [|reflexivity].
  destruct (can_open_w _); reflexivity.
Qed.

(** C6, as the code has it. With a fraction that is not above 0 (0 in
    particular) the sampling step leaves the files as they are. With a
    fraction above 0 whose truncated product [k] with the number of
    aligned identifiers is between 0 and that number, and a side file
    that can be opened, the side file is written and lists [k]
    identifiers of the aligned list, taken at [k] different positions. If
    [k] exceeds the number of aligned identifiers, [random.sample] raises
    [ValueError] and the files stay as they are. *)
Theorem held_out_side_file (self : Runner.MuseCoEmbeddingGenerator)
    (resultsdir : string) (name_index : list string) (w : Runner.world) :
  let out := Runner.hold_out self resultsdir name_index w in
  let n := length name_index in
  let p := Runner._jackknife_percent self in
  (float_gt0 p = false → Runner.files out.2 = Runner.files w)
  ∧ (∀ k, float_gt0 p = true → float_mul_int p n = Some k →
          0 ≤ k ≤ Z.of_nat n →
          can_open_w (Runner.test_genes_path resultsdir) = true →
          ∃ subset ids,
            out.1 = Ok subset
            ∧ ids = omap (fun i => name_index !! i) subset
            ∧ Runner.files out.2
              = <[Runner.test_genes_path resultsdir :=
                    Text (Runner.join_lines ids)]> (Runner.files w)
            ∧ length ids = Z.to_nat k
            ∧ NoDup subset
            ∧ (∀ i, i ∈ subset → (i < n)%nat)
            ∧ (∀ id, id ∈ ids → id ∈ name_index))
  ∧ (∀ k, float_mul_int p n = Some k → ¬ 0 ≤ k ≤ Z.of_nat n →
          out.1 = Raise (ValueError Runner.sample_msg)
          ∧ Runner.files out.2 = Runner.files w).
Proof.
  cbv zeta. rewrite hold_out_unfold. split; [|split].
  - intros Hp. destruct (float_mul_int _ _) as [k|]; [|reflexivity].
    assert (Hs : Runner.files (Runner.random_sample (seq 0 (length name_index)) k w).2
                 = Runner.files w).
    { unfold Runner.random_sample. case_bool_decide; [|reflexivity].
      destruct (Runner.sample_loop _ _ _ _ _). reflexivity. }
    destruct (Runner.random_sample _ k w) as [[subset|e] w1]; [|exact Hs].
    rewrite Hp. exact Hs.
  - intros k Hp Hk Hrange Hopen. rewrite Hk.
    destruct (random_sample_ok (seq 0 (length name_index)) k w
                (NoDup_seq _ _) ltac:(rewrite length_seq; lia))
      as (subset & Hres & Hfiles & Hlen & Hnd & Hsub).
    destruct (Runner.random_sample _ k w) as [r w1]. cbn [fst snd] in *.
    subst r. rewrite Hp, Hopen. cbn [fst snd].
    assert (Hlt : ∀ i, i ∈ subset → (i < length name_index)%nat).
    { intros i Hi. apply Hsub, elem_of_seq in Hi. lia. }
    exists subset, (omap (fun i => name_index !! i) subset).
    split; [reflexivity|]. split; [reflexivity|].
    split; [cbn; rewrite Hfiles; reflexivity|].
    split; [rewrite lookup_all_length by exact Hlt; exact Hlen|].
    split; [exact Hnd|]. split; [exact Hlt|].
    intros id Hid. apply list_elem_of_omap in Hid as (i & _ & Hi).
    eapply list_elem_of_lookup_2, Hi.
  - intros k Hk Hrange. rewrite Hk. unfold Runner.random_sample.
    rewrite bool_decide_eq_false_2; [split; reflexivity|].
    rewrite length_seq. exact Hrange.
Qed.

End HoldOut.

(** ** Alignment of the modalities *)
Section Align.
Context `{Env}.

Lemma mapM_result_inv {A B} (f : A → result B) (l : list A) (k : list B) :
  mapM f l = Ok k → Forall2 (fun x y => f x = Ok y) l k.
Proof.
  revert k. induction l as [|x l IH]; intros k Hk; simpl in Hk.
  - injection Hk as <-. constructor.
  - unfold_result. destruct (f x) as [y|e] eqn:Hx; [|discriminate].
    destruct (mapM f l) as [k'|e]; [|discriminate].
    injection Hk as <-. constructor; [exact Hx|]. apply IH. reflexivity.
Qed.

Lemma mapM_result_ok {A B} (f : A → result B) (l : list A) (k : list B) :
  Forall2 (fun x y => f x = Ok y) l k → mapM f l = Ok k.
Proof.
  induction 1 as [|x y l k Hx _ IH]; simpl; [reflexivity|].
  unfold_result. rewrite Hx, IH. reflexivity.
Qed.

Lemma mapM_result_total {A B} (f : A → result B) (l : list A) :
  Forall (fun x => ∃ y, f x = Ok y) l →
  ∃ k, mapM f l = Ok k ∧ Forall2 (fun x y => f x = Ok y) l k.
Proof.
  induction 1 as [|x l [y Hy] _ (k & Hk & Hall)].
  - exists []. split; [reflexivity|constructor].
  - exists (y :: k). split; [|constructor; assumption].
    simpl. unfold_result. rewrite Hy, Hk. reflexivity.
Qed.

(** *** The sort *)

Lemma insert_by_key_perm (kx : string * list string) l :
  Runner.insert_by_key kx l ≡ₚ kx :: l.
Proof.
  induction l as [|ky l IH]; simpl; [reflexivity|].
  case_bool_decide; [reflexivity|].
  rewrite IH. apply perm_swap.
Qed.

Lemma sort_by_key_perm l : Runner.sort_by_key l ≡ₚ l.
Proof.
  induction l as [|kx l IH]; simpl; [reflexivity|].
  rewrite insert_by_key_perm, IH. reflexivity.
Qed.

Lemma insert_by_key_sorted (kx : string * list string) l :
  StronglySorted String.le (fst <$> l) →
  StronglySorted String.le (fst <$> Runner.insert_by_key kx l).
Proof.
  induction l as [|ky l IH]; intros Hl; simpl.
  - repeat constructor.
  - apply StronglySorted_cons in Hl as [Hall Hl].
    case_bool_decide as Hle; simpl.
    + apply StronglySorted_cons. split.
      * constructor; [exact Hle|].
        eapply Forall_impl; [exact Hall|]. intros k Hk. simpl in Hk.
        etrans; eassumption.
      * apply StronglySorted_cons. split; assumption.
    + apply StronglySorted_cons. split; [|apply IH, Hl].
      rewrite (insert_by_key_perm kx l). simpl. constructor; [|exact Hall].
      destruct (total String.le kx.1 ky.1); [contradiction|assumption].
Qed.

Lemma sort_by_key_sorted l :
  StronglySorted String.le (fst <$> Runner.sort_by_key l).
Proof.
  induction l as [|kx l IH]; simpl; [constructor|].
  apply insert_by_key_sorted, IH.
Qed.

Lemma with_key_nonempty (x : list string) :
  x ≠ [] → Runner.with_key x = Ok (Spec.key_of x, x).
Proof. destruct x; [done|reflexivity]. Qed.

Lemma sort_rows_ok (t : list (list string)) :
  Forall (fun row => row ≠ []) t →
  Runner.sort_rows t = Ok (Spec.sorted_table t).
Proof.
  intros Hne. unfold Runner.sort_rows.
  rewrite (mapM_result_ok _ _ (Spec.keyed t)); [reflexivity|].
  unfold Spec.keyed. induction Hne as [|x t Hx _ IH]; simpl; constructor.
  - apply with_key_nonempty, Hx.
  - exact IH.
Qed.

Lemma keyed_fst (l : list (string * list string)) :
  Forall (fun kx => kx.1 = Spec.key_of kx.2) l →
  fst <$> l = Spec.key_of <$> (snd <$> l).
Proof.
  induction 1 as [|kx l Hk _ IH]; [reflexivity|].
  rewrite !fmap_cons. f_equal; [exact Hk|exact IH].
Qed.

Lemma sorted_table_perm (t : list (list string)) : Spec.sorted_table t ≡ₚ t.
Proof.
  unfold Spec.sorted_table. rewrite sort_by_key_perm. unfold Spec.keyed.
  rewrite <- list_fmap_compose. simpl. rewrite list_fmap_id. reflexivity.
Qed.

Lemma sorted_table_sorted (t : list (list string)) :
  StronglySorted String.le (Spec.key_of <$> Spec.sorted_table t).
Proof.
  unfold Spec.sorted_table. rewrite <- keyed_fst; [apply sort_by_key_sorted|].
  rewrite sort_by_key_perm. unfold Spec.keyed.
  apply Forall_fmap, Forall_true. reflexivity.
Qed.

(** *** Reading and sorting every table *)

Lemma sort_all (names : list string) (raw : list (list (list string))) :
  ∀ offset : nat,
    (offset + length raw ≤ length names)%nat →
    Forall (Forall (fun row => row ≠ [])) raw →
    mapM (fun '(index, e) =>
            sorted ← Runner.sort_rows e;
            _ ← py_index names index;
            Ok sorted)
         (imap (fun i => pair (offset + i)%nat) raw)
    = Ok (Spec.sorted_table <$> raw).
Proof.
  induction raw as [|t raw IH]; intros offset Hlen Hne; [reflexivity|].
  apply Forall_cons in Hne as [Ht Hne]. rewrite imap_cons. cbn [mapM].
  simpl in Hlen.
  erewrite (imap_ext _ (fun i => pair (S offset + i)%nat));
    [|intros i x _; simpl; f_equal; lia].
  rewrite (IH (S offset)) by (lia || assumption).
  rewrite (sort_rows_ok t Ht). unfold py_index.
  destruct (lookup_lt_is_Some_2 names (offset + 0)%nat ltac:(lia)) as [nm ->].
  reflexivity.
Qed.

Lemma load_tables_ok (fsys : fs) (self : Runner.EmbeddingGenerator)
    (raw : list (list (list string))) :
  mapM (Runner._get_embeddings fsys) (Runner._embedding_files self) = Ok raw →
  length (Runner._embedding_names self) = length (Runner._embedding_files self) →
  Forall (Forall (fun row => row ≠ [])) raw →
  Runner.load_tables fsys self = Ok (Spec.sorted_table <$> raw).
Proof.
  intros Hraw Hnames Hne. unfold Runner.load_tables. rewrite Hraw.
  unfold mbind at 1, result_bind.
  apply mapM_result_inv, Forall2_length in Hraw.
  apply (sort_all _ raw 0%nat); [simpl; lia|exact Hne].
Qed.

(** *** The identifier sets *)

Lemma gene_names_ok (e : list (list string)) :
  Forall (fun row => row ≠ []) e →
  Runner._get_set_of_gene_names e = Ok (Spec.ids_of e).
Proof.
  induction 1 as [|x e Hx _ IH]; [reflexivity|]. simpl.
  destruct x as [|id rest]; [done|]. rewrite IH. reflexivity.
Qed.

Lemma ids_of_sorted (t : list (list string)) :
  Spec.ids_of (Spec.sorted_table t) = Spec.ids_of t.
Proof. unfold Spec.ids_of. rewrite sorted_table_perm. reflexivity. Qed.

Lemma sorted_table_nonempty (t : list (list string)) :
  Forall (fun row => row ≠ []) t →
  Forall (fun row => row ≠ []) (Spec.sorted_table t).
Proof. intros Ht. rewrite sorted_table_perm. exact Ht. Qed.

Lemma intersect_names_ok (t0 t1 : list (list string))
    (rest : list (list (list string))) :
  Forall (Forall (fun row => row ≠ [])) (t0 :: t1 :: rest) →
  Runner.intersect_names (Spec.sorted_table <$> (t0 :: t1 :: rest))
  = Ok (Spec.ids_of t0 ∩ Spec.ids_of t1).
Proof.
  intros Hne. unfold Runner.intersect_names.
  rewrite (mapM_result_ok _ _ (Spec.ids_of <$> (t0 :: t1 :: rest))).
  - reflexivity.
  - induction Hne as [|t l Ht _ IH]; simpl; constructor; [|exact IH].
    rewrite gene_names_ok by (apply sorted_table_nonempty, Ht).
    f_equal. apply ids_of_sorted.
Qed.

Lemma omap_head_nonempty (l : list (list string)) :
  Forall (fun row => row ≠ []) l → omap head l = Spec.key_of <$> l.
Proof.
  induction 1 as [|x l Hx _ IH]; [reflexivity|].
  destruct x; [done|]. simpl. f_equal. exact IH.
Qed.

Lemma elem_of_ids_of (t : list (list string)) (id : string) :
  Forall (fun row => row ≠ []) t →
  id ∈ Spec.ids_of t ↔ id ∈ Spec.key_of <$> t.
Proof.
  intros Ht. unfold Spec.ids_of. rewrite elem_of_list_to_set.
  rewrite omap_head_nonempty by exact Ht. reflexivity.
Qed.

(** *** The rows kept, in the order of their identifiers *)

Lemma filter_fmap_sorted {A B} (R : relation B) (g : A → B) (P : A → Prop)
    `{∀ x, Decision (P x)} (l : list A) :
  StronglySorted R (g <$> l) → StronglySorted R (g <$> filter P l).
Proof.
  induction l as [|x l IH]; intros Hl; [constructor|].
  rewrite fmap_cons in Hl. apply StronglySorted_cons in Hl as [Hall Hl].
  rewrite filter_cons. destruct (decide (P x)); [|apply IH, Hl].
  rewrite fmap_cons. apply StronglySorted_cons. split; [|apply IH, Hl].
  rewrite Forall_fmap in Hall |- *. rewrite Forall_forall in Hall |- *.
  intros y Hy. apply list_elem_of_filter in Hy as [_ Hy]. apply Hall, Hy.
Qed.

Lemma filter_fmap_NoDup {A B} (g : A → B) (P : A → Prop)
    `{∀ x, Decision (P x)} (l : list A) :
  NoDup (g <$> l) → NoDup (g <$> filter P l).
Proof.
  induction l as [|x l IH]; intros Hl; [constructor|].
  rewrite fmap_cons in Hl. apply NoDup_cons in Hl as [Hx Hl].
  rewrite filter_cons. destruct (decide (P x)); [|apply IH, Hl].
  rewrite fmap_cons. apply NoDup_cons. split; [|apply IH, Hl].
  intros Hin. apply Hx. apply list_elem_of_fmap in Hin as (y & -> & Hy).
  apply list_elem_of_filter in Hy as [_ Hy]. apply list_elem_of_fmap_2, Hy.
Qed.

Lemma in_set_key (s : gset string) (x : list string) :
  x ≠ [] → (Runner.in_set s x ↔ Spec.key_of x ∈ s).
Proof.
  destruct x as [|id rest]; [done|]. intros _. simpl.
  rewrite bool_decide_spec. reflexivity.
Qed.

Lemma kept_rows_elem (s : gset string) (t : list (list string))
    (row : list string) :
  Forall (fun row => row ≠ []) t →
  row ∈ Spec.kept_rows s t ↔ Spec.key_of row ∈ s ∧ row ∈ t.
Proof.
  intros Ht. unfold Spec.kept_rows. rewrite list_elem_of_filter.
  rewrite sorted_table_perm. split.
  - intros [Hin Hrow]. split; [|exact Hrow]. apply in_set_key; [|exact Hin].
    rewrite Forall_forall in Ht. apply Ht, Hrow.
  - intros [Hin Hrow]. split; [|exact Hrow]. apply in_set_key; [|exact Hin].
    rewrite Forall_forall in Ht. apply Ht, Hrow.
Qed.

Lemma kept_rows_nonempty (s : gset string) (t : list (list string)) :
  Forall (fun row => row ≠ []) t →
  Forall (fun row => row ≠ []) (Spec.kept_rows s t).
Proof.
  intros Ht. apply Forall_forall. intros row Hrow.
  apply kept_rows_elem in Hrow as [_ Hrow]; [|exact Ht].
  rewrite Forall_forall in Ht. apply Ht, Hrow.
Qed.

Lemma unique_ids_keys (t : list (list string)) :
  Spec.unique_ids t → NoDup (Spec.key_of <$> t).
Proof. intros [Hne Hnd]. rewrite <- omap_head_nonempty; assumption. Qed.

Lemma kept_keys_NoDup (s : gset string) (t : list (list string)) :
  Spec.unique_ids t → NoDup (Spec.key_of <$> Spec.kept_rows s t).
Proof.
  intros Hu. unfold Spec.kept_rows. apply filter_fmap_NoDup.
  rewrite sorted_table_perm. apply unique_ids_keys, Hu.
Qed.

Lemma kept_keys_sorted (s : gset string) (t : list (list string)) :
  StronglySorted String.le (Spec.key_of <$> Spec.kept_rows s t).
Proof. unfold Spec.kept_rows. apply filter_fmap_sorted, sorted_table_sorted. Qed.

Lemma kept_keys_elem (s : gset string) (t : list (list string)) (id : string) :
  Forall (fun row => row ≠ []) t →
  id ∈ Spec.key_of <$> Spec.kept_rows s t ↔ id ∈ s ∧ id ∈ Spec.ids_of t.
Proof.
  intros Ht. rewrite elem_of_ids_of by exact Ht.
  rewrite !list_elem_of_fmap. split.
  - intros (row & -> & Hrow). apply kept_rows_elem in Hrow as [Hs Hrow];
      [|exact Ht]. split; [exact Hs|]. eauto.
  - intros (Hs & row & -> & Hrow). exists row. split; [reflexivity|].
    apply kept_rows_elem; [exact Ht|]. split; assumption.
Qed.

(** Two modalities that both hold every kept identifier keep their rows
    in the same order. *)
Lemma kept_keys_agree (s : gset string) (t0 t : list (list string)) :
  Spec.unique_ids t0 → Spec.unique_ids t →
  s ⊆ Spec.ids_of t0 → s ⊆ Spec.ids_of t →
  Spec.key_of <$> Spec.kept_rows s t = Spec.key_of <$> Spec.kept_rows s t0.
Proof.
  intros Hu0 Hu Hs0 Hs.
  apply (StronglySorted_unique String.le); [apply kept_keys_sorted..|].
  apply NoDup_Permutation; [apply kept_keys_NoDup; assumption..|].
  intros id. rewrite !kept_keys_elem by (apply Hu || apply Hu0).
  split; intros [Hid _]; (split; [exact Hid|]); [apply Hs0|apply Hs]; exact Hid.
Qed.

(** *** The matrices *)

Lemma np_array_2d_ok {A} (rows : list (list A)) :
  (∀ r1 r2, r1 ∈ rows → r2 ∈ rows → length r1 = length r2) →
  Runner.np_array_2d rows = Ok rows.
Proof.
  intros Hrect. destruct rows as [|r rest]; [reflexivity|]. simpl.
  rewrite (proj2 (forallb_forall _ _)); [reflexivity|].
  intros r' Hr'. apply Nat.eqb_eq. apply Hrect; [right|left].
  apply list_elem_of_In, Hr'.
Qed.

Lemma parse_row_total (cells : list string) :
  Forall (fun v => is_Some (float_of_str v)) cells →
  ∃ v, mapM Runner.py_float cells = Ok v.
Proof.
  intros Hnum.
  destruct (mapM_result_total Runner.py_float cells) as (v & Hv & _); [|eauto].
  eapply Forall_impl; [exact Hnum|]. intros c [x Hx].
  exists x. unfold Runner.py_float. rewrite Hx. reflexivity.
Qed.

Lemma make_matrix_ok (s : gset string) (t : list (list string)) :
  Forall (fun row => row ≠ []) t → Spec.numeric t → Spec.rectangular t →
  ∃ m, Runner.make_matrix s (Spec.sorted_table t) = Ok m
     ∧ Forall2 (fun row v => mapM Runner.py_float (tail row) = Ok v)
               (Spec.kept_rows s t) m.
Proof.
  intros Hne Hnum Hrect. unfold Runner.make_matrix.
  fold (Spec.kept_rows s t).
  destruct (mapM_result_total (fun xi => mapM Runner.py_float (tail xi))
              (Spec.kept_rows s t)) as (m & Hm & Hall).
  { apply Forall_forall. intros row Hrow.
    apply kept_rows_elem in Hrow as [_ Hrow]; [|exact Hne].
    apply parse_row_total. unfold Spec.numeric in Hnum.
    rewrite Forall_forall in Hnum. apply Hnum, Hrow. }
  exists m. split; [|exact Hall]. rewrite Hm. unfold mbind, result_bind.
  apply np_array_2d_ok. intros v1 v2 Hv1 Hv2.
  apply list_elem_of_lookup in Hv1 as [i1 Hv1].
  apply list_elem_of_lookup in Hv2 as [i2 Hv2].
  destruct (Forall2_lookup_r _ _ _ _ _ Hall Hv1) as (r1 & Hr1 & Hp1).
  destruct (Forall2_lookup_r _ _ _ _ _ Hall Hv2) as (r2 & Hr2 & Hp2).
  apply mapM_result_inv, Forall2_length in Hp1, Hp2.
  rewrite <- Hp1, <- Hp2.
  assert (Htail : ∀ r : list string, length (tail r) = Nat.pred (length r))
    by (intros []; reflexivity).
  rewrite !Htail. f_equal.
  apply list_elem_of_lookup_2, kept_rows_elem in Hr1 as [_ Hr1]; [|exact Hne].
  apply list_elem_of_lookup_2, kept_rows_elem in Hr2 as [_ Hr2]; [|exact Hne].
  apply Hrect; assumption.
Qed.

Lemma make_matrices_ok (s : gset string) (raw : list (list (list string))) :
  Forall (Forall (fun row => row ≠ [])) raw →
  Forall Spec.numeric raw → Forall Spec.rectangular raw →
  ∃ data, mapM (Runner.make_matrix s) (Spec.sorted_table <$> raw) = Ok data
    ∧ Forall2 (fun t m =>
                 Forall2 (fun row v => mapM Runner.py_float (tail row) = Ok v)
                         (Spec.kept_rows s t) m) raw data.
Proof.
  intros Hne Hnum Hrect.
  induction raw as [|t raw IH].
  - exists []. split; [reflexivity|constructor].
  - apply Forall_cons in Hne as [Hne1 Hne], Hnum as [Hnum1 Hnum],
      Hrect as [Hrect1 Hrect].
    destruct (make_matrix_ok s t Hne1 Hnum1 Hrect1) as (m & Hm & Hrows).
    destruct (IH Hne Hnum Hrect) as (data & Hdata & Hall).
    exists (m :: data). split; [|constructor; assumption].
    rewrite fmap_cons. cbn [mapM]. rewrite Hm, Hdata. reflexivity.
Qed.

(** Lines 179-196 on tables with unique identifiers, numeric components
    and rows of one length: the intersection is that of the first two
    tables, the identifiers are the kept rows of the first table in
    sorted order, and each matrix holds the parsed kept rows of its
    table. *)
Lemma align_spec (fsys : fs) (self : Runner.EmbeddingGenerator)
    (t0 t1 : list (list string)) (rest : list (list (list string))) :
  mapM (Runner._get_embeddings fsys) (Runner._embedding_files self)
  = Ok (t0 :: t1 :: rest) →
  length (Runner._embedding_names self) = length (Runner._embedding_files self) →
  Forall Spec.unique_ids (t0 :: t1 :: rest) →
  Forall Spec.numeric (t0 :: t1 :: rest) →
  Forall Spec.rectangular (t0 :: t1 :: rest) →
  ∃ data,
    Runner.align fsys self
    = Ok (Spec.ids_of t0 ∩ Spec.ids_of t1,
          Spec.key_of <$> Spec.kept_rows (Spec.ids_of t0 ∩ Spec.ids_of t1) t0,
          data)
    ∧ Forall2 (fun t m =>
                 Forall2 (fun row v => mapM Runner.py_float (tail row) = Ok v)
                         (Spec.kept_rows (Spec.ids_of t0 ∩ Spec.ids_of t1) t) m)
              (t0 :: t1 :: rest) data.
Proof.
  intros Hraw Hnames Hu Hnum Hrect.
  assert (Hne : Forall (Forall (fun row => row ≠ [])) (t0 :: t1 :: rest)).
  { eapply Forall_impl; [exact Hu|]. intros t [Ht _]. exact Ht. }
  unfold Runner.align.
  rewrite (load_tables_ok fsys self _ Hraw Hnames Hne), bind_Ok.
  rewrite (intersect_names_ok t0 t1 rest Hne), bind_Ok.
  destruct (make_matrices_ok (Spec.ids_of t0 ∩ Spec.ids_of t1) _ Hne Hnum Hrect)
    as (data & Hdata & Hall).
  exists data. split; [|exact Hall].
  assert (Hfirst : py_index (Spec.sorted_table <$> t0 :: t1 :: rest) 0
                   = Ok (Spec.sorted_table t0)) by reflexivity.
  rewrite Hfirst, bind_Ok, Hdata, bind_Ok. do 3 f_equal.
  unfold Runner.make_name_index. fold (Spec.kept_rows (Spec.ids_of t0 ∩ Spec.ids_of t1) t0).
  apply omap_head_nonempty, kept_rows_nonempty.
  apply Forall_cons in Hne as [Hne0 _]. exact Hne0.
Qed.

Lemma vector_of_row (t : list (list string)) (row : list string) :
  NoDup (Spec.key_of <$> t) → row ≠ [] → row ∈ t →
  Spec.vector_of t (Spec.key_of row) = Some (tail row).
Proof.
  intros Hnd Hrow Hin. unfold Spec.vector_of.
  induction t as [|x t IH]; [inv Hin|].
  rewrite fmap_cons in Hnd. apply NoDup_cons in Hnd as [Hx Hnd].
  cbn [List.find]. case_bool_decide as Hhead.
  - apply elem_of_cons in Hin as [->|Hin]; [reflexivity|]. exfalso. apply Hx.
    assert (Spec.key_of x = Spec.key_of row) as ->.
    { unfold Spec.key_of at 1. rewrite Hhead. reflexivity. }
    apply list_elem_of_fmap_2, Hin.
  - apply elem_of_cons in Hin as [->|Hin]; [|apply IH; assumption].
    exfalso. apply Hhead. destruct x; [done|reflexivity].
Qed.

Lemma intersection_first_two (t0 t1 : list (list string)) :
  Spec.ids_of t0 ∩ Spec.ids_of t1 ⊆ Spec.ids_of t0
  ∧ Spec.ids_of t0 ∩ Spec.ids_of t1 ⊆ Spec.ids_of t1.
Proof.
  split; intros id Hid; apply elem_of_intersection in Hid as [? ?]; assumption.
Qed.

(** C8, as the code has it. The tables have unique identifiers, numeric
    components and rows of one length. The canonical identifier list is
    the first table's, sorted by identifier and restricted to the
    intersection of the first two tables. The matrix of each of the first
    two modalities, and of any further modality that holds every aligned
    identifier, has as many rows as that list, and its row [i] is the
    parsed vector its table gives for the [i]-th canonical identifier. *)
Theorem aligned_matrices (fsys : fs) (self : Runner.EmbeddingGenerator)
    (t0 t1 : list (list string)) (rest : list (list (list string))) :
  mapM (Runner._get_embeddings fsys) (Runner._embedding_files self)
  = Ok (t0 :: t1 :: rest) →
  length (Runner._embedding_names self) = length (Runner._embedding_files self) →
  Forall Spec.unique_ids (t0 :: t1 :: rest) →
  Forall Spec.numeric (t0 :: t1 :: rest) →
  Forall Spec.rectangular (t0 :: t1 :: rest) →
  ∃ name_index data,
    Runner.align fsys self
    = Ok (Spec.ids_of t0 ∩ Spec.ids_of t1, name_index, data)
    ∧ name_index
      = Spec.key_of <$> Spec.kept_rows (Spec.ids_of t0 ∩ Spec.ids_of t1) t0
    ∧ StronglySorted String.le name_index
    ∧ length data = length (t0 :: t1 :: rest)
    ∧ ∀ j t m,
        (t0 :: t1 :: rest) !! j = Some t → data !! j = Some m →
        (j < 2)%nat ∨ Spec.ids_of t0 ∩ Spec.ids_of t1 ⊆ Spec.ids_of t →
        length m = length name_index
        ∧ ∀ i id, name_index !! i = Some id →
            ∃ cells v,
              Spec.vector_of t id = Some cells
              ∧ mapM Runner.py_float cells = Ok v
              ∧ m !! i = Some v.
Proof.
  intros Hraw Hnames Hu Hnum Hrect.
  destruct (align_spec fsys self t0 t1 rest Hraw Hnames Hu Hnum Hrect)
    as (data & Halign & Hall).
  set (s := Spec.ids_of t0 ∩ Spec.ids_of t1) in *.
  exists (Spec.key_of <$> Spec.kept_rows s t0), data.
  split; [exact Halign|]. split; [reflexivity|].
  split; [apply kept_keys_sorted|].
  split; [symmetry; eapply Forall2_length, Hall|].
  intros j t m Ht Hm Hj.
  assert (Hut : Spec.unique_ids t).
  { rewrite Forall_forall in Hu. eapply Hu, list_elem_of_lookup_2, Ht. }
  assert (Hu0 : Spec.unique_ids t0) by (apply Forall_cons in Hu as [? _]; done).
  assert (Hsub : s ⊆ Spec.ids_of t).
  { destruct Hj as [Hj|Hj]; [|exact Hj].
    destruct (intersection_first_two t0 t1) as [H0 H1].
    destruct j as [|[|j]]; [| |lia]; simpl in Ht; injection Ht as <-;
      assumption. }
  pose proof (kept_keys_agree s t0 t Hu0 Hut
                (proj1 (intersection_first_two t0 t1)) Hsub) as Hkeys.
  pose proof (Forall2_lookup_lr _ _ _ _ _ _ Hall Ht Hm) as Hrows.
  split.
  - rewrite <- Hkeys, length_fmap. symmetry. eapply Forall2_length, Hrows.
  - intros i id Hid. rewrite <- Hkeys in Hid.
    apply list_lookup_fmap_Some in Hid as (row & -> & Hrow).
    destruct (Forall2_lookup_l _ _ _ _ _ Hrows Hrow) as (v & Hv & Hparse).
    exists (tail row), v. split; [|split; assumption].
    apply list_elem_of_lookup_2, kept_rows_elem in Hrow as [_ Hrow];
      [|apply Hut].
    apply vector_of_row; [apply unique_ids_keys, Hut| |exact Hrow].
    destruct Hut as [Hne _]. rewrite Forall_forall in Hne. apply Hne, Hrow.
Qed.

End Align.

(** ** The rows the MUSE generator yields *)
Section Emission.
Context `{Env}.
Variable muse_fit_predict : Runner.fit_args → M Runner.world (list (list float)).

Lemma emit_rows_all (name_index : list string) (res : list (list float)) :
  ∀ index : nat,
    length res = length (drop index name_index) →
    ∃ rows, Runner.emit_rows name_index index res = (rows, None)
      ∧ omap head rows = Runner.CStr <$> drop index name_index.
Proof.
  induction res as [|v res IH]; intros index Hlen; simpl in *.
  - exists []. split; [reflexivity|].
    symmetry in Hlen. apply length_zero_iff_nil in Hlen. rewrite Hlen.
    reflexivity.
  - destruct (name_index !! index) as [name|] eqn:Hname.
    + rewrite (drop_S _ _ _ Hname) in Hlen |- *. simpl in Hlen.
      destruct (IH (S index) ltac:(lia)) as (rows & -> & Hrows).
      eexists. split; [reflexivity|]. rewrite fmap_cons, <- Hrows.
      reflexivity.
    + apply lookup_ge_None in Hname. rewrite drop_ge in Hlen by lia.
      discriminate.
Qed.

(** C1, as the code has it. The tables have unique identifiers, numeric
    components and rows of one length. The aligned identifier set is the
    intersection of the identifier sets of the first two modalities (of
    all of them when there are two). The identifier list has no duplicate
    and holds exactly the aligned set, and when the fitter returns, the
    generator yields one row per identifier of that list, in its order,
    and ends without an exception. *)
Theorem aligned_identifiers (fsys : fs) (self : Runner.EmbeddingGenerator)
    (t0 t1 : list (list string)) (rest : list (list (list string))) :
  mapM (Runner._get_embeddings fsys) (Runner._embedding_files self)
  = Ok (t0 :: t1 :: rest) →
  length (Runner._embedding_names self) = length (Runner._embedding_files self) →
  Forall Spec.unique_ids (t0 :: t1 :: rest) →
  Forall Spec.numeric (t0 :: t1 :: rest) →
  Forall Spec.rectangular (t0 :: t1 :: rest) →
  Spec.fit_contract muse_fit_predict →
  ∃ name_index data,
    Runner.align fsys self
    = Ok (Spec.ids_of t0 ∩ Spec.ids_of t1, name_index, data)
    ∧ (rest = [] →
       Spec.ids_of t0 ∩ Spec.ids_of t1
       = Spec.intersection_of_all (t0 :: t1 :: rest))
    ∧ NoDup name_index
    ∧ (∀ id, id ∈ name_index ↔ id ∈ Spec.ids_of t0 ∩ Spec.ids_of t1)
    ∧ length name_index = size (Spec.ids_of t0 ∩ Spec.ids_of t1)
    ∧ ∀ (g : Runner.MuseCoEmbeddingGenerator) (w w' : Runner.world)
        (names : list string) (res : list (list float)),
        Runner.muse_base g = self → Runner.files w = fsys →
        Runner.fit muse_fit_predict g w = (Ok (names, res), w') →
        names = name_index
        ∧ ∃ rows,
            Runner.Muse_get_next_embedding muse_fit_predict g w
            = ((rows, None), w')
            ∧ omap head rows = Runner.CStr <$> name_index.
Proof.
  intros Hraw Hnames Hu Hnum Hrect Hfit.
  destruct (align_spec fsys self t0 t1 rest Hraw Hnames Hu Hnum Hrect)
    as (data & Halign & _).
  set (s := Spec.ids_of t0 ∩ Spec.ids_of t1) in *.
  assert (Hu0 : Spec.unique_ids t0) by (apply Forall_cons in Hu as [? _]; done).
  assert (Helem : ∀ id, id ∈ Spec.key_of <$> Spec.kept_rows s t0 ↔ id ∈ s).
  { intros id. rewrite kept_keys_elem by apply Hu0.
    split; [intros [Hid _]; exact Hid|].
    intros Hid. split; [exact Hid|].
    apply (proj1 (intersection_first_two t0 t1)), Hid. }
  exists (Spec.key_of <$> Spec.kept_rows s t0), data.
  split; [exact Halign|]. split; [|split; [|split; [|split]]].
  - intros ->. unfold Spec.intersection_of_all. subst s. simpl.
    apply set_eq. intros id. rewrite !elem_of_intersection. tauto.
  - apply kept_keys_NoDup, Hu0.
  - exact Helem.
  - rewrite <- (size_list_to_set (C:=gset string))
      by (apply kept_keys_NoDup, Hu0).
    f_equal. apply set_eq. intros id. rewrite elem_of_list_to_set. apply Helem.
  - intros g w w' names res Hg Hw Hf.
    pose proof Hf as Hf'.
    apply fit_inv in Hf' as (a & w1 & Ha & Hni & _ & s' & data' & Halign').
    rewrite Hg, Hw, Halign in Halign'. injection Halign' as _ Heq _.
    split; [symmetry; exact Heq|].
    apply Hfit in Ha as [Hlen _]. rewrite Hni in Hlen.
    unfold Runner.Muse_get_next_embedding. rewrite Hf.
    destruct (emit_rows_all names res 0%nat Hlen) as (rows & -> & Hrows).
    exists rows. split; [reflexivity|]. rewrite Hrows, <- Heq. reflexivity.
Qed.

End Emission.

(** * Sample runs *)
Section Samples.
Import Sample.

Lemma zero_fit_contract : Spec.fit_contract zero_fit.
Proof.
  intros a w res w' Hfit. unfold zero_fit in Hfit.
  case_bool_decide as Hneg; [discriminate|].
  injection Hfit as <- _. split; [apply length_replicate|].
  apply Forall_replicate. rewrite length_replicate. lia.
Qed.

Ltac sample_unique_ids :=
  split; [repeat constructor; discriminate|];
  apply (bool_decide_unpack _); vm_compute; exact I.

Ltac sample_numeric :=
  repeat (constructor; try (eexists; vm_compute; reflexivity)).

Ltac sample_rectangular :=
  let r1 := fresh "r" in
  let r2 := fresh "r" in
  let H1 := fresh "H" in
  let H2 := fresh "H" in
  intros r1 r2 H1 H2;
  repeat (apply elem_of_cons in H1 as [->|H1]);
  try (by inv H1);
  repeat (apply elem_of_cons in H2 as [->|H2]);
  try (by inv H2); reflexivity.

(** C4 at the directory [/data/empty], which holds no file. *)
Lemma missing_modality_file_witness :
  os_path_exists disk (os_path_join "/data/empty" PPI_EMBEDDING_FILE) = false
  ∧ os_path_exists disk (os_path_join "/data/empty" IMAGE_EMBEDDING_FILE) = false
  ∧ Runner._get_embedding_file_from_dirs disk (Some "/data/empty")
    = Raise (CellmapsCoEmbeddingError (Runner.not_found_msg "/data/empty"))
  ∧ Spec.kind_of (CellmapsCoEmbeddingError (Runner.not_found_msg "/data/empty"))
    = Some Spec.ModalityFileError.
Proof.
  split; [vm_compute; reflexivity|]. split; [vm_compute; reflexivity|].
  apply (missing_modality_file_raises disk "/data/empty");
    vm_compute; reflexivity.
Defined.

(** C9 with only [ppi_embeddingdir] given. *)
Lemma single_directory_witness :
  ((is_Some (Some "/data/ppi") ∧ (None : option string) = None)
   ∨ (Some "/data/ppi" = None ∧ is_Some (None : option string)))
  ∧ ∃ e,
      Runner.EmbeddingGenerator_init disk 128 (Some "/data/ppi") None None None
      = Raise e
      ∧ ((∃ msg, e = TypeError msg)
         ∨ (∃ d, Some "/data/ppi" = Some d
                 ∧ e = CellmapsCoEmbeddingError (Runner.not_found_msg d)))
      ∧ Spec.kind_of e ≠ Some Spec.ConfigurationError.
Proof.
  assert (Hone : (is_Some (Some "/data/ppi") ∧ (None : option string) = None)
                 ∨ (Some "/data/ppi" = None ∧ is_Some (None : option string))).
  { left. split; [eexists; reflexivity|reflexivity]. }
  split; [exact Hone|].
  exact (single_directory_falls_through disk 128 (Some "/data/ppi") None None Hone).
Defined.

(** C10 with both directories, each holding its file, and two names. *)
Lemma directories_with_names_witness :
  truthy_str (Some "/data/ppi") = true
  ∧ truthy_str (Some "/data/image") = true
  ∧ (∃ e, Runner.EmbeddingGenerator_init disk 128 (Some "/data/ppi")
            (Some "/data/image") None (Some ["PPI"; "image"]) = Raise e)
  ∧ (∀ ppi_file image_file,
       truthy_list (None : option (list string)) = false →
       Runner._get_embedding_file_from_dirs disk (Some "/data/ppi")
       = Ok ppi_file →
       Runner._get_embedding_file_from_dirs disk (Some "/data/image")
       = Ok image_file →
       Runner.EmbeddingGenerator_init disk 128 (Some "/data/ppi")
         (Some "/data/image") None (Some ["PPI"; "image"])
       = Raise (CellmapsCoEmbeddingError Runner.names_mismatch_msg)).
Proof.
  split; [reflexivity|]. split; [reflexivity|].
  exact (directories_with_names_always_raise disk 128 None (Some "/data/ppi")
           (Some "/data/image") ["PPI"; "image"] eq_refl eq_refl).
Defined.

(** C3 with three embedding files and two names; the caller builds the
    MUSE generator, then the embedder, and runs it. *)
Lemma mismatched_names_witness :
  length ["ppi"; "image"]
  ≠ length ["/data/A.tsv"; "/data/B.tsv"; "/data/C.tsv"]
  ∧ (truthy_str None || truthy_str None = false
     ∨ ["/data/A.tsv"; "/data/B.tsv"; "/data/C.tsv"] ≠ [])
  ∧ ∃ e,
      Runner.EmbeddingGenerator_init disk 128 None None
        (Some ["/data/A.tsv"; "/data/B.tsv"; "/data/C.tsv"])
        (Some ["ppi"; "image"]) = Raise e
      ∧ Spec.kind_of e = Some Spec.ConfigurationError
      ∧ e = CellmapsCoEmbeddingError Runner.names_mismatch_msg
      ∧ (g ← lift (Runner.MuseGenerator <$>
                     Runner.MuseCoEmbeddingGenerator_init disk 128 10
                       (Decimal 1 1) (Decimal 25 2) 500 200 (Some "/out")
                       (Some ["/data/A.tsv"; "/data/B.tsv"; "/data/C.tsv"])
                       None None (Some ["ppi"; "image"]) (Decimal 0 0));
         embedder ← lift (Runner.CellmapsCoEmbedder_init disk (Some "/out")
                            (Some g) (Some true));
         Runner.run zero_fit quiet embedder) frame0
        = (Raise e, frame0).
Proof.
  assert (Hlen : length ["ppi"; "image"]
                 ≠ length ["/data/A.tsv"; "/data/B.tsv"; "/data/C.tsv"])
    by (simpl; lia).
  assert (Hmode : truthy_str None || truthy_str None = false
                  ∨ ["/data/A.tsv"; "/data/B.tsv"; "/data/C.tsv"] ≠ [])
    by (left; reflexivity).
  split; [exact Hlen|]. split; [exact Hmode|].
  destruct (mismatched_names_are_refused disk 128 None None
              ["/data/A.tsv"; "/data/B.tsv"; "/data/C.tsv"] ["ppi"; "image"]
              Hlen Hmode)
    as (e & He & _ & Hkind & Hmsg & Hrun).
  exists e. split; [exact He|]. split; [exact Hkind|].
  split; [exact (Hmsg eq_refl)|].
  exact (proj2 (Hrun
                  (fun g =>
                     embedder ← lift (Runner.CellmapsCoEmbedder_init disk
                                        (Some "/out") (Some g) (Some true));
                     Runner.run zero_fit quiet embedder)
                  frame0)
           10 (Decimal 1 1) (Decimal 25 2) 500 200 (Some "/out") (Decimal 0 0)).
Defined.

(** C3 as stated fails outside these conditions. With two directories,
    an empty file list and one name, the label count differs from the
    number of files however they are counted, and the error is the one
    for a missing embedding file of the first directory; without a file
    list the count check itself raises [TypeError]. *)
Lemma mismatched_names_counterexample :
  length ["x"] ≠ length (@nil string)
  ∧ Runner.EmbeddingGenerator_init disk 128 (Some "/data/empty")
      (Some "/data/image") (Some []) (Some ["x"])
    = Raise (CellmapsCoEmbeddingError (Runner.not_found_msg "/data/empty"))
  ∧ Spec.kind_of (CellmapsCoEmbeddingError (Runner.not_found_msg "/data/empty"))
    = Some Spec.ModalityFileError
  ∧ Runner.EmbeddingGenerator_init disk 128 None None None
      (Some ["ppi"; "image"])
    = Raise (TypeError "object of type 'NoneType' has no len()")
  ∧ Spec.kind_of (TypeError "object of type 'NoneType' has no len()") = None.
Proof.
  split; [simpl; lia|]. vm_compute. repeat split; reflexivity.
Qed.

(** [main] on those three files and two names, evaluated: the exception
    is logged, the status is 2 and the files are as before. *)
Example main_mismatched_sample :
  let out := Cmd.main zero_fit quiet no_auto no_inputdirs
               three_files_two_names frame0 in
  out.1 = Ok 2
  ∧ Runner.files (Runner.fworld out.2) = disk
  ∧ Runner.trace out.2
    = [Runner.SetupCmdLogging;
       Runner.LogException (NameError "AutoCoEmbeddingGenerator");
       Runner.LoggingShutdown].
Proof. vm_compute. repeat split; reflexivity. Qed.

(** C7 on a MUSE run over the tables A and D with 4 dimensions. *)
Lemma written_table_witness :
  Spec.fit_contract zero_fit
  ∧ os_path_join_opt (Some "/out") CO_EMBEDDING_FILE
    = Ok "/out/coembedding_emd.tsv"
  ∧ can_open_w "/out/coembedding_emd.tsv" = true
  ∧ ∃ data,
      Runner.files
        (Runner.fworld
           (Runner.write_table zero_fit
              (embedder_of (Runner.MuseGenerator (muse_of base_AD (Decimal 5 1))))
              frame0).2) !! "/out/coembedding_emd.tsv"
      = Some (Tsv (("" :: (str_of_Z <$> seqZ 1 (4 - 1))) :: data))
      ∧ Forall (fun row => Z.of_nat (length row) = 4 + 1) data.
Proof.
  split; [exact zero_fit_contract|]. split; [reflexivity|].
  split; [reflexivity|].
  exact (written_table_shape zero_fit
           (embedder_of (Runner.MuseGenerator (muse_of base_AD (Decimal 5 1))))
           frame0 "/out/coembedding_emd.tsv" zero_fit_contract eq_refl eq_refl).
Defined.

(** The same run, evaluated: the header has 4 cells, each data row 5. *)
Example written_table_sample :
  Runner.files
    (Runner.fworld
       (Runner.write_table zero_fit
          (embedder_of (Runner.MuseGenerator (muse_of base_AD (Decimal 5 1))))
          frame0).2) !! "/out/coembedding_emd.tsv"
  = Some (Tsv [[""; "1"; "2"; "3"];
               ["gene1"; "0.0"; "0.0"; "0.0"; "0.0"];
               ["gene2"; "0.0"; "0.0"; "0.0"; "0.0"]]).
Proof. vm_compute. reflexivity. Qed.

(** C2 at the two tables of the scenario, through [run]: the header is
    written, the first [next] raises, the finish record gets 99. *)
Example fake_run_sample :
  let out := Runner.run zero_fit quiet
               (embedder_of (Runner.FakeGenerator base_AB)) frame0 in
  out.1 = Raise (NameError "x")
  ∧ Spec.finish_records (Runner.trace out.2) = [99]
  ∧ Runner.files (Runner.fworld out.2) !! "/out/coembedding_emd.tsv"
    = Some (Tsv [Runner.cell_str <$> Runner.header_line 128]).
Proof. vm_compute. repeat split; reflexivity. Qed.

(** C6 with the fraction 0.5 over two aligned identifiers. *)
Lemma held_out_witness :
  float_gt0 (Decimal 5 1) = true
  ∧ float_mul_int (Decimal 5 1) 2 = Some 1
  ∧ ∃ subset ids,
      (Runner.hold_out (muse_of base_AD (Decimal 5 1)) "/out/muse"
         ["gene1"; "gene2"] world0).1 = Ok subset
      ∧ ids = omap (fun i => ["gene1"; "gene2"] !! i) subset
      ∧ Runner.files
          (Runner.hold_out (muse_of base_AD (Decimal 5 1)) "/out/muse"
             ["gene1"; "gene2"] world0).2
        = <[Runner.test_genes_path "/out/muse" :=
              Text (Runner.join_lines ids)]> (Runner.files world0)
      ∧ length ids = Z.to_nat 1
      ∧ NoDup subset
      ∧ (∀ i, i ∈ subset → (i < 2)%nat)
      ∧ (∀ id, id ∈ ids → id ∈ ["gene1"; "gene2"]).
Proof.
  split; [reflexivity|]. split; [reflexivity|].
  exact (proj1 (proj2 (held_out_side_file (muse_of base_AD (Decimal 5 1))
                         "/out/muse" ["gene1"; "gene2"] world0))
           1 eq_refl eq_refl ltac:(simpl; lia) eq_refl).
Defined.

(** C6 as stated fails for a fraction above 1: with the fraction 2 and
    the one identifier the tables A and B share, [random.sample] is asked
    for two of one, the generator ends with [ValueError] and there is no
    side file. *)
Lemma held_out_counterexample :
  float_gt0 (Decimal 2 0) = true
  ∧ (Runner.Muse_get_next_embedding zero_fit (muse_of base_AB (Decimal 2 0))
       world0).1 = ([], Some (ValueError Runner.sample_msg))
  ∧ Runner.files
      (Runner.Muse_get_next_embedding zero_fit (muse_of base_AB (Decimal 2 0))
         world0).2 !! Runner.test_genes_path "/out/muse" = None.
Proof. vm_compute. repeat split; reflexivity. Qed.

(** C1 as stated fails for three tables: A and B share [gene2], C does
    not hold it; the aligned set computed is [{gene2}], the intersection
    of all three is empty. *)
Lemma aligned_identifiers_counterexample :
  Forall Spec.unique_ids [table_A; table_B; table_C]
  ∧ match Runner.align disk base_ABC with
    | Ok (s, name_index, _) => Some (elements s, name_index)
    | Raise _ => None
    end = Some (["gene2"], ["gene2"])
  ∧ elements (Spec.intersection_of_all [table_A; table_B; table_C]) = []
  ∧ match Runner.align disk base_ABC with
    | Ok (s, _, _) =>
        bool_decide
          (s = Spec.intersection_of_all [table_A; table_B; table_C])
    | Raise _ => true
    end = false.
Proof.
  split; [repeat (constructor; [sample_unique_ids|]); constructor|].
  vm_compute. repeat split; reflexivity.
Qed.

(** C8 as stated fails for three tables: the third matrix has no row
    where the canonical list has one. *)
Lemma aligned_matrices_counterexample :
  Forall Spec.unique_ids [table_A; table_B; table_C]
  ∧ match Runner.align disk base_ABC with
    | Ok (_, name_index, data) => Some (length name_index, length <$> data)
    | Raise _ => None
    end = Some (1%nat, [1%nat; 1%nat; 0%nat])
  ∧ match Runner.align disk base_ABC with
    | Ok (_, name_index, data) =>
        forallb (fun m => Nat.eqb (length m) (length name_index)) data
    | Raise _ => true
    end = false.
Proof.
  split; [repeat (constructor; [sample_unique_ids|]); constructor|].
  vm_compute. split; reflexivity.
Qed.

Lemma read_A_D :
  mapM (Runner._get_embeddings disk) (Runner._embedding_files base_AD)
  = Ok [table_A; table_D].
Proof. vm_compute. reflexivity. Qed.

Lemma tables_A_D_well_formed :
  Forall Spec.unique_ids [table_A; table_D]
  ∧ Forall Spec.numeric [table_A; table_D]
  ∧ Forall Spec.rectangular [table_A; table_D].
Proof.
  split; [|split].
  - repeat (constructor; [sample_unique_ids|]). constructor.
  - repeat (constructor; [sample_numeric|]). constructor.
  - repeat (constructor; [sample_rectangular|]). constructor.
Qed.

(** C8 on the tables A and D; D is not in identifier order and holds a
    third identifier. *)
Lemma aligned_matrices_witness :
  mapM (Runner._get_embeddings disk) (Runner._embedding_files base_AD)
  = Ok [table_A; table_D]
  ∧ Forall Spec.unique_ids [table_A; table_D]
  ∧ Forall Spec.numeric [table_A; table_D]
  ∧ Forall Spec.rectangular [table_A; table_D]
  ∧ ∃ name_index data,
      Runner.align disk base_AD
      = Ok (Spec.ids_of table_A ∩ Spec.ids_of table_D, name_index, data)
      ∧ name_index
        = Spec.key_of
            <$> Spec.kept_rows (Spec.ids_of table_A ∩ Spec.ids_of table_D)
                  table_A
      ∧ StronglySorted String.le name_index
      ∧ length data = length [table_A; table_D]
      ∧ ∀ j t m,
          [table_A; table_D] !! j = Some t → data !! j = Some m →
          (j < 2)%nat
          ∨ Spec.ids_of table_A ∩ Spec.ids_of table_D ⊆ Spec.ids_of t →
          length m = length name_index
          ∧ ∀ i id, name_index !! i = Some id →
              ∃ cells v,
                Spec.vector_of t id = Some cells
                ∧ mapM Runner.py_float cells = Ok v
                ∧ m !! i = Some v.
Proof.
  destruct tables_A_D_well_formed as (Hu & Hnum & Hrect).
  split; [exact read_A_D|]. split; [exact Hu|]. split; [exact Hnum|].
  split; [exact Hrect|].
  exact (aligned_matrices disk base_AD table_A table_D [] read_A_D eq_refl
           Hu Hnum Hrect).
Defined.

(** The same alignment, evaluated: D's rows come out in A's order. *)
Example aligned_matrices_sample :
  match Runner.align disk base_AD with
  | Ok (_, name_index, data) => Some (name_index, data)
  | Raise _ => None
  end
  = Some (["gene1"; "gene2"],
          [[[Decimal 1 1; Decimal 2 1]; [Decimal 3 1; Decimal 4 1]];
           [[Decimal 15 1]; [Decimal 25 1]]]).
Proof. vm_compute. reflexivity. Qed.

(** C1 on the tables A and D with the stand-in fitter. *)
Lemma aligned_identifiers_witness :
  mapM (Runner._get_embeddings disk) (Runner._embedding_files base_AD)
  = Ok [table_A; table_D]
  ∧ Forall Spec.unique_ids [table_A; table_D]
  ∧ Forall Spec.numeric [table_A; table_D]
  ∧ Forall Spec.rectangular [table_A; table_D]
  ∧ Spec.fit_contract zero_fit
  ∧ ∃ name_index data,
      Runner.align disk base_AD
      = Ok (Spec.ids_of table_A ∩ Spec.ids_of table_D, name_index, data)
      ∧ (@nil (list (list string)) = [] →
         Spec.ids_of table_A ∩ Spec.ids_of table_D
         = Spec.intersection_of_all [table_A; table_D])
      ∧ NoDup name_index
      ∧ (∀ id, id ∈ name_index
               ↔ id ∈ Spec.ids_of table_A ∩ Spec.ids_of table_D)
      ∧ length name_index
        = size (Spec.ids_of table_A ∩ Spec.ids_of table_D)
      ∧ ∀ (g : Runner.MuseCoEmbeddingGenerator) (w w' : Runner.world)
          (names : list string) (res : list (list float)),
          Runner.muse_base g = base_AD → Runner.files w = disk →
          Runner.fit zero_fit g w = (Ok (names, res), w') →
          names = name_index
          ∧ ∃ rows,
              Runner.Muse_get_next_embedding zero_fit g w = ((rows, None), w')
              ∧ omap head rows = Runner.CStr <$> name_index.
Proof.
  destruct tables_A_D_well_formed as (Hu & Hnum & Hrect).
  split; [exact read_A_D|]. split; [exact Hu|]. split; [exact Hnum|].
  split; [exact Hrect|]. split; [exact zero_fit_contract|].
  exact (aligned_identifiers zero_fit disk base_AD table_A table_D []
           read_A_D eq_refl Hu Hnum Hrect zero_fit_contract).
Defined.

(** The rows that run yields: one per aligned identifier. *)
Example aligned_identifiers_sample :
  omap head
    (Runner.Muse_get_next_embedding zero_fit (muse_of base_AD (Decimal 0 0))
       world0).1.1
  = [Runner.CStr "gene1"; Runner.CStr "gene2"]
  ∧ (Runner.Muse_get_next_embedding zero_fit (muse_of base_AD (Decimal 0 0))
       world0).1.2 = None.
Proof. vm_compute. split; reflexivity. Qed.

End Samples.

(** * Further properties of the code *)

(** ** What a constructed generator holds *)
Section Constructed.
Context `{Env}.

Lemma files_and_names_lengths (fsys : fs)
    (embedding_files : option (list string))
    (ppi_embeddingdir image_embeddingdir : option string)
    (embedding_names : option (list string))
    (embeddings names : list string) :
  Runner._get_embedding_files_and_names fsys embedding_files ppi_embeddingdir
    image_embeddingdir embedding_names = Ok (embeddings, names) →
  length names = length embeddings.
Proof.
  unfold Runner._get_embedding_files_and_names. intros Hr.
  match type of Hr with
  | mbind _ ?first = _ => destruct first as [[e n]|err]; [|discriminate]
  end.
  unfold mbind, result_bind in Hr.
  destruct n as [ns|].
  - destruct e as [l|]; [|discriminate]. simpl in Hr.
    case_bool_decide as Hlen; [discriminate|].
    injection Hr as <- <-. exact Hlen.
  - destruct (py_len embedding_files) as [k|]; [|discriminate].
    destruct e as [l|]; [|discriminate]. simpl in Hr.
    case_bool_decide as Hlen; [discriminate|].
    injection Hr as <- <-. exact Hlen.
Qed.

(** X1. A generator that was constructed has exactly one name per
    embedding file, whichever way the files and the names were given. *)
Theorem constructed_names_match_files (fsys : fs) (dimensions : Z)
    (ppi_embeddingdir image_embeddingdir : option string)
    (embedding_files embedding_names : option (list string))
    (g : Runner.EmbeddingGenerator) :
  Runner.EmbeddingGenerator_init fsys dimensions ppi_embeddingdir
    image_embeddingdir embedding_files embedding_names = Ok g →
  length (Runner._embedding_names g) = length (Runner._embedding_files g)
  ∧ Runner.get_dimensions g = dimensions.
Proof.
  unfold Runner.EmbeddingGenerator_init. intros Hg.
  destruct (Runner._get_embedding_files_and_names _ _ _ _ _)
    as [[e n]|err] eqn:Hfn; [|discriminate].
  rewrite bind_Ok in Hg. injection Hg as <-. simpl.
  split; [|reflexivity]. eapply files_and_names_lengths, Hfn.
Qed.

(** X2. The file found in a directory exists, it is the PPI file name or
    the image file name under that directory, and the PPI name wins
    whenever it is there, also in the directory given for the images. *)
Theorem found_embedding_file (fsys : fs) (embedding_dir : option string)
    (path : string) :
  Runner._get_embedding_file_from_dirs fsys embedding_dir = Ok path →
  os_path_exists fsys path = true
  ∧ ∃ d, embedding_dir = Some d
      ∧ (path = os_path_join d PPI_EMBEDDING_FILE
         ∨ (path = os_path_join d IMAGE_EMBEDDING_FILE
            ∧ os_path_exists fsys (os_path_join d PPI_EMBEDDING_FILE) = false)).
Proof.
  unfold Runner._get_embedding_file_from_dirs.
  destruct embedding_dir as [d|]; [|discriminate]. unfold_result. simpl.
  destruct (os_path_exists fsys (os_path_join d PPI_EMBEDDING_FILE)) eqn:Hppi.
  - intros [= <-]. split; [exact Hppi|]. exists d. split; [reflexivity|].
    left. reflexivity.
  - destruct (os_path_exists fsys (os_path_join d IMAGE_EMBEDDING_FILE))
      eqn:Himg; [|discriminate].
    intros [= <-]. split; [exact Himg|]. exists d. split; [reflexivity|].
    right. split; [reflexivity|exact Hppi].
Qed.

(** X3. Built from two directories without names, the generator holds the
    two files found, in the order PPI directory, image directory, under
    the names "PPI" and "image". When both arguments are the same
    directory the two modalities are one and the same file. *)
Theorem directory_mode_generator (fsys : fs) (dimensions : Z)
    (ppi_embeddingdir image_embeddingdir : option string)
    (embedding_files : option (list string)) (g : Runner.EmbeddingGenerator) :
  truthy_str ppi_embeddingdir || truthy_str image_embeddingdir = true →
  Runner.EmbeddingGenerator_init fsys dimensions ppi_embeddingdir
    image_embeddingdir embedding_files None = Ok g →
  ∃ ppi_file image_file,
    Runner._get_embedding_file_from_dirs fsys ppi_embeddingdir = Ok ppi_file
    ∧ Runner._get_embedding_file_from_dirs fsys image_embeddingdir
      = Ok image_file
    ∧ Runner._embedding_files g = [ppi_file; image_file]
    ∧ Runner._embedding_names g = ["PPI"; "image"]
    ∧ truthy_list embedding_files = false
    ∧ (ppi_embeddingdir = image_embeddingdir → ppi_file = image_file).
Proof.
  intros Hdirs.
  unfold Runner.EmbeddingGenerator_init, Runner._get_embedding_files_and_names.
  rewrite Hdirs. destruct (truthy_list embedding_files); [discriminate|].
  unfold_result.
  destruct (Runner._get_embedding_file_from_dirs fsys ppi_embeddingdir)
    as [p1|e1] eqn:H1; [|discriminate].
  destruct (Runner._get_embedding_file_from_dirs fsys image_embeddingdir)
    as [p2|e2] eqn:H2; [|discriminate].
  intros [= <-]. exists p1, p2. simpl.
  repeat (split; [reflexivity|]).
  intros Heq. rewrite Heq, H2 in H1. injection H1 as ->. reflexivity.
Qed.

(** X4. Built from explicit files without names and without directories,
    the generator holds those files under the names emd_0, emd_1, ...,
    which are pairwise different. *)
Theorem default_names_generator (fsys : fs) (dimensions : Z)
    (ppi_embeddingdir image_embeddingdir : option string)
    (embedding_files : list string) :
  truthy_str ppi_embeddingdir || truthy_str image_embeddingdir = false →
  ∃ g,
    Runner.EmbeddingGenerator_init fsys dimensions ppi_embeddingdir
      image_embeddingdir (Some embedding_files) None = Ok g
    ∧ Runner._embedding_files g = embedding_files
    ∧ Runner._embedding_names g
      = (fun i => "emd_" +:+ str_of_nat i) <$> seq 0 (length embedding_files)
    ∧ NoDup (Runner._embedding_names g).
Proof.
  intros Hdirs.
  unfold Runner.EmbeddingGenerator_init, Runner._get_embedding_files_and_names.
  rewrite Hdirs. unfold_result. simpl.
  rewrite bool_decide_eq_false_2.
  - eexists. split; [reflexivity|]. simpl.
    split; [reflexivity|]. split; [reflexivity|].
    unfold Runner.default_names. apply NoDup_fmap_2; [|apply NoDup_seq].
    intros i j Hij. apply (inj (String.app "emd_")) in Hij.
    unfold str_of_nat in Hij. apply (inj pretty) in Hij. exact Hij.
  - unfold Runner.default_names. rewrite length_fmap, length_seq. auto.
Qed.

End Constructed.

(** ** The sort of a table *)
Section Sorting.
Context `{Env}.

Lemma insert_by_key_stable (k : string) (kx : string * list string)
    (l : list (string * list string)) :
  filter (fun p => p.1 = k) (Runner.insert_by_key kx l)
  = filter (fun p => p.1 = k) (kx :: l).
Proof.
  induction l as [|ky l IH]; [reflexivity|]. simpl.
  case_bool_decide as Hle; [reflexivity|].
  rewrite filter_cons, IH, !filter_cons.
  destruct (decide (ky.1 = k)) as [Hy|Hy]; [|reflexivity].
  destruct (decide (kx.1 = k)) as [Hx|Hx]; [|reflexivity].
  exfalso. apply Hle. rewrite Hx, Hy. reflexivity.
Qed.

Lemma sort_by_key_stable (k : string) (l : list (string * list string)) :
  filter (fun p => p.1 = k) (Runner.sort_by_key l)
  = filter (fun p => p.1 = k) l.
Proof.
  induction l as [|kx l IH]; [reflexivity|]. simpl.
  rewrite insert_by_key_stable, !filter_cons, IH. reflexivity.
Qed.

Lemma filter_keyed (k : string) (l : list (string * list string)) :
  Forall (fun p => p.1 = Spec.key_of p.2) l →
  filter (fun r => Spec.key_of r = k) (snd <$> l)
  = snd <$> filter (fun p => p.1 = k) l.
Proof.
  induction 1 as [|p l Hp _ IH]; [reflexivity|].
  rewrite fmap_cons, !filter_cons, IH, <- Hp.
  destruct (decide (p.1 = k)); reflexivity.
Qed.

Lemma sorted_table_stable (k : string) (t : list (list string)) :
  filter (fun r => Spec.key_of r = k) (Spec.sorted_table t)
  = filter (fun r => Spec.key_of r = k) t.
Proof.
  unfold Spec.sorted_table.
  assert (Hkeyed : Forall (fun p => p.1 = Spec.key_of p.2) (Spec.keyed t)).
  { unfold Spec.keyed. apply Forall_fmap, Forall_true. reflexivity. }
  rewrite filter_keyed by (rewrite sort_by_key_perm; exact Hkeyed).
  rewrite sort_by_key_stable, <- filter_keyed by exact Hkeyed.
  unfold Spec.keyed. rewrite <- list_fmap_compose. simpl.
  rewrite list_fmap_id. reflexivity.
Qed.

Lemma with_key_empty_raises (t : list (list string)) :
  [] ∈ t → mapM Runner.with_key t = Raise IndexError.
Proof.
  induction t as [|x t IH]; intros Hin; [inv Hin|].
  cbn [mapM]. destruct x as [|id rest]; [reflexivity|].
  apply elem_of_cons in Hin as [Hin|Hin]; [discriminate|].
  rewrite (IH Hin). reflexivity.
Qed.

(** X5. Sorting a table by identifier, as every generator does after
    reading it: when every row has an identifier the result holds the
    same rows, in ascending order of identifier, rows with the same
    identifier keeping the order they had in the file; when some row is
    empty (a blank line) the sort raises [IndexError]. *)
Theorem sort_rows_outcome (t : list (list string)) :
  (Forall (fun row => row ≠ []) t →
   ∃ sorted,
     Runner.sort_rows t = Ok sorted
     ∧ sorted ≡ₚ t
     ∧ StronglySorted String.le (Spec.key_of <$> sorted)
     ∧ ∀ k, filter (fun r => Spec.key_of r = k) sorted
            = filter (fun r => Spec.key_of r = k) t)
  ∧ ([] ∈ t → Runner.sort_rows t = Raise IndexError).
Proof.
  split.
  - intros Hne. exists (Spec.sorted_table t).
    split; [apply sort_rows_ok, Hne|]. split; [apply sorted_table_perm|].
    split; [apply sorted_table_sorted|]. intros k. apply sorted_table_stable.
  - intros Hin. unfold Runner.sort_rows.
    rewrite (with_key_empty_raises t Hin). reflexivity.
Qed.

End Sorting.

(** ** Edges of the MUSE generator *)
Section MuseEdges.
Context `{Env}.
Variable muse_fit_predict : Runner.fit_args → M Runner.world (list (list float)).

Local Abbreviation Muse_get_next_embedding :=
  (Runner.Muse_get_next_embedding muse_fit_predict).

Lemma generator_align_raises (g : Runner.MuseCoEmbeddingGenerator)
    (w : Runner.world) (e : exn) :
  Runner.align (Runner.files w) (Runner.muse_base g) = Raise e →
  Muse_get_next_embedding g w = (([], Some e), w).
Proof.
  intros Ha. unfold Runner.Muse_get_next_embedding, Runner.fit.
  rewrite M_bind_eq. unfold gets at 1. cbn beta iota.
  rewrite M_bind_eq. unfold lift at 1. rewrite Ha. reflexivity.
Qed.

(** X6. The MUSE generator needs two tables. Built over a single
    embedding file, or over none, with every file readable and every row
    holding an identifier, it yields no row and ends with [IndexError],
    and the files stay as they are. *)
Theorem muse_needs_two_tables (g : Runner.MuseCoEmbeddingGenerator)
    (w : Runner.world) (raw : list (list (list string))) :
  mapM (Runner._get_embeddings (Runner.files w))
       (Runner._embedding_files (Runner.muse_base g)) = Ok raw →
  length (Runner._embedding_names (Runner.muse_base g))
  = length (Runner._embedding_files (Runner.muse_base g)) →
  Forall (Forall (fun row => row ≠ [])) raw →
  (length raw < 2)%nat →
  Muse_get_next_embedding g w = (([], Some IndexError), w).
Proof.
  intros Hraw Hnames Hne Hlen. apply generator_align_raises.
  unfold Runner.align.
  rewrite (load_tables_ok _ _ _ Hraw Hnames Hne), bind_Ok.
  destruct raw as [|t [|t' raw]]; [reflexivity| |simpl in Hlen; lia].
  unfold Runner.intersect_names. cbn [fmap list_fmap mapM].
  apply Forall_cons in Hne as [Ht _].
  rewrite (gene_names_ok _ (sorted_table_nonempty t Ht)). reflexivity.
Qed.

(** X7. A MUSE generator left with the constructor's default [outdir],
    [None], cannot run: once the tables are aligned, joining the results
    directory raises [TypeError]; the fitter is not called, no row is
    yielded and no file is written. *)
Theorem muse_without_outdir (g : Runner.MuseCoEmbeddingGenerator)
    (w : Runner.world)
    (out : gset string * list string * list (list (list float))) :
  Runner._outdir g = None →
  Runner.align (Runner.files w) (Runner.muse_base g) = Ok out →
  ∃ msg, Muse_get_next_embedding g w = (([], Some (TypeError msg)), w).
Proof.
  intros Hout Ha. unfold Runner.Muse_get_next_embedding, Runner.fit.
  rewrite M_bind_eq. unfold gets at 1. cbn beta iota.
  rewrite M_bind_eq. unfold lift at 1. rewrite Ha. cbn beta iota.
  destruct out as [[s ni] data]. rewrite M_bind_eq. unfold lift at 1.
  rewrite Hout. eexists. reflexivity.
Qed.

Lemma emit_rows_count (name_index : list string) (res : list (list float)) :
  ∀ index : nat,
    let out := Runner.emit_rows name_index index res in
    length out.1 = (length res `min` (length name_index - index))%nat
    ∧ omap head out.1
      = Runner.CStr <$> take (length res) (drop index name_index)
    ∧ out.2 = (if decide (length res ≤ length name_index - index)%nat
               then None else Some IndexError).
Proof.
  induction res as [|v res IH]; intros index; cbv zeta.
  - cbn [Runner.emit_rows fst snd length]. split; [reflexivity|].
    split; [reflexivity|]. rewrite decide_True by lia. reflexivity.
  - cbn [Runner.emit_rows].
    destruct (name_index !! index) as [name|] eqn:Hname.
    + specialize (IH (S index)). cbv zeta in IH.
      destruct (Runner.emit_rows name_index (S index) res) as [rows e].
      cbn [fst snd] in *. destruct IH as (Hlen & Hids & He).
      apply lookup_lt_Some in Hname as Hlt.
      split; [cbn [length]; rewrite Hlen; lia|]. split.
      * rewrite (drop_S _ _ _ Hname). cbn [length take].
        rewrite fmap_cons, <- Hids. reflexivity.
      * rewrite He. cbn [length].
        destruct (decide (length res ≤ length name_index - S index)%nat).
        -- rewrite decide_True by lia. reflexivity.
        -- rewrite decide_False by lia. reflexivity.
    + apply lookup_ge_None in Hname. cbn [fst snd length].
      split; [lia|]. split.
      * rewrite drop_ge by lia. rewrite take_nil. reflexivity.
      * rewrite decide_False by lia. reflexivity.
Qed.

(** X8. The rows emitted after the fit pair the identifiers with the
    vectors by position. With as many vectors as identifiers or fewer,
    one row is yielded per vector and the generator ends normally, so
    identifiers beyond the last vector are left out without an error;
    with more vectors than identifiers there is one row per identifier
    and then [IndexError]. *)
Theorem emitted_rows_count (name_index : list string)
    (res : list (list float)) :
  let out := Runner.emit_rows name_index 0 res in
  length out.1 = (length res `min` length name_index)%nat
  ∧ omap head out.1 = Runner.CStr <$> take (length res) name_index
  ∧ ((length res ≤ length name_index)%nat → out.2 = None)
  ∧ ((length name_index < length res)%nat → out.2 = Some IndexError).
Proof.
  cbv zeta. destruct (emit_rows_count name_index res 0) as (Hlen & Hids & He).
  cbv zeta in *. rewrite Nat.sub_0_r in *. rewrite drop_0 in Hids.
  split; [exact Hlen|]. split; [exact Hids|]. rewrite He.
  split; intros Hle;
    [rewrite decide_True by lia|rewrite decide_False by lia]; reflexivity.
Qed.

End MuseEdges.

(** ** What the alignment does not depend on *)
Section AlignInvariance.
Context `{Env}.

Lemma sorted_rows_of_keys (l : list (list string)) :
  StronglySorted String.le (Spec.key_of <$> l) →
  StronglySorted (fun a b => String.le (Spec.key_of a) (Spec.key_of b)) l.
Proof.
  induction l as [|x l IH]; intros Hl; [constructor|].
  rewrite fmap_cons in Hl. apply StronglySorted_cons in Hl as [Hall Hl].
  constructor; [apply IH, Hl|]. rewrite Forall_fmap in Hall. exact Hall.
Qed.

Lemma unique_key_row (t : list (list string)) (x y : list string) :
  NoDup (Spec.key_of <$> t) → x ∈ t → y ∈ t →
  Spec.key_of x = Spec.key_of y → x = y.
Proof.
  induction t as [|r t IH]; intros Hnd Hx Hy Hk; [inv Hx|].
  rewrite fmap_cons in Hnd. apply NoDup_cons in Hnd as [Hr Hnd].
  apply elem_of_cons in Hx as [->|Hx], Hy as [->|Hy].
  - reflexivity.
  - exfalso. apply Hr. rewrite Hk. apply list_elem_of_fmap_2, Hy.
  - exfalso. apply Hr. rewrite <- Hk. apply list_elem_of_fmap_2, Hx.
  - apply IH; assumption.
Qed.

Lemma sorted_table_of_permutation (t t' : list (list string)) :
  t ≡ₚ t' → NoDup (Spec.key_of <$> t) →
  Spec.sorted_table t = Spec.sorted_table t'.
Proof.
  intros Hperm Hnd.
  apply (StronglySorted_unique_strong
           (fun a b => String.le (Spec.key_of a) (Spec.key_of b))).
  - intros x y Hx Hy Hxy Hyx.
    rewrite sorted_table_perm in Hx. rewrite sorted_table_perm, <- Hperm in Hy.
    apply (unique_key_row t); [assumption..|].
    apply (anti_symm String.le); assumption.
  - apply sorted_rows_of_keys, sorted_table_sorted.
  - apply sorted_rows_of_keys, sorted_table_sorted.
  - rewrite !sorted_table_perm. exact Hperm.
Qed.

Lemma sort_all_of_permutation (names : list string)
    (raw raw' : list (list (list string))) :
  Forall2 (fun t t' => Runner.sort_rows t = Runner.sort_rows t') raw raw' →
  ∀ offset : nat,
    mapM (fun '(index, e) =>
            sorted ← Runner.sort_rows e;
            _ ← py_index names index;
            Ok sorted)
         (imap (fun i => pair (offset + i)%nat) raw)
    = mapM (fun '(index, e) =>
              sorted ← Runner.sort_rows e;
              _ ← py_index names index;
              Ok sorted)
           (imap (fun i => pair (offset + i)%nat) raw').
Proof.
  induction 1 as [|t t' raw raw' Ht _ IH]; intros offset; [reflexivity|].
  rewrite !imap_cons. cbn [mapM].
  erewrite (imap_ext _ (fun i => pair (S offset + i)%nat) raw);
    [|intros i x _; simpl; f_equal; lia].
  erewrite (imap_ext _ (fun i => pair (S offset + i)%nat) raw');
    [|intros i x _; simpl; f_equal; lia].
  rewrite (IH (S offset)), Ht. reflexivity.
Qed.

(** X9. The alignment does not depend on the order of the rows in the
    files: two file systems whose embedding files hold the same rows with
    unique identifiers, in any order, give the same aligned set, the same
    identifier list and the same matrices (or the same exception). *)
Theorem align_ignores_row_order (fsys fsys' : fs)
    (self : Runner.EmbeddingGenerator) (raw raw' : list (list (list string))) :
  mapM (Runner._get_embeddings fsys) (Runner._embedding_files self) = Ok raw →
  mapM (Runner._get_embeddings fsys') (Runner._embedding_files self) = Ok raw' →
  Forall2 (fun t t' => t ≡ₚ t') raw raw' →
  Forall Spec.unique_ids raw →
  Runner.align fsys self = Runner.align fsys' self.
Proof.
  intros Hraw Hraw' Hperm Hu.
  assert (Hsort : Forall2 (fun t t' => Runner.sort_rows t = Runner.sort_rows t')
                     raw raw').
  { clear Hraw Hraw'.
    induction Hperm as [|t t' raw raw' Ht _ IH]; [constructor|].
    apply Forall_cons in Hu as [[Hne Hnd] Hu].
    constructor; [|apply IH, Hu].
    rewrite (sort_rows_ok t Hne), (sort_rows_ok t') by (rewrite <- Ht; exact Hne).
    f_equal. apply sorted_table_of_permutation; [exact Ht|].
    rewrite <- omap_head_nonempty by exact Hne. exact Hnd. }
  assert (Hload : Runner.load_tables fsys self = Runner.load_tables fsys' self).
  { unfold Runner.load_tables. rewrite Hraw, Hraw', !bind_Ok.
    exact (sort_all_of_permutation (Runner._embedding_names self) raw raw'
             Hsort 0%nat). }
  unfold Runner.align. rewrite Hload. reflexivity.
Qed.

Lemma parsed_rows_functional (rows : list (list string))
    (m m' : list (list float)) :
  Forall2 (fun row v => mapM Runner.py_float (tail row) = Ok v) rows m →
  Forall2 (fun row v => mapM Runner.py_float (tail row) = Ok v) rows m' →
  m = m'.
Proof.
  intros Hm. revert m'. induction Hm as [|row v rows m Hv _ IH];
    intros m' Hm'; inv Hm'; [reflexivity|].
  f_equal; [congruence|]. apply IH. assumption.
Qed.

(** X10. The alignment of two modalities does not depend on which of
    them comes first: with the two files exchanged the aligned set and
    the identifier list are the same and the two matrices change
    places. *)
Theorem align_two_symmetric (fsys : fs)
    (self self' : Runner.EmbeddingGenerator) (t0 t1 : list (list string)) :
  mapM (Runner._get_embeddings fsys) (Runner._embedding_files self)
  = Ok [t0; t1] →
  mapM (Runner._get_embeddings fsys) (Runner._embedding_files self')
  = Ok [t1; t0] →
  length (Runner._embedding_names self) = length (Runner._embedding_files self) →
  length (Runner._embedding_names self')
  = length (Runner._embedding_files self') →
  Forall Spec.unique_ids [t0; t1] →
  Forall Spec.numeric [t0; t1] →
  Forall Spec.rectangular [t0; t1] →
  ∃ s name_index m0 m1,
    Runner.align fsys self = Ok (s, name_index, [m0; m1])
    ∧ Runner.align fsys self' = Ok (s, name_index, [m1; m0]).
Proof.
  intros Hraw Hraw' Hn Hn' Hu Hnum Hrect.
  assert (Hswap : ∀ P : list (list string) → Prop,
             Forall P [t0; t1] → Forall P [t1; t0]).
  { intros P HP. apply Forall_cons in HP as [? HP].
    apply Forall_cons in HP as [? _]. repeat constructor; assumption. }
  destruct (align_spec fsys self t0 t1 [] Hraw Hn Hu Hnum Hrect)
    as (data & Ha & Hd).
  destruct (align_spec fsys self' t1 t0 [] Hraw' Hn' (Hswap _ Hu)
              (Hswap _ Hnum) (Hswap _ Hrect)) as (data' & Ha' & Hd').
  rewrite (intersection_comm_L (Spec.ids_of t1)) in Ha', Hd'.
  set (s := Spec.ids_of t0 ∩ Spec.ids_of t1) in *.
  destruct data as [|m0 [|m1 [|? ?]]];
    try (apply Forall2_length in Hd; discriminate).
  destruct data' as [|m1' [|m0' [|? ?]]];
    try (apply Forall2_length in Hd'; discriminate).
  apply Forall2_cons in Hd as [Hm0 Hd]. apply Forall2_cons in Hd as [Hm1 _].
  apply Forall2_cons in Hd' as [Hm1' Hd'].
  apply Forall2_cons in Hd' as [Hm0' _].
  destruct (intersection_first_two t0 t1) as [Hs0 Hs1].
  apply Forall_cons in Hu as [Hu0 Hu]. apply Forall_cons in Hu as [Hu1 _].
  rewrite (kept_keys_agree s t0 t1 Hu0 Hu1 Hs0 Hs1) in Ha'.
  exists s, (Spec.key_of <$> Spec.kept_rows s t0), m0, m1.
  split; [exact Ha|]. rewrite Ha'.
  rewrite (parsed_rows_functional _ _ _ Hm0' Hm0).
  rewrite (parsed_rows_functional _ _ _ Hm1' Hm1). reflexivity.
Qed.

End AlignInvariance.

(** ** The steps of a run *)
Section RunSteps.
Context `{Env}.
Variable muse_fit_predict : Runner.fit_args → M Runner.world (list (list float)).
Variable collaborator : Runner.call → M Runner.world unit.

Local Abbreviation external := (Runner.external collaborator).
Local Abbreviation run := (Runner.run muse_fit_predict collaborator).
Local Abbreviation run_body := (Runner.run_body muse_fit_predict collaborator).
Local Abbreviation write_table := (Runner.write_table muse_fit_predict).
Local Abbreviation get_next_embedding :=
  (Runner.get_next_embedding muse_fit_predict).

Lemma external_ok (c : Runner.call) (fr fr' : Runner.frame) (u : unit) :
  external c fr = (Ok u, fr') → Runner.trace fr' = (Runner.trace fr ++ [c])%list.
Proof. rewrite external_frame. intros [= _ <-]. reflexivity. Qed.

Lemma when_external_ok (b : bool) (c : Runner.call) (fr fr' : Runner.frame)
    (u : unit) :
  when b (external c) fr = (Ok u, fr') →
  Runner.trace fr' = (Runner.trace fr ++ (if b then [c] else []))%list.
Proof.
  destruct b; simpl; [apply external_ok|].
  intros [= _ <-]. rewrite app_nil_r. reflexivity.
Qed.

Lemma raise_if_ok (b : bool) (e : exn) (fr fr' : Runner.frame) (u : unit) :
  raise_if b e fr = (Ok u, fr') → fr' = fr.
Proof. destruct b; [discriminate|]. intros [= _ <-]. reflexivity. Qed.

(** One call per entry of a list, all returning. *)
Lemma calls_ok {A} (f : A → Runner.call) (entries : list A) :
  ∀ (fr fr' : Runner.frame) (us : list unit),
    mapM (fun entry => external (f entry)) entries fr = (Ok us, fr') →
    Runner.trace fr' = (Runner.trace fr ++ (f <$> entries))%list.
Proof.
  induction entries as [|entry entries IH]; intros fr fr' us Hm.
  - injection Hm as _ <-. rewrite app_nil_r. reflexivity.
  - cbn [mapM] in Hm.
    apply M_bind_inv_ok in Hm as (u & fr1 & H1 & Hm).
    apply M_bind_inv_ok in Hm as (us' & fr2 & H2 & Hm).
    injection Hm as _ <-. apply external_ok in H1. apply IH in H2.
    rewrite H2, H1, fmap_cons, <- app_assoc. reflexivity.
Qed.

Lemma before_table_calls (self : Runner.CellmapsCoEmbedder)
    (fr fr' : Runner.frame) (u : unit) :
  Runner.before_table collaborator self fr = (Ok u, fr') →
  ∃ merged : bool,
    Runner.trace fr'
    = (Runner.trace fr
       ++ (if os_path_isdir (Runner.files (Runner.fworld fr))
                (default "" (Runner.co_outdir self))
           then [] else [Runner.Makedirs (Runner.co_outdir self)])
       ++ (if Runner.co_skip_logging self then []
           else [Runner.SetupFileLogger])
       ++ [Runner.WriteTaskStart]
       ++ (if merged
           then Runner.GetMergedProvenance
                :: (Runner.ProvenanceAttr <$> Runner.provenance_getters)
           else [])
       ++ [Runner.RegisterRocrate; Runner.RegisterSoftware])%list.
Proof.
  unfold Runner.before_table. intros Hb.
  apply M_bind_inv_ok in Hb as (? & fr1 & H1 & Hb). apply raise_if_ok in H1.
  apply M_bind_inv_ok in Hb as (fsys & fr2 & H2 & Hb).
  injection H2 as <- <-. subst fr1.
  apply M_bind_inv_ok in Hb as (? & fr3 & H3 & Hb).
  apply when_external_ok in H3.
  apply M_bind_inv_ok in Hb as (? & fr4 & H4 & Hb).
  apply when_external_ok in H4.
  apply M_bind_inv_ok in Hb as (? & fr5 & H5 & Hb). apply external_ok in H5.
  apply M_bind_inv_ok in Hb as (? & fr6 & H6 & Hb). apply raise_if_ok in H6.
  subst fr6.
  apply M_bind_inv_ok in Hb as (? & fr7 & H7 & Hb).
  unfold Runner._update_provenance_fields in H7.
  apply M_bind_inv_ok in H7 as (fsys7 & fr7' & Hg7 & H7).
  injection Hg7 as <- <-.
  match type of H7 with
  | when ?b _ _ = _ =>
      assert (H7' : Runner.trace fr7
                    = (Runner.trace fr5
                       ++ (if b
                           then Runner.GetMergedProvenance
                                :: (Runner.ProvenanceAttr
                                      <$> Runner.provenance_getters)
                           else []))%list);
      [destruct b|exists b]
  end.
  { unfold when in H7.
    apply M_bind_inv_ok in H7 as (? & fra & Ha & H7). apply external_ok in Ha.
    apply M_bind_inv_ok in H7 as (? & frb & Hg & H7).
    apply (calls_ok Runner.ProvenanceAttr) in Hg.
    injection H7 as _ <-. rewrite Hg, Ha, <- app_assoc. reflexivity. }
  { injection H7 as _ <-. rewrite app_nil_r. reflexivity. }
  apply M_bind_inv_ok in Hb as (? & fr8 & H8 & Hb).
  assert (H8' : Runner.trace fr8
                = (Runner.trace fr7 ++ [Runner.RegisterRocrate])%list).
  { unfold Runner._create_rocrate, try_except in H8.
    destruct (external Runner.RegisterRocrate fr7) as [[?|e] fr8'] eqn:Hr.
    - injection H8 as _ <-. eapply external_ok, Hr.
    - destruct e; discriminate. }
  apply external_ok in Hb.
  rewrite Hb, H8', H7', H5, H4, H3. rewrite <- !app_assoc.
  destruct (os_path_isdir _ _), (Runner.co_skip_logging self); reflexivity.
Qed.

Lemma write_table_trace (self : Runner.CellmapsCoEmbedder)
    (fr : Runner.frame) :
  Runner.trace (write_table self fr).2 = Runner.trace fr.
Proof.
  unfold Runner.write_table. rewrite M_bind_eq. unfold lift at 1.
  destruct (os_path_join_opt _ _) as [path|e]; [|reflexivity].
  destruct (can_open_w path); [|reflexivity].
  rewrite M_bind_eq. unfold Runner.in_world, zoom, modify. cbn beta iota.
  cbn [Runner.fworld Runner.trace Runner.exitcode].
  destruct (get_next_embedding _ _) as [[rows failure] w']. reflexivity.
Qed.

Lemma run_body_calls (self : Runner.CellmapsCoEmbedder)
    (fr fr' : Runner.frame) (u : unit) :
  run_body self fr = (Ok u, fr') →
  ∃ (merged : bool) (crates : list string),
    crates `sublist_of` default [] (Runner.co_inputdirs self)
    ∧ Runner.trace fr'
      = (Runner.trace fr
         ++ (if os_path_isdir (Runner.files (Runner.fworld fr))
                  (default "" (Runner.co_outdir self))
             then [] else [Runner.Makedirs (Runner.co_outdir self)])
         ++ (if Runner.co_skip_logging self then []
             else [Runner.SetupFileLogger])
         ++ [Runner.WriteTaskStart]
         ++ (if merged
             then Runner.GetMergedProvenance
                  :: (Runner.ProvenanceAttr <$> Runner.provenance_getters)
             else [])
         ++ [Runner.RegisterRocrate; Runner.RegisterSoftware;
             Runner.GetDefaultDateFormatStr; Runner.RegisterDataset]
         ++ (Runner.GetIdOfRocrate <$> crates)
         ++ [Runner.GetLogin; Runner.RegisterComputation])%list.
Proof.
  unfold Runner.run_body. intros Hb.
  apply M_bind_inv_ok in Hb as (? & fr1 & H1 & Hb).
  apply before_table_calls in H1 as [merged H1].
  apply M_bind_inv_ok in Hb as (? & fr2 & H2 & Hb).
  assert (H2' : Runner.trace fr2 = Runner.trace fr1).
  { rewrite <- (write_table_trace self fr1), H2. reflexivity. }
  apply M_bind_inv_ok in Hb as (? & fr3 & H3 & Hb).
  unfold Runner._register_image_coembedding_file in H3.
  apply M_bind_inv_ok in H3 as (? & fr3' & H3a & H3b).
  apply external_ok in H3a, H3b.
  apply M_bind_inv_ok in Hb as (? & fr4 & H4 & Hb).
  unfold Runner._register_computation in H4.
  apply M_bind_inv_ok in H4 as (fsys4 & fr4' & Hg4 & H4).
  injection Hg4 as <- <-.
  apply M_bind_inv_ok in H4 as (us & fr5 & Hl & H4).
  apply (calls_ok Runner.GetIdOfRocrate) in Hl.
  apply M_bind_inv_ok in H4 as (? & fr6 & H4a & H4b).
  apply external_ok in H4a, H4b.
  injection Hb as _ <-. cbn [Runner.trace].
  exists merged.
  match type of Hl with
  | context [Runner.GetIdOfRocrate <$> ?l] => exists l
  end.
  split; [apply sublist_filter|].
  rewrite H4b, H4a, Hl, H3b, H3a, H2', H1. rewrite <- !app_assoc.
  reflexivity.
Qed.

(** X13. A run that returns has made exactly these calls to [os.makedirs],
    [logutils] and the provenance utility, in this order: the directory
    is made only when it is not there, the file logger is set up only
    when logging is not skipped, the merged provenance is fetched
    together with its five attributes or not at all, the date format is
    asked for before the dataset is registered and the login before the
    computation is; the finish record is the last call and carries 0,
    which is also what [run] returns. *)
Theorem successful_run_calls (self : Runner.CellmapsCoEmbedder)
    (fr : Runner.frame) (z : Z) :
  (run self fr).1 = Ok z →
  z = 0
  ∧ ∃ merged crates,
      crates `sublist_of` default [] (Runner.co_inputdirs self)
      ∧ Runner.trace (run self fr).2
        = (Runner.trace fr
           ++ Calls.successful_calls (Runner.co_outdir self)
                (Runner.co_skip_logging self)
                (os_path_isdir (Runner.files (Runner.fworld fr))
                   (default "" (Runner.co_outdir self)))
                merged crates)%list.
Proof.
  intros Hz. pose proof (run_unfold muse_fit_predict collaborator self fr) as Hrun.
  cbv zeta in Hrun. rewrite Hrun in Hz |- *. clear Hrun.
  set (fr0 := Runner.Frame (Runner.fworld fr) (Runner.trace fr) 99) in *.
  destruct (run_body_zero_on_return muse_fit_predict collaborator self fr0)
    as [_ Hcode].
  destruct (run_body self fr0) as [rb fr1] eqn:Hb. cbn [fst snd] in *.
  destruct (collaborator _ _).1; [|discriminate].
  destruct rb as [u|e]; [|discriminate].
  injection Hz as <-. split; [exact Hcode|].
  destruct (run_body_calls self fr0 fr1 u Hb) as (merged & crates & Hsub & Ht).
  exists merged, crates. split; [exact Hsub|].
  rewrite Ht, Hcode. unfold Calls.successful_calls. subst fr0.
  cbn [Runner.trace Runner.fworld]. rewrite <- !app_assoc. reflexivity.
Qed.

(** X14. A run over the fake generator, or over the base class, never
    returns: the generator raises when the first row is asked for, so
    [run] raises and the finish record carries 99. *)
Theorem fake_run_never_returns (self : Runner.CellmapsCoEmbedder)
    (fr : Runner.frame) (base : Runner.EmbeddingGenerator) :
  Runner.co_embedding_generator self = Runner.FakeGenerator base
  ∨ Runner.co_embedding_generator self = Runner.BaseGenerator base →
  (∃ e, (run self fr).1 = Raise e)
  ∧ Spec.finish_records (Runner.trace (run self fr).2)
    = (Spec.finish_records (Runner.trace fr) ++ [99])%list.
Proof.
  intros Hgen.
  pose proof (run_unfold muse_fit_predict collaborator self fr) as Hrun.
  cbv zeta in Hrun. rewrite Hrun. clear Hrun.
  set (fr0 := Runner.Frame (Runner.fworld fr) (Runner.trace fr) 99) in *.
  destruct (run_body_zero_on_return muse_fit_predict collaborator self fr0)
    as [Htrace Hcode].
  destruct (run_body self fr0) as [rb fr1] eqn:Hb. cbn [fst snd] in *.
  destruct rb as [u|e].
  { apply run_body_ok_generator in Hb as [w Hw].
    destruct Hgen as [Hg|Hg]; rewrite Hg in Hw; discriminate. }
  split.
  - destruct (collaborator _ _).1; eauto.
  - cbn [Runner.trace]. unfold Spec.finish_records in *.
    rewrite omap_app, Htrace, Hcode. reflexivity.
Qed.

(** *** The table a run leaves behind *)
Section TableLeft.
Variable path : string.
Hypothesis collaborators_leave_table :
  ∀ c w, Runner.files (collaborator c w).2 !! path = Runner.files w !! path.

Lemma leaves_bind {A B} (c : M Runner.frame A) (f : A → M Runner.frame B) :
  Spec.leaves_file path c → (∀ a, Spec.leaves_file path (f a)) →
  Spec.leaves_file path (c ≫= f).
Proof.
  intros Hc Hf fr. rewrite M_bind_eq. specialize (Hc fr).
  destruct (c fr) as [[a|e] fr1]; cbn [fst snd] in *; [|exact Hc].
  rewrite (Hf a fr1). exact Hc.
Qed.

Lemma leaves_external (c : Runner.call) : Spec.leaves_file path (external c).
Proof.
  intros fr. rewrite external_frame. cbn [snd Runner.fworld].
  apply collaborators_leave_table.
Qed.

Lemma leaves_mapM {A} (f : A → Runner.call) (l : list A) :
  Spec.leaves_file path (mapM (fun a => external (f a)) l).
Proof.
  induction l as [|a l IH]; [intros fr; reflexivity|].
  cbn [mapM]. apply leaves_bind; [apply leaves_external|]. intros ?.
  apply leaves_bind; [exact IH|]. intros ? fr. reflexivity.
Qed.

(** Lines 506-510: what follows the table in the body of the [try]. *)
Lemma after_table_leaves (self : Runner.CellmapsCoEmbedder) :
  Spec.leaves_file path
    (_ ← Runner._register_image_coembedding_file collaborator;
     _ ← Runner._register_computation collaborator self;
     Runner.set_exitcode 0).
Proof.
  apply leaves_bind; [|intros ?].
  { unfold Runner._register_image_coembedding_file.
    apply leaves_bind; [|intros ?]; apply leaves_external. }
  apply leaves_bind; [|intros ? fr; reflexivity].
  unfold Runner._register_computation.
  apply leaves_bind; [intros fr; reflexivity|]. intros ?.
  apply leaves_bind; [apply leaves_mapM|]. intros ?.
  apply leaves_bind; [|intros ?]; apply leaves_external.
Qed.

(** X11. What [run] leaves at the path of the table. Once the steps
    before the table have returned and the file could be opened, the file
    holds, when [run] is over, the header and exactly the rows the
    generator yielded: also when the generator raised after some rows,
    when a registration after the table raised, or when the finish record
    could not be written; provided the collaborators leave that file
    alone. *)
Theorem table_left_by_run (self : Runner.CellmapsCoEmbedder)
    (fr fr1 : Runner.frame) (u : unit) :
  Runner.before_table collaborator self
    (Runner.Frame (Runner.fworld fr) (Runner.trace fr) 99) = (Ok u, fr1) →
  os_path_join_opt (Runner.co_outdir self) CO_EMBEDDING_FILE = Ok path →
  can_open_w path = true →
  Runner.files (Runner.fworld (run self fr).2) !! path
  = Some (Runner.tsv_of
            (Runner.header_line
               (Runner.get_dimensions
                  (Runner.base_of (Runner.co_embedding_generator self)))
             :: (get_next_embedding (Runner.co_embedding_generator self)
                   (Runner.set_files (insert path (Tsv []))
                      (Runner.fworld fr1))).1.1)).
Proof.
  intros Hpre Hpath Hopen.
  pose proof (run_unfold muse_fit_predict collaborator self fr) as Hrun.
  cbv zeta in Hrun. rewrite Hrun. clear Hrun. cbn [snd Runner.fworld].
  rewrite collaborators_leave_table.
  unfold Runner.run_body. rewrite M_bind_eq, Hpre. rewrite M_bind_eq.
  rewrite (write_table_unfold muse_fit_predict self fr1 path Hpath), Hopen.
  cbv zeta.
  destruct (get_next_embedding _ _) as [[rows [e|]] w']; cbn [fst snd].
  - cbn [Runner.fworld Runner.files Runner.set_files].
    apply lookup_insert_eq.
  - rewrite (after_table_leaves self).
    cbn [Runner.fworld Runner.files Runner.set_files].
    apply lookup_insert_eq.
Qed.

End TableLeft.

End RunSteps.

(** ** The command line, whatever the collaborators do *)
Section MainAlways.
Context `{Env}.
Variable muse_fit_predict : Runner.fit_args → M Runner.world (list (list float)).
Variable collaborator : Runner.call → M Runner.world unit.
Variable AutoCoEmbeddingGenerator_new :
  Cmd.arguments → M Runner.world Runner.generator.
Variable Auto_get_embedding_inputdirs : Runner.generator → result (list string).

Local Abbreviation main :=
  (Cmd.main muse_fit_predict collaborator AutoCoEmbeddingGenerator_new
     Auto_get_embedding_inputdirs).
Local Abbreviation main_body :=
  (Cmd.main_body muse_fit_predict collaborator AutoCoEmbeddingGenerator_new
     Auto_get_embedding_inputdirs).

(** X15. The arguments [main] lets through are exactly these: both
    directories and no [--embeddings], or [--embeddings] and neither
    directory, with at most two embeddings when the algorithm is MUSE. *)
Theorem accepted_arguments (a : Cmd.arguments) :
  Cmd.check_arguments a = Ok tt
  ↔ (truthy_str (Cmd.ppi_embeddingdir a) = true
     ∧ truthy_str (Cmd.image_embeddingdir a) = true
     ∧ truthy_list (Cmd.embeddings a) = false)
    ∨ (truthy_list (Cmd.embeddings a) = true
       ∧ truthy_str (Cmd.ppi_embeddingdir a) = false
       ∧ truthy_str (Cmd.image_embeddingdir a) = false
       ∧ ((length (default [] (Cmd.embeddings a)) ≤ 2)%nat
          ∨ Cmd.algorithm a = Cmd.auto)).
Proof.
  unfold Cmd.check_arguments.
  destruct (truthy_str (Cmd.ppi_embeddingdir a)),
    (truthy_str (Cmd.image_embeddingdir a)),
    (truthy_list (Cmd.embeddings a)); cbn [orb andb negb];
    try (split; [discriminate|intros [(?&?&?)|(?&?&?&?)]; discriminate]);
    try (split; [left; auto|reflexivity]).
  case_bool_decide as Hlen; cbn [andb].
  - destruct (Cmd.algorithm a).
    + split; [right; auto|reflexivity].
    + split; [discriminate|].
      intros [(?&?&?)|(_&_&_&[?|?])]; [discriminate|lia|discriminate].
  - split; [right; repeat split; left; lia|reflexivity].
Qed.



End MainAlways.

(** ** The input directories of a run *)
Section InputDirs.
Context `{Env}.

Lemma rfind_no_sep (f : string) (pos : nat) (last : option nat) :
  Paths.no_sep f = true → rfind_sep_go f pos last = last.
Proof.
  revert pos last. induction f as [|c f IH]; intros pos last Hf; [reflexivity|].
  simpl in Hf. apply andb_true_iff in Hf as [Hc Hf].
  simpl. apply negb_true_iff in Hc. rewrite Hc. apply IH, Hf.
Qed.

Lemma rfind_last_sep (a f : string) (pos : nat) (last : option nat) :
  Paths.no_sep f = true →
  rfind_sep_go (a +:+ String "/" f) pos last = Some (pos + String.length a)%nat.
Proof.
  intros Hf. revert pos last. induction a as [|c a IH]; intros pos last.
  - simpl. rewrite (rfind_no_sep f _ _ Hf). f_equal. lia.
  - simpl. rewrite IH. f_equal. lia.
Qed.

Lemma substring_prefix (a b : string) :
  String.substring 0 (String.length a) (a +:+ b) = a.
Proof.
  induction a as [|c a IH]; simpl.
  - destruct b; reflexivity.
  - rewrite IH. reflexivity.
Qed.

Lemma rstrip_sep_snoc (a : string) : rstrip_sep (a +:+ "/") = rstrip_sep a.
Proof.
  induction a as [|c a IH]; [reflexivity|].
  simpl. rewrite IH. reflexivity.
Qed.

Lemma all_sep_snoc (a : string) : all_sep (a +:+ "/") = all_sep a.
Proof.
  induction a as [|c a IH]; [reflexivity|].
  simpl. rewrite IH. reflexivity.
Qed.

Lemma ends_with_sep_snoc (a : string) :
  ends_with_sep a = true → ∃ b, a = b +:+ "/".
Proof.
  induction a as [|c a IH]; [discriminate|].
  destruct a as [|c' a].
  - simpl. intros Hc. apply Ascii.eqb_eq in Hc as ->. exists "". reflexivity.
  - intros Ha. destruct (IH Ha) as [b Hb]. exists (String c b).
    rewrite Hb. reflexivity.
Qed.

Lemma no_trailing_sep (a : string) :
  ends_with_sep a = false →
  rstrip_sep a = a ∧ (a ≠ "" → all_sep a = false).
Proof.
  induction a as [|c a IH]; [intros _; split; [reflexivity|congruence]|].
  destruct a as [|c' a].
  - simpl. intros ->. split; [reflexivity|]. reflexivity.
  - intros Ha. destruct (IH Ha) as [Hr Hall].
    split.
    + change (rstrip_sep (String c (String c' a)))
        with (let t := rstrip_sep (String c' a) in
              if Ascii.eqb c "/" && String.eqb t "" then EmptyString
              else String c t).
      cbv zeta. rewrite Hr. simpl. rewrite andb_false_r. reflexivity.
    + intros _.
      change (all_sep (String c (String c' a)))
        with (Ascii.eqb c "/" && all_sep (String c' a)).
      rewrite Hall by discriminate. apply andb_false_r.
Qed.

Lemma append_sep_assoc (a f : string) :
  (a +:+ "/") +:+ f = a +:+ String "/" f.
Proof.
  induction a as [|c a IH]; [reflexivity|].
  change (String c ((a +:+ "/") +:+ f) = String c (a +:+ String "/" f)).
  rewrite IH. reflexivity.
Qed.

Lemma length_append_sep (a : string) :
  String.length (a +:+ "/") = S (String.length a).
Proof.
  induction a as [|c a IH]; [reflexivity|].
  change (S (String.length (a +:+ "/")) = S (S (String.length a))).
  rewrite IH. reflexivity.
Qed.

Lemma dirname_of_last_sep (a f : string) :
  Paths.no_sep f = true →
  os_path_dirname (a +:+ String "/" f) = Paths.without_trailing_sep (a +:+ "/").
Proof.
  intros Hf. unfold os_path_dirname.
  rewrite (rfind_last_sep a f 0 None Hf). cbv zeta. simpl Nat.add.
  rewrite <- (length_append_sep a), <- (append_sep_assoc a f).
  rewrite (substring_prefix (a +:+ "/") f). reflexivity.
Qed.

(** [dirname] undoes [join] up to trailing separators. *)
Lemma dirname_join (d f : string) :
  Paths.no_sep f = true →
  os_path_dirname (os_path_join d f) = Paths.without_trailing_sep d.
Proof.
  intros Hf. unfold os_path_join.
  assert (Hstart : starts_with_sep f = false).
  { destruct f as [|c f]; [reflexivity|]. simpl in Hf |- *.
    apply andb_true_iff in Hf as [Hc _]. apply negb_true_iff in Hc. exact Hc. }
  rewrite Hstart.
  destruct (String.eqb d "") eqn:Hd.
  - apply String.eqb_eq in Hd as ->. cbn [orb]. change ("" +:+ f) with f.
    unfold os_path_dirname. rewrite (rfind_no_sep f 0 None Hf). reflexivity.
  - cbn [orb]. apply String.eqb_neq in Hd.
    destruct (ends_with_sep d) eqn:He.
    + destruct (ends_with_sep_snoc d He) as [b ->].
      rewrite append_sep_assoc. apply dirname_of_last_sep, Hf.
    + replace (d +:+ "/" +:+ f) with (d +:+ String "/" f) by reflexivity.
      rewrite (dirname_of_last_sep d f Hf).
      unfold Paths.without_trailing_sep.
      rewrite all_sep_snoc, rstrip_sep_snoc.
      destruct (no_trailing_sep d He) as [_ Hall]. rewrite (Hall Hd).
      reflexivity.
Qed.

(** X17. For a generator built from two directories, the input
    directories the embedder records for the provenance are the two
    directories given, less their trailing separators, when the two files
    found are regular files; a directory under the name of an embedding
    file is recorded under its own path instead. *)
Theorem directory_mode_inputdirs (fsys : fs) (dimensions : Z)
    (ppi_embeddingdir image_embeddingdir : option string)
    (embedding_files : option (list string)) (g : Runner.EmbeddingGenerator) :
  Paths.no_sep PPI_EMBEDDING_FILE = true →
  Paths.no_sep IMAGE_EMBEDDING_FILE = true →
  truthy_str ppi_embeddingdir || truthy_str image_embeddingdir = true →
  Runner.EmbeddingGenerator_init fsys dimensions ppi_embeddingdir
    image_embeddingdir embedding_files None = Ok g →
  ∃ d1 d2 f1 f2,
    ppi_embeddingdir = Some d1 ∧ image_embeddingdir = Some d2
    ∧ Runner.get_embedding_files g = [f1; f2]
    ∧ Runner._get_embedding_dirs fsys (Runner.get_embedding_files g)
      = [if os_path_isdir fsys f1 then f1 else Paths.without_trailing_sep d1;
         if os_path_isdir fsys f2 then f2 else Paths.without_trailing_sep d2]
    ∧ ∀ outdir gen skip_logging,
        Runner.base_of gen = g →
        ∃ self,
          Runner.CellmapsCoEmbedder_init fsys (Some outdir) (Some gen)
            skip_logging = Ok self
          ∧ Runner.co_inputdirs self
            = Some (Runner._get_embedding_dirs fsys
                      (Runner.get_embedding_files g)).
Proof.
  intros Hppi Himg Hdirs Hg.
  destruct (directory_mode_generator fsys dimensions ppi_embeddingdir
              image_embeddingdir embedding_files g Hdirs Hg)
    as (f1 & f2 & H1 & H2 & Hfiles & _ & _ & _).
  assert (Hdir : ∀ dir f,
             Runner._get_embedding_file_from_dirs fsys dir = Ok f →
             ∃ d, dir = Some d
               ∧ (if os_path_isfile fsys f then os_path_dirname f else f)
                 = if os_path_isdir fsys f then f
                   else Paths.without_trailing_sep d).
  { intros dir f Hf.
    destruct (found_embedding_file fsys dir f Hf) as (Hex & d & -> & Hcase).
    exists d. split; [reflexivity|].
    unfold os_path_exists in Hex. apply bool_decide_eq_true in Hex as [n Hn].
    unfold os_path_isfile, os_path_isdir. rewrite Hn.
    destruct n; try reflexivity;
      destruct Hcase as [-> | [-> _]]; apply dirname_join; assumption. }
  destruct (Hdir _ _ H1) as (d1 & -> & Hd1).
  destruct (Hdir _ _ H2) as (d2 & -> & Hd2).
  exists d1, d2, f1, f2. split; [reflexivity|]. split; [reflexivity|].
  unfold Runner.get_embedding_files. split; [exact Hfiles|].
  split.
  - rewrite Hfiles. unfold Runner._get_embedding_dirs.
    cbn [fmap list_fmap]. rewrite Hd1, Hd2. reflexivity.
  - intros outdir gen skip_logging Hgen. eexists. split; [reflexivity|].
    cbn [Runner.co_inputdirs]. rewrite Hgen. reflexivity.
Qed.

End InputDirs.

(** ** Embedding files that cannot be read *)
Section Unreadable.
Context `{Env}.
Variable muse_fit_predict : Runner.fit_args → M Runner.world (list (list float)).

Lemma mapM_first_raise {A B} (f : A → result B) (before after : list A)
    (x : A) (e : exn) :
  Forall (fun a => ∃ b, f a = Ok b) before →
  f x = Raise e →
  mapM f (before ++ x :: after)%list = Raise e.
Proof.
  intros Hb Hx. induction Hb as [|a before [b Ha] _ IH].
  - cbn [app mapM]. rewrite Hx. reflexivity.
  - cbn [app mapM]. rewrite Ha, bind_Ok, IH. reflexivity.
Qed.

(** X18. The constructor does not look at the embedding files it is
    given; a file that is missing, or is a directory, shows only when the
    MUSE generator is asked for its first row: it yields nothing and ends
    with [OSError] for the first such file in the list, whatever the
    files after it hold, and no file is written. *)
Theorem unreadable_file_ends_generator (g : Runner.MuseCoEmbeddingGenerator)
    (w : Runner.world) (before after : list string) (path : string) :
  Runner._embedding_files (Runner.muse_base g)
  = (before ++ path :: after)%list →
  Forall (fun p => os_path_isfile (Runner.files w) p = true) before →
  os_path_isfile (Runner.files w) path = false →
  (∀ fsys dimensions,
     ∃ b, Runner.EmbeddingGenerator_init fsys dimensions None None
            (Some (before ++ path :: after)%list) None = Ok b
          ∧ Runner._embedding_files b = (before ++ path :: after)%list)
  ∧ Runner.Muse_get_next_embedding muse_fit_predict g w
    = (([], Some (OSError path)), w).
Proof.
  intros Hfiles Hbefore Hpath. split.
  - intros fsys dimensions.
    destruct (default_names_generator fsys dimensions None None
                (before ++ path :: after)%list eq_refl)
      as (b & Hb & Hf & _).
    exists b. split; [exact Hb|exact Hf].
  - apply generator_align_raises. unfold Runner.align, Runner.load_tables.
    rewrite Hfiles.
    rewrite (mapM_first_raise (Runner._get_embeddings (Runner.files w))
               before after path (OSError path)); [reflexivity| |].
    + eapply Forall_impl; [exact Hbefore|]. intros p Hp.
      unfold Runner._get_embeddings, Runner.read_rows.
      unfold os_path_isfile in Hp.
      destruct (Runner.files w !! p) as [[rows|t|]|]; try discriminate;
        eexists; reflexivity.
    + unfold Runner._get_embeddings, Runner.read_rows.
      unfold os_path_isfile in Hpath.
      destruct (Runner.files w !! path) as [[rows|t|]|]; try discriminate;
        reflexivity.
Qed.

End Unreadable.

(** ** The further properties on the sample files *)
Section Scenarios.
Import Sample Scenario.

(** X1 at two files given with two names. *)
Lemma constructed_names_match_files_witness :
  Runner.EmbeddingGenerator_init disk 128 None None
    (Some ["/data/A.tsv"; "/data/B.tsv"]) (Some ["ppi"; "image"])
  = Ok named_AB
  ∧ length (Runner._embedding_names named_AB)
    = length (Runner._embedding_files named_AB)
  ∧ Runner.get_dimensions named_AB = 128.
Proof.
  split; [reflexivity|].
  apply (constructed_names_match_files disk 128 None None
           (Some ["/data/A.tsv"; "/data/B.tsv"]) (Some ["ppi"; "image"])
           named_AB).
  reflexivity.
Defined.

(** X2 at the image directory, which holds no PPI file. *)
Lemma found_embedding_file_witness :
  Runner._get_embedding_file_from_dirs disk (Some "/data/image")
  = Ok "/data/image/image_emd.tsv"
  ∧ os_path_exists disk "/data/image/image_emd.tsv" = true
  ∧ ∃ d, Some "/data/image" = Some d
      ∧ ("/data/image/image_emd.tsv" = os_path_join d PPI_EMBEDDING_FILE
         ∨ ("/data/image/image_emd.tsv" = os_path_join d IMAGE_EMBEDDING_FILE
            ∧ os_path_exists disk (os_path_join d PPI_EMBEDDING_FILE) = false)).
Proof.
  split; [vm_compute; reflexivity|].
  apply (found_embedding_file disk (Some "/data/image")
           "/data/image/image_emd.tsv").
  vm_compute. reflexivity.
Defined.

(** X3 at the two directories of the sample disk. *)
Lemma directory_mode_generator_witness :
  truthy_str (Some "/data/ppi") || truthy_str (Some "/data/image") = true
  ∧ Runner.EmbeddingGenerator_init disk 128 (Some "/data/ppi")
      (Some "/data/image") None None = Ok from_directories
  ∧ ∃ ppi_file image_file,
      Runner._get_embedding_file_from_dirs disk (Some "/data/ppi")
      = Ok ppi_file
      ∧ Runner._get_embedding_file_from_dirs disk (Some "/data/image")
        = Ok image_file
      ∧ Runner._embedding_files from_directories = [ppi_file; image_file]
      ∧ Runner._embedding_names from_directories = ["PPI"; "image"]
      ∧ truthy_list (None : option (list string)) = false
      ∧ (Some "/data/ppi" = Some "/data/image" → ppi_file = image_file).
Proof.
  split; [reflexivity|]. split; [vm_compute; reflexivity|].
  apply (directory_mode_generator disk 128 (Some "/data/ppi")
           (Some "/data/image") None from_directories);
    vm_compute; reflexivity.
Defined.

(** X4 at three files. *)
Lemma default_names_generator_witness :
  truthy_str None || truthy_str None = false
  ∧ ∃ g,
      Runner.EmbeddingGenerator_init disk 128 None None
        (Some ["/data/A.tsv"; "/data/B.tsv"; "/data/C.tsv"]) None = Ok g
      ∧ Runner._embedding_files g
        = ["/data/A.tsv"; "/data/B.tsv"; "/data/C.tsv"]
      ∧ Runner._embedding_names g
        = (fun i => "emd_" +:+ str_of_nat i)
            <$> seq 0 (length ["/data/A.tsv"; "/data/B.tsv"; "/data/C.tsv"])
      ∧ NoDup (Runner._embedding_names g).
Proof.
  split; [reflexivity|].
  apply (default_names_generator disk 128 None None
           ["/data/A.tsv"; "/data/B.tsv"; "/data/C.tsv"]).
  reflexivity.
Defined.

(** X6 at the single table A. *)
Lemma muse_needs_two_tables_witness :
  mapM (Runner._get_embeddings (Runner.files world0))
    (Runner._embedding_files
       (Runner.muse_base (muse_of base_A (Decimal 0 0)))) = Ok [table_A]
  ∧ length (Runner._embedding_names
              (Runner.muse_base (muse_of base_A (Decimal 0 0))))
    = length (Runner._embedding_files
                (Runner.muse_base (muse_of base_A (Decimal 0 0))))
  ∧ Forall (Forall (fun row : list string => row ≠ [])) [table_A]
  ∧ (length [table_A] < 2)%nat
  ∧ Runner.Muse_get_next_embedding zero_fit (muse_of base_A (Decimal 0 0))
      world0 = (([], Some IndexError), world0).
Proof.
  assert (Hraw : mapM (Runner._get_embeddings (Runner.files world0))
                   (Runner._embedding_files
                      (Runner.muse_base (muse_of base_A (Decimal 0 0))))
                 = Ok [table_A]) by (vm_compute; reflexivity).
  assert (Hne : Forall (Forall (fun row : list string => row ≠ [])) [table_A])
    by (repeat constructor; discriminate).
  assert (Hlen : (length [table_A] < 2)%nat) by (simpl; lia).
  split; [exact Hraw|]. split; [reflexivity|]. split; [exact Hne|].
  split; [exact Hlen|].
  exact (muse_needs_two_tables zero_fit (muse_of base_A (Decimal 0 0)) world0
           [table_A] Hraw eq_refl Hne Hlen).
Defined.

(** X7 at the tables A and B, which share [gene2]. *)
Lemma muse_without_outdir_witness :
  Runner._outdir (muse_without_outdir_of base_AB) = None
  ∧ Runner.align (Runner.files world0)
      (Runner.muse_base (muse_without_outdir_of base_AB))
    = Ok ({["gene2"]}, ["gene2"],
          [[[Decimal 3 1; Decimal 4 1]]; [[Decimal 5 1; Decimal 6 1]]])
  ∧ ∃ msg,
      Runner.Muse_get_next_embedding zero_fit (muse_without_outdir_of base_AB)
        world0 = (([], Some (TypeError msg)), world0).
Proof.
  assert (Ha : Runner.align (Runner.files world0)
                 (Runner.muse_base (muse_without_outdir_of base_AB))
               = Ok ({["gene2"]}, ["gene2"],
                     [[[Decimal 3 1; Decimal 4 1]];
                      [[Decimal 5 1; Decimal 6 1]]]))
    by (vm_compute; reflexivity).
  split; [reflexivity|]. split; [exact Ha|].
  exact (muse_without_outdir zero_fit (muse_without_outdir_of base_AB) world0
           _ eq_refl Ha).
Defined.

Lemma read_A_D_reversed :
  mapM (Runner._get_embeddings disk_reversed) (Runner._embedding_files base_AD)
  = Ok [rev table_A; rev table_D].
Proof. vm_compute. reflexivity. Qed.

Lemma read_D_A :
  mapM (Runner._get_embeddings disk) (Runner._embedding_files base_DA)
  = Ok [table_D; table_A].
Proof. vm_compute. reflexivity. Qed.

(** X9 at the tables A and D and the same tables read backwards. *)
Lemma align_ignores_row_order_witness :
  mapM (Runner._get_embeddings disk) (Runner._embedding_files base_AD)
  = Ok [table_A; table_D]
  ∧ mapM (Runner._get_embeddings disk_reversed)
      (Runner._embedding_files base_AD) = Ok [rev table_A; rev table_D]
  ∧ Forall2 (fun t t' : list (list string) => t ≡ₚ t')
      [table_A; table_D] [rev table_A; rev table_D]
  ∧ Forall Spec.unique_ids [table_A; table_D]
  ∧ Runner.align disk base_AD = Runner.align disk_reversed base_AD.
Proof.
  assert (Hperm : Forall2 (fun t t' : list (list string) => t ≡ₚ t')
                    [table_A; table_D] [rev table_A; rev table_D])
    by (repeat constructor; apply Permutation_rev).
  destruct tables_A_D_well_formed as (Hu & _ & _).
  split; [exact read_A_D|]. split; [exact read_A_D_reversed|].
  split; [exact Hperm|]. split; [exact Hu|].
  exact (align_ignores_row_order disk disk_reversed base_AD _ _ read_A_D
           read_A_D_reversed Hperm Hu).
Defined.

(** X10 at the tables A and D, taken in either order. *)
Lemma align_two_symmetric_witness :
  mapM (Runner._get_embeddings disk) (Runner._embedding_files base_AD)
  = Ok [table_A; table_D]
  ∧ mapM (Runner._get_embeddings disk) (Runner._embedding_files base_DA)
    = Ok [table_D; table_A]
  ∧ length (Runner._embedding_names base_AD)
    = length (Runner._embedding_files base_AD)
  ∧ length (Runner._embedding_names base_DA)
    = length (Runner._embedding_files base_DA)
  ∧ Forall Spec.unique_ids [table_A; table_D]
  ∧ Forall Spec.numeric [table_A; table_D]
  ∧ Forall Spec.rectangular [table_A; table_D]
  ∧ ∃ s name_index m0 m1,
      Runner.align disk base_AD = Ok (s, name_index, [m0; m1])
      ∧ Runner.align disk base_DA = Ok (s, name_index, [m1; m0]).
Proof.
  destruct tables_A_D_well_formed as (Hu & Hnum & Hrect).
  split; [exact read_A_D|]. split; [exact read_D_A|].
  split; [reflexivity|]. split; [reflexivity|].
  split; [exact Hu|]. split; [exact Hnum|]. split; [exact Hrect|].
  exact (align_two_symmetric disk base_AD base_DA table_A table_D read_A_D
           read_D_A eq_refl eq_refl Hu Hnum Hrect).
Defined.

(** X11 on a MUSE run over the tables A and D whose generator raises
    after its two rows. *)
Lemma table_left_by_run_witness :
  let self := embedder_of (Runner.MuseGenerator (muse_of base_AD (Decimal 0 0))) in
  let path := "/out/coembedding_emd.tsv" in
  let fr1 := Runner.Frame world0
               [Runner.WriteTaskStart; Runner.RegisterRocrate;
                Runner.RegisterSoftware] 99 in
  (∀ c w, Runner.files (quiet c w).2 !! path = Runner.files w !! path)
  ∧ Runner.before_table quiet self
      (Runner.Frame (Runner.fworld frame0) (Runner.trace frame0) 99)
    = (Ok tt, fr1)
  ∧ os_path_join_opt (Runner.co_outdir self) CO_EMBEDDING_FILE = Ok path
  ∧ can_open_w path = true
  ∧ Runner.files (Runner.fworld (Runner.run long_fit quiet self frame0).2)
      !! path
    = Some (Runner.tsv_of
              (Runner.header_line
                 (Runner.get_dimensions
                    (Runner.base_of (Runner.co_embedding_generator self)))
               :: (Runner.get_next_embedding long_fit
                     (Runner.co_embedding_generator self)
                     (Runner.set_files (insert path (Tsv []))
                        (Runner.fworld fr1))).1.1)).
Proof.
  cbv zeta.
  assert (Hquiet : ∀ c w,
             Runner.files (quiet c w).2 !! "/out/coembedding_emd.tsv"
             = Runner.files w !! "/out/coembedding_emd.tsv")
    by (intros c w; reflexivity).
  assert (Hpre : Runner.before_table quiet
                   (embedder_of
                      (Runner.MuseGenerator (muse_of base_AD (Decimal 0 0))))
                   (Runner.Frame (Runner.fworld frame0) (Runner.trace frame0) 99)
                 = (Ok tt,
                    Runner.Frame world0
                      [Runner.WriteTaskStart; Runner.RegisterRocrate;
                       Runner.RegisterSoftware] 99))
    by (vm_compute; reflexivity).
  split; [exact Hquiet|]. split; [exact Hpre|]. split; [reflexivity|].
  split; [reflexivity|].
  exact (table_left_by_run long_fit quiet "/out/coembedding_emd.tsv" Hquiet
           (embedder_of (Runner.MuseGenerator (muse_of base_AD (Decimal 0 0))))
           frame0 _ tt Hpre eq_refl eq_refl).
Defined.

(** That run, evaluated: the generator raises after the second row, the
    two rows are on disk, [run] raises and the finish record carries
    99. *)
Example failed_run_sample :
  let out := Runner.run long_fit quiet
               (embedder_of
                  (Runner.MuseGenerator (muse_of base_AD (Decimal 0 0))))
               frame0 in
  out.1 = Raise IndexError
  ∧ Runner.files (Runner.fworld out.2) !! "/out/coembedding_emd.tsv"
    = Some (Tsv [[""; "1"; "2"; "3"];
                 ["gene1"; "0.0"; "0.0"; "0.0"; "0.0"];
                 ["gene2"; "0.0"; "0.0"; "0.0"; "0.0"]])
  ∧ Runner.trace out.2
    = [Runner.WriteTaskStart; Runner.RegisterRocrate; Runner.RegisterSoftware;
       Runner.WriteTaskFinish 99].
Proof. vm_compute. repeat split; reflexivity. Qed.

(** A run whose crate is refused for the key [name], evaluated: the
    message ends in the quoted key, the table is not opened and the
    finish record carries 99. *)
Example missing_key_sample :
  let out := Runner.run zero_fit missing_key
               (embedder_of
                  (Runner.MuseGenerator (muse_of base_AD (Decimal 0 0))))
               frame0 in
  out.1 = Raise (CellmapsCoEmbeddingError "Key missing in provenance: 'name'")
  ∧ Runner.files (Runner.fworld out.2) !! "/out/coembedding_emd.tsv" = None
  ∧ Runner.trace out.2
    = [Runner.WriteTaskStart; Runner.RegisterRocrate;
       Runner.WriteTaskFinish 99].
Proof. vm_compute. repeat split; reflexivity. Qed.

(** X13 on a MUSE run over the tables A and D, with a crate in the input
    directory [/data], which is given twice. *)
Lemma successful_run_calls_witness :
  let self := embedder_of (Runner.MuseGenerator (muse_of base_AD (Decimal 5 1))) in
  (Runner.run zero_fit quiet self frame_with_crate).1 = Ok 0
  ∧ 0 = 0
  ∧ ∃ (merged : bool) (crates : list string),
      crates `sublist_of` default [] (Runner.co_inputdirs self)
      ∧ Runner.trace (Runner.run zero_fit quiet self frame_with_crate).2
        = (Runner.trace frame_with_crate
           ++ Calls.successful_calls (Runner.co_outdir self)
                (Runner.co_skip_logging self)
                (os_path_isdir (Runner.files (Runner.fworld frame_with_crate))
                   (default "" (Runner.co_outdir self)))
                merged crates)%list.
Proof.
  cbv zeta.
  assert (Hrun : (Runner.run zero_fit quiet
                    (embedder_of
                       (Runner.MuseGenerator (muse_of base_AD (Decimal 5 1))))
                    frame_with_crate).1 = Ok 0) by (vm_compute; reflexivity).
  split; [exact Hrun|].
  exact (successful_run_calls zero_fit quiet _ frame_with_crate 0 Hrun).
Defined.

(** The calls of that run, evaluated. *)
Example successful_run_sample :
  Runner.trace
    (Runner.run zero_fit quiet
       (embedder_of (Runner.MuseGenerator (muse_of base_AD (Decimal 5 1))))
       frame_with_crate).2
  = [Runner.WriteTaskStart; Runner.GetMergedProvenance;
     Runner.ProvenanceAttr "get_name";
     Runner.ProvenanceAttr "get_organization_name";
     Runner.ProvenanceAttr "get_project_name";
     Runner.ProvenanceAttr "get_keywords";
     Runner.ProvenanceAttr "get_description";
     Runner.RegisterRocrate; Runner.RegisterSoftware;
     Runner.GetDefaultDateFormatStr; Runner.RegisterDataset;
     Runner.GetIdOfRocrate "/data"; Runner.GetIdOfRocrate "/data";
     Runner.GetLogin; Runner.RegisterComputation; Runner.WriteTaskFinish 0].
Proof. vm_compute. reflexivity. Qed.

(** X14 on the fake generator over the tables A and B. *)
Lemma fake_run_never_returns_witness :
  (Runner.co_embedding_generator (embedder_of (Runner.FakeGenerator base_AB))
   = Runner.FakeGenerator base_AB
   ∨ Runner.co_embedding_generator (embedder_of (Runner.FakeGenerator base_AB))
     = Runner.BaseGenerator base_AB)
  ∧ (∃ e, (Runner.run zero_fit quiet
             (embedder_of (Runner.FakeGenerator base_AB)) frame0).1 = Raise e)
  ∧ Spec.finish_records
      (Runner.trace
         (Runner.run zero_fit quiet
            (embedder_of (Runner.FakeGenerator base_AB)) frame0).2)
    = (Spec.finish_records (Runner.trace frame0) ++ [99])%list.
Proof.
  split; [left; reflexivity|].
  exact (fake_run_never_returns zero_fit quiet
           (embedder_of (Runner.FakeGenerator base_AB)) frame0 base_AB
           (or_introl eq_refl)).
Defined.

(** X17 at the two directories of the sample disk. *)
Lemma directory_mode_inputdirs_witness :
  Paths.no_sep PPI_EMBEDDING_FILE = true
  ∧ Paths.no_sep IMAGE_EMBEDDING_FILE = true
  ∧ truthy_str (Some "/data/ppi") || truthy_str (Some "/data/image") = true
  ∧ Runner.EmbeddingGenerator_init disk 128 (Some "/data/ppi")
      (Some "/data/image") None None = Ok from_directories
  ∧ ∃ d1 d2 f1 f2,
      Some "/data/ppi" = Some d1 ∧ Some "/data/image" = Some d2
      ∧ Runner.get_embedding_files from_directories = [f1; f2]
      ∧ Runner._get_embedding_dirs disk
          (Runner.get_embedding_files from_directories)
        = [if os_path_isdir disk f1 then f1 else Paths.without_trailing_sep d1;
           if os_path_isdir disk f2 then f2 else Paths.without_trailing_sep d2]
      ∧ ∀ outdir gen skip_logging,
          Runner.base_of gen = from_directories →
          ∃ self,
            Runner.CellmapsCoEmbedder_init disk (Some outdir) (Some gen)
              skip_logging = Ok self
            ∧ Runner.co_inputdirs self
              = Some (Runner._get_embedding_dirs disk
                        (Runner.get_embedding_files from_directories)).
Proof.
  assert (Hg : Runner.EmbeddingGenerator_init disk 128 (Some "/data/ppi")
                 (Some "/data/image") None None = Ok from_directories)
    by (vm_compute; reflexivity).
  split; [reflexivity|]. split; [reflexivity|]. split; [reflexivity|].
  split; [exact Hg|].
  exact (directory_mode_inputdirs disk 128 (Some "/data/ppi")
           (Some "/data/image") None from_directories eq_refl eq_refl eq_refl
           Hg).
Defined.

(** The directories recorded there, evaluated. *)
Example directory_mode_inputdirs_sample :
  Runner._get_embedding_dirs disk (Runner.get_embedding_files from_directories)
  = ["/data/ppi"; "/data/image"].
Proof. vm_compute. reflexivity. Qed.

(** X18 at a list of three files whose second is missing. *)
Lemma unreadable_file_witness :
  Runner._embedding_files
    (Runner.muse_base (muse_of base_A_missing_B (Decimal 0 0)))
  = (["/data/A.tsv"] ++ "/data/missing.tsv" :: ["/data/B.tsv"])%list
  ∧ Forall (fun p => os_path_isfile (Runner.files world0) p = true)
      ["/data/A.tsv"]
  ∧ os_path_isfile (Runner.files world0) "/data/missing.tsv" = false
  ∧ (∀ fsys dimensions,
       ∃ b, Runner.EmbeddingGenerator_init fsys dimensions None None
              (Some (["/data/A.tsv"] ++ "/data/missing.tsv" :: ["/data/B.tsv"])%list)
              None = Ok b
            ∧ Runner._embedding_files b
              = (["/data/A.tsv"] ++ "/data/missing.tsv" :: ["/data/B.tsv"])%list)
  ∧ Runner.Muse_get_next_embedding zero_fit
      (muse_of base_A_missing_B (Decimal 0 0)) world0
    = (([], Some (OSError "/data/missing.tsv")), world0).
Proof.
  assert (Hbefore : Forall (fun p => os_path_isfile (Runner.files world0) p = true)
                      ["/data/A.tsv"])
    by (repeat constructor).
  assert (Hpath : os_path_isfile (Runner.files world0) "/data/missing.tsv"
                  = false) by (vm_compute; reflexivity).
  split; [reflexivity|]. split; [exact Hbefore|]. split; [exact Hpath|].
  exact (unreadable_file_ends_generator zero_fit
           (muse_of base_A_missing_B (Decimal 0 0)) world0 ["/data/A.tsv"]
           ["/data/B.tsv"] "/data/missing.tsv" eq_refl Hbefore Hpath).
Defined.

End Scenarios.
